(** * target-lightspeedrseries: token lifecycle, rate-limited executor and
      order submission, embedded from [auth.py], [client.py] and [sinks.py].

    Conventions of the embedding.
    - A Python [str] is a [string]; header values are read as Latin-1, so
      one character is one code point below 256.
    - A Python [float] is an exact rational ([Q]) or one of inf / nan: the
      binary64 rounding of the interpreter is not modelled.
    - A function that can raise returns a [result]; the exception carries
      its class name, its message and the HTTP response attached to it.
    - What the environment answers (clock readings, HTTP responses, library
      parsers that are not part of the repository) is an argument or a
      Section variable of the function that asks for it. *)

From Stdlib Require Import ZArith QArith Qround Lqa Lia List String Ascii Bool.
From Stdlib Require Import DecimalString.
Import ListNotations.

#[local] Set Warnings "-register-all".
Local Close Scope Q_scope.
Local Open Scope list_scope.
Local Open Scope string_scope.
Local Open Scope Z_scope.

(** ** Python prelude *)
Module Py.

(** *** Exceptions and results *)

Inductive result (E A : Type) : Type :=
| Ok (a : A)
| Raise (e : E).
Arguments Ok {E A} a.
Arguments Raise {E A} e.

Definition bind {E A B} (m : result E A) (k : A -> result E B) : result E B :=
  match m with
  | Ok a => k a
  | Raise e => Raise e
  end.

(** *** Characters and strings *)

Definition code (c : ascii) : Z := Z.of_N (N_of_ascii c).

Definition chr (n : Z) : ascii := ascii_of_N (Z.to_N n).

Definition is_digit (c : ascii) : bool :=
  (48 <=? code c) && (code c <=? 57).

Definition digit_of (c : ascii) : option Z :=
  if is_digit c then Some (code c - 48) else None.

(** Whitespace accepted around a number by [int()] and [float()], for
    code points below 256. *)
Definition is_space (c : ascii) : bool :=
  let n := code c in
  ((9 <=? n) && (n <=? 13)) || (n =? 32) || (n =? 133) || (n =? 160).

Definition lower (c : ascii) : ascii :=
  let n := code c in
  if (65 <=? n) && (n <=? 90) then chr (n + 32) else c.

Definition chars (s : string) : list ascii := list_ascii_of_string s.
Definition str_of (l : list ascii) : string := string_of_list_ascii l.

Definition lower_str (s : string) : string := str_of (map lower (chars s)).

(** [c in s] for a one-character [c]. *)
Fixpoint contains_char (c : ascii) (s : string) : bool :=
  match s with
  | EmptyString => false
  | String a r => Ascii.eqb a c || contains_char c r
  end.

(** [s.count(c)] for a one-character [c]. *)
Fixpoint count_char (c : ascii) (s : string) : Z :=
  match s with
  | EmptyString => 0
  | String a r => (if Ascii.eqb a c then 1 else 0) + count_char c r
  end.

(** [s.replace(c, by)] for a one-character [c]. *)
Fixpoint replace_char (c : ascii) (by_ : string) (s : string) : string :=
  match s with
  | EmptyString => EmptyString
  | String a r =>
      if Ascii.eqb a c then by_ ++ replace_char c by_ r
      else String a (replace_char c by_ r)
  end.

(** [s[:n]] *)
Fixpoint take (n : nat) (s : string) : string :=
  match n, s with
  | S k, String a r => String a (take k r)
  | _, _ => EmptyString
  end.

Fixpoint lstrip (l : list ascii) : list ascii :=
  match l with
  | c :: r => if is_space c then lstrip r else l
  | [] => []
  end.

Definition strip (l : list ascii) : list ascii :=
  rev (lstrip (rev (lstrip l))).

Definition string_of_Z (z : Z) : string :=
  NilZero.string_of_int (Z.to_int z).

(** Decimal rendering of a non-negative number on at least [w] digits. *)
Fixpoint zeros (n : nat) : string :=
  match n with
  | O => EmptyString
  | S k => String "0" (zeros k)
  end.

Definition pad (w : nat) (z : Z) : string :=
  let s := string_of_Z z in
  zeros (w - String.length s) ++ s.

(** *** Number literals *)

(** A run of decimal digits in which single underscores may stand between
    two digits; gives the value read (continuing [acc]), the number of
    digits and the rest.  An underscore that is not between two digits
    makes the whole literal invalid. *)
Fixpoint digit_run (acc : Z) (n : nat) (l : list ascii)
  : option (Z * nat * list ascii) :=
  match l with
  | [] => Some (acc, n, [])
  | c :: r =>
      match digit_of c with
      | None => Some (acc, n, l)
      | Some d =>
          match r with
          | u :: r2 =>
              if Ascii.eqb u "_" then
                match r2 with
                | c2 :: _ =>
                    if is_digit c2 then digit_run (10 * acc + d) (S n) r2
                    else None
                | [] => None
                end
              else digit_run (10 * acc + d) (S n) r
          | [] => Some (10 * acc + d, S n, [])
          end
      end
  end.

Definition split_sign (l : list ascii) : bool * list ascii :=
  match l with
  | c :: r =>
      if Ascii.eqb c "-" then (true, r)
      else if Ascii.eqb c "+" then (false, r)
      else (false, l)
  | [] => (false, [])
  end.

(** [int(s)] for a string: [None] stands for ValueError. *)
Definition int_of_str (s : string) : option Z :=
  let '(neg, body) := split_sign (strip (chars s)) in
  match digit_run 0 O body with
  | Some (v, S _, []) => Some (if neg then - v else v)
  | _ => None
  end.

(** *** Floats *)

Inductive pyfloat : Type :=
| Fin (q : Q)
| Inf (negative : bool)
| NaN.

Definition pow10 (n : Z) : positive := Z.to_pos (10 ^ n).

(** Value of mantissa [m] with [frac] fractional digits and decimal
    exponent [ex]. *)
Definition decimal_value (m : Z) (frac : nat) (ex : Z) : Q :=
  let e := ex - Z.of_nat frac in
  if 0 <=? e then inject_Z (m * 10 ^ e) else Qmake m (pow10 (- e)).

Definition exponent_of (l : list ascii) : option Z :=
  match l with
  | [] => Some 0
  | c :: r =>
      if Ascii.eqb (lower c) "e" then
        let '(neg, body) := split_sign r in
        match digit_run 0 O body with
        | Some (v, S _, []) => Some (if neg then - v else v)
        | _ => None
        end
      else None
  end.

(** [float(s)] for a string: [None] stands for ValueError. *)
Definition float_of_str (s : string) : option pyfloat :=
  let '(neg, body) := split_sign (strip (chars s)) in
  let word := str_of (map lower body) in
  if String.eqb word "inf" || String.eqb word "infinity" then Some (Inf neg)
  else if String.eqb word "nan" then Some NaN
  else
    match digit_run 0 O body with
    | Some (ip, n1, rest) =>
        let after_point :=
          match rest with
          | c :: r =>
              if Ascii.eqb c "." then
                match r with
                | u :: _ => if Ascii.eqb u "_" then None else digit_run ip O r
                | [] => Some (ip, O, [])
                end
              else Some (ip, O, rest)
          | [] => Some (ip, O, [])
          end in
        match after_point with
        | Some (m, n2, rest2) =>
            match (n1 + n2)%nat, exponent_of rest2 with
            | S _, Some ex =>
                let v := decimal_value m n2 ex in
                Some (Fin (if neg then Qopp v else v))
            | _, _ => None
            end
        | None => None
        end
    | None => None
    end.

(** [round(x)] of a float: to the nearest integer, ties to even. *)
Definition round (x : Q) : Z :=
  let f := Qfloor x in
  match Qcompare (Qminus x (inject_Z f)) (1 # 2) with
  | Lt => f
  | Gt => f + 1
  | Eq => if Z.even f then f else f + 1
  end.

(** [int(x)] of a float: towards zero. *)
Definition trunc (x : Q) : Z :=
  if Qle_bool 0 x then Qfloor x else Qceiling x.

(** [x < y] on floats *)
Definition Qlt_bool (x y : Q) : bool := negb (Qle_bool y x).

(** [max(a, b)]: the first argument unless the second is larger. *)
Definition max_q (a b : Q) : Q := if Qlt_bool a b then b else a.

(** *** Datetimes *)

(** [datetime.datetime]; [tzinfo] is the UTC offset in seconds of an aware
    value, [None] for a naive one. *)
Record datetime : Type := mkdatetime {
  year : Z; month : Z; day : Z;
  hour : Z; minute : Z; second : Z; microsecond : Z;
  tzinfo : option Z
}.

Definition utc : option Z := Some 0.

(** [dt.replace(tzinfo=tz)] *)
Definition replace_tzinfo (tz : option Z) (d : datetime) : datetime :=
  mkdatetime (year d) (month d) (day d) (hour d) (minute d) (second d)
             (microsecond d) tz.

Definition format_offset (off : Z) : string :=
  let a := Z.abs off in
  let hh := a / 3600 in
  let mm := (a mod 3600) / 60 in
  let ss := a mod 60 in
  (if off <? 0 then "-" else "+") ++ pad 2 hh ++ ":" ++ pad 2 mm
  ++ (if ss =? 0 then "" else ":" ++ pad 2 ss).

(** [dt.isoformat(sep)] *)
Definition isoformat_sep (sep : string) (d : datetime) : string :=
  pad 4 (year d) ++ "-" ++ pad 2 (month d) ++ "-" ++ pad 2 (day d) ++ sep
  ++ pad 2 (hour d) ++ ":" ++ pad 2 (minute d) ++ ":" ++ pad 2 (second d)
  ++ (if microsecond d =? 0 then "" else "." ++ pad 6 (microsecond d))
  ++ match tzinfo d with
     | None => ""
     | Some off => format_offset off
     end.

Definition isoformat : datetime -> string := isoformat_sep "T".

(** Days from 1970-01-01 to the given day of the proleptic Gregorian
    calendar. *)
Definition days_from_civil (y m d : Z) : Z :=
  let y' := if m <=? 2 then y - 1 else y in
  let era := y' / 400 in
  let yoe := y' - era * 400 in
  let mp := (m + 9) mod 12 in
  let doy := (153 * mp + 2) / 5 + d - 1 in
  let doe := yoe * 365 + yoe / 4 - yoe / 100 + doy in
  era * 146097 + doe - 719468.

(** Seconds from the epoch to the wall-clock fields of [d]. *)
Definition wall_seconds (d : datetime) : Q :=
  Qplus
    (inject_Z (days_from_civil (year d) (month d) (day d) * 86400
               + hour d * 3600 + minute d * 60 + second d))
    (Qmake (microsecond d) 1000000).

(** [d - datetime.utcnow()] in seconds, [utcnow] being the wall-clock
    seconds of the naive UTC reading: defined between naive values only. *)
Definition naive_delta (d : datetime) (utcnow : Q) : option Q :=
  match tzinfo d with
  | None => Some (Qminus (wall_seconds d) utcnow)
  | Some _ => None
  end.

(** *** Values *)

(** The objects that records, payloads, configuration and JSON bodies are
    made of.  A float carries its rational value and the text Python prints
    for it; a dict is its list of items in insertion order. *)
Inductive value : Type :=
| VNone
| VBool (b : bool)
| VInt (z : Z)
| VFloat (q : Q) (text : string)
| VStr (s : string)
| VDatetime (d : datetime)
| VList (l : list value)
| VDict (items : list (string * value)).

Definition dict : Type := list (string * value).

(** [bool(v)] *)
Definition truthy (v : value) : bool :=
  match v with
  | VNone => false
  | VBool b => b
  | VInt z => negb (z =? 0)
  | VFloat q _ => negb (Qeq_bool q 0)
  | VStr s => negb (String.eqb s "")
  | VDatetime _ => true
  | VList l => match l with [] => false | _ => true end
  | VDict d => match d with [] => false | _ => true end
  end.

(** [a or b] *)
Definition por (a b : value) : value := if truthy a then a else b.

(** [d.get(k)] as a lookup, and with Python's default of [None]. *)
Fixpoint lookup (k : string) (d : dict) : option value :=
  match d with
  | [] => None
  | (k', v) :: r => if String.eqb k' k then Some v else lookup k r
  end.

Definition get (k : string) (d : dict) : value :=
  match lookup k d with
  | Some v => v
  | None => VNone
  end.

(** [k in d] *)
Definition has_key (k : string) (d : dict) : bool :=
  match lookup k d with
  | Some _ => true
  | None => false
  end.

(** [d[k] = v]: an existing key keeps its place. *)
Fixpoint set (k : string) (v : value) (d : dict) : dict :=
  match d with
  | [] => [(k, v)]
  | (k', v') :: r =>
      if String.eqb k' k then (k, v) :: r else (k', v') :: set k v r
  end.

Fixpoint remove (k : string) (d : dict) : dict :=
  match d with
  | [] => []
  | (k', v') :: r =>
      if String.eqb k' k then r else (k', v') :: remove k r
  end.

(** [d.pop(k, default)]: the value and the dict without the key. *)
Definition pop (k : string) (default : value) (d : dict) : value * dict :=
  match lookup k d with
  | Some v => (v, remove k d)
  | None => (default, d)
  end.

(** *** [repr] and [str] *)

Definition quote : ascii := chr 39.
Definition dquote : ascii := chr 34.
Definition backslash : ascii := chr 92.

Definition hex_digit (n : Z) : ascii :=
  if n <? 10 then chr (48 + n) else chr (87 + n).

Definition escape_char (q : ascii) (c : ascii) : string :=
  let n := code c in
  if Ascii.eqb c backslash then String backslash (String backslash "")
  else if Ascii.eqb c q then String backslash (String q "")
  else if n =? 10 then String backslash "n"
  else if n =? 13 then String backslash "r"
  else if n =? 9 then String backslash "t"
  else if (n <? 32) || (n =? 127) then
    String backslash
      (String "x" (String (hex_digit (n / 16)) (String (hex_digit (n mod 16)) "")))
  else String c "".

Definition repr_str (s : string) : string :=
  let q :=
    if contains_char quote s && negb (contains_char dquote s)
    then dquote else quote in
  String q (String.concat "" (map (escape_char q) (chars s))) ++ String q "".

Definition repr_datetime (d : datetime) : string :=
  "datetime.datetime(" ++ string_of_Z (year d) ++ ", "
  ++ string_of_Z (month d) ++ ", " ++ string_of_Z (day d) ++ ", "
  ++ string_of_Z (hour d) ++ ", " ++ string_of_Z (minute d)
  ++ (if microsecond d =? 0 then
        if second d =? 0 then "" else ", " ++ string_of_Z (second d)
      else ", " ++ string_of_Z (second d) ++ ", "
           ++ string_of_Z (microsecond d))
  ++ match tzinfo d with
     | None => ""
     | Some off =>
         ", tzinfo=datetime.timezone"
         ++ (if off =? 0 then ".utc"
             else "(datetime.timedelta("
                  ++ (if off <? 0 then "days=-1, seconds=" ++ string_of_Z (86400 + off)
                      else "seconds=" ++ string_of_Z off)
                  ++ "))")
     end
  ++ ")".

Fixpoint repr (v : value) : string :=
  match v with
  | VNone => "None"
  | VBool b => if b then "True" else "False"
  | VInt z => string_of_Z z
  | VFloat _ text => text
  | VStr s => repr_str s
  | VDatetime d => repr_datetime d
  | VList l => "[" ++ String.concat ", " (map repr l) ++ "]"
  | VDict d =>
      "{" ++ String.concat ", "
               (map (fun kv => repr_str (fst kv) ++ ": " ++ repr (snd kv)) d)
      ++ "}"
  end.

(** [str(v)] *)
Definition str (v : value) : string :=
  match v with
  | VStr s => s
  | VDatetime d => isoformat_sep " " d
  | _ => repr v
  end.

Definition type_name (v : value) : string :=
  match v with
  | VNone => "NoneType"
  | VBool _ => "bool"
  | VInt _ => "int"
  | VFloat _ _ => "float"
  | VStr _ => "str"
  | VDatetime _ => "datetime.datetime"
  | VList _ => "list"
  | VDict _ => "dict"
  end.

(** [v == s] for a string constant [s] *)
Definition eq_str (v : value) (s : string) : bool :=
  match v with
  | VStr s' => String.eqb s' s
  | _ => false
  end.

(** *** HTTP responses and exceptions *)

(** What [response.json()] does: the decoded body, or the decoder's error. *)
Inductive json_outcome : Type :=
| JsonValue (v : value)
| JsonError (msg : string).

(** [requests.Response] *)
Record response : Type := mkresponse {
  status_code : Z;
  reason : string;
  url : string;
  headers : list (string * string);
  text : string;
  json : json_outcome
}.

(** [response.headers.get(name)]: header names are compared without case. *)
Fixpoint header (name : string) (hs : list (string * string)) : option string :=
  match hs with
  | [] => None
  | (k, v) :: r =>
      if String.eqb (lower_str k) (lower_str name) then Some v
      else header name r
  end.

(** A raised exception: [type(e).__name__], [str(e)] and [e.response]
    ([None] when the attribute is missing or is [None]). *)
Record exn : Type := mkexn {
  exc_type : string;
  exc_msg : string;
  exc_response : option response
}.

Definition exc (ty msg : string) : exn := mkexn ty msg None.

Definition res : Type -> Type := result exn.

Notation "x <- m ;; k" := (bind m (fun x => k))
  (at level 61, m at next level, right associativity).

(** [v.get(k, default)] on an arbitrary object *)
Definition vget_default (k : string) (default : value) (v : value) : res value :=
  match v with
  | VDict d =>
      Ok match lookup k d with Some x => x | None => default end
  | _ =>
      Raise (exc "AttributeError"
               ("'" ++ type_name v ++ "' object has no attribute 'get'"))
  end.

Definition vget (k : string) (v : value) : res value := vget_default k VNone v.

(** [d[k]] on a dict *)
Definition getitem (k : string) (d : dict) : res value :=
  match lookup k d with
  | Some v => Ok v
  | None => Raise (exc "KeyError" (repr_str k))
  end.

(** [int(v)] *)
Definition int_of (v : value) : res Z :=
  match v with
  | VInt z => Ok z
  | VBool b => Ok (if b then 1 else 0)
  | VFloat q _ => Ok (trunc q)
  | VStr s =>
      match int_of_str s with
      | Some z => Ok z
      | None =>
          Raise (exc "ValueError"
                   ("invalid literal for int() with base 10: " ++ repr_str s))
      end
  | _ =>
      Raise (exc "TypeError"
               ("int() argument must be a string, a bytes-like object or a real number, not '"
                ++ type_name v ++ "'"))
  end.

(** The decoded body, [None] for a body that is not JSON. *)
Definition body_of (r : response) : value :=
  match json r with
  | JsonValue v => v
  | JsonError _ => VNone
  end.

(** [response.json()] *)
Definition json_of (r : response) : res value :=
  match json r with
  | JsonValue v => Ok v
  | JsonError msg => Raise (exc "JSONDecodeError" msg)
  end.

(** *** time.sleep

    [time.sleep] converts the length to a count of nanoseconds in a signed
    64-bit integer and raises OverflowError when it does not fit; it then
    refuses a negative count with ValueError.  A length that passes both
    checks is handed to the operating system, whose sleep is taken to
    succeed. *)

Definition PyTime_MIN : Z := - 2 ^ 63.
Definition PyTime_MAX : Z := 2 ^ 63 - 1.
Definition SEC_TO_NS : Z := 1000000000.

Definition sleep_overflow : exn :=
  exc "OverflowError" "timestamp too large to convert to C _PyTime_t".

Definition sleep_negative : exn :=
  exc "ValueError" "sleep length must be non-negative".

(** What [time.sleep(n)] raises for an int [n], if anything: the seconds
    are multiplied into nanoseconds after a check against the quotients of
    the bounds. *)
Definition sleep_refuses_int (secs : Z) : option exn :=
  if (secs <? Z.quot PyTime_MIN SEC_TO_NS) || (Z.quot PyTime_MAX SEC_TO_NS <? secs)
  then Some sleep_overflow
  else if secs <? 0 then Some sleep_negative
  else None.

(** The nanoseconds of a float length, rounded away from zero. *)
Definition nanoseconds (x : Q) : Z :=
  let d := Qmult x (inject_Z SEC_TO_NS) in
  if Qle_bool 0 d then Qceiling d else Qfloor d.

End Py.

(** ** auth.py: the token lifecycle *)
Module Auth.
Import Py.

Definition TOKEN_BUFFER_SECONDS : Z := 120.
Definition DEFAULT_WAIT_TIME : Q := 60 # 1.
Definition DEFAULT_TOKEN_EXPIRATION : Z := 3600.

Definition not_expired_signal : string :=
  "Rate limit exceeded: access_token not expired".

(** The authenticator: [_config] (the credentials, shared with the target),
    the credential file as last written ([None]: not written), the
    diagnostic [state] dict and the [access_token] attribute. *)
Record authenticator : Type := mkauth {
  _config : dict;
  config_file : option dict;
  state : dict;
  access_token : option value
}.

Definition with_config (c : dict) (a : authenticator) : authenticator :=
  mkauth c (config_file a) (state a) (access_token a).

(** What [v["access_token"]] raises on an object that is not a dict. *)
Definition subscript_error (v : value) : exn :=
  exc "TypeError"
    match v with
    | VList _ => "list indices must be integers or slices, not str"
    | VStr _ => "string indices must be integers, not 'str'"
    | _ => "'" ++ type_name v ++ "' object is not subscriptable"
    end.

(** [is_token_valid]; [timestamp] is the reading
    [datetime.utcnow().timestamp()]. *)
Definition is_token_valid (timestamp : Q) (a : authenticator) : res bool :=
  let access_token := get "access_token" (_config a) in
  if negb (truthy access_token) then Ok false
  else
    let expires_in := get "expires_in" (_config a) in
    match expires_in with
    | VNone => Ok false
    | _ =>
        let now := round timestamp in
        expires_in <- int_of expires_in ;;
        Ok (TOKEN_BUFFER_SECONDS <=? expires_in - now)
    end.

(** [oauth_request_body] *)
Definition oauth_request_body (a : authenticator) : res dict :=
  refresh_token <- getitem "refresh_token" (_config a) ;;
  client_id <- getitem "client_id" (_config a) ;;
  client_secret <- getitem "client_secret" (_config a) ;;
  Ok [("refresh_token", refresh_token);
      ("grant_type", VStr "refresh_token");
      ("client_id", client_id);
      ("client_secret", client_secret)].

(** [_parse_error_response] *)
Definition _parse_error_response (r : response) : value :=
  match json r with
  | JsonValue v => v
  | JsonError _ =>
      VDict [("error", VStr "Could not parse error response");
             ("text", VStr (take 200 (text r)))]
  end.

(** [response.raise_for_status()] of the HTTP library *)
Definition raise_for_status (r : response) : res unit :=
  let s := status_code r in
  let msg kind :=
    string_of_Z s ++ " " ++ kind ++ " Error: " ++ reason r
    ++ " for url: " ++ url r in
  if (400 <=? s) && (s <? 500) then
    Raise (mkexn "HTTPError" (msg "Client") (Some r))
  else if (500 <=? s) && (s <? 600) then
    Raise (mkexn "HTTPError" (msg "Server") (Some r))
  else Ok tt.

(** [_save_config_to_file]: the file is overwritten with the whole config;
    opening and writing the file are taken to succeed. *)
Definition _save_config_to_file (a : authenticator) : authenticator :=
  mkauth (_config a) (Some (_config a)) (state a) (access_token a).

(** [token_json.get("expires_in", DEFAULT_TOKEN_EXPIRATION)] *)
Definition expires_in_of (token_json : dict) : value :=
  match lookup "expires_in" token_json with
  | Some v => v
  | None => VInt DEFAULT_TOKEN_EXPIRATION
  end.

Section Refresh.

(** [datetime.fromtimestamp(t)] of the interpreter: the local date, or the
    error raised for a timestamp outside the platform's range. *)
Variable fromtimestamp : Z -> res datetime.

(** [_update_config_tokens]; [request_timestamp] is
    [request_time.timestamp()]. *)
Definition _update_config_tokens (token_json : dict) (request_timestamp : Q)
    (expires_in : value) (a : authenticator) : res bool * authenticator :=
  match getitem "access_token" token_json with
  | Raise e => (Raise e, a)
  | Ok tok =>
      let a1 := with_config (set "access_token" tok (_config a)) a in
      let '(refresh_token_updated, a2) :=
        match lookup "refresh_token" token_json with
        | Some rt => (true, with_config (set "refresh_token" rt (_config a1)) a1)
        | None => (false, a1)
        end in
      let now := round request_timestamp in
      match int_of expires_in with
      | Raise e => (Raise e, a2)
      | Ok secs =>
          let expires_timestamp := now + secs in
          let a3 :=
            with_config (set "expires_in" (VInt expires_timestamp) (_config a2)) a2 in
          match fromtimestamp expires_timestamp with
          | Ok _ => (Ok refresh_token_updated, a3)
          | Raise e => (Raise e, a3)
          end
      end
  end.

(** [update_access_token].  [request_timestamp] is the clock reading taken
    on entry; [token_request] answers [_make_token_request] for the form
    posted: the response it finally returns, or what it raises once its
    retries on HTTP 429 are used up. *)
Definition update_access_token (request_timestamp : Q)
    (token_request : dict -> res response) (a : authenticator)
  : res unit * authenticator :=
  let current_refresh_token := get "refresh_token" (_config a) in
  if negb (truthy current_refresh_token) then
    (Raise (exc "RuntimeError"
              "No refresh_token found in config. Cannot refresh access token."), a)
  else
    match oauth_request_body a with
    | Raise e => (Raise e, a)
    | Ok auth_request_payload =>
        match token_request auth_request_payload with
        | Raise e => (Raise e, a)
        | Ok token_response =>
            let signalled :=
              if status_code token_response =? 200 then
                body <- json_of token_response ;;
                d <- vget "error_description" body ;;
                Ok (eq_str d not_expired_signal)
              else Ok false in
            match signalled with
            | Raise e => (Raise e, a)
            | Ok true => (Ok tt, a)
            | Ok false =>
                match raise_for_status token_response with
                | Raise ex =>
                    let error_response := _parse_error_response token_response in
                    let a' :=
                      mkauth (_config a) (config_file a)
                             (set "auth_error_response" error_response (state a))
                             (access_token a) in
                    (Raise (exc "RuntimeError"
                              ("Failed OAuth login, response was '"
                               ++ str error_response ++ "'. " ++ exc_msg ex)), a')
                | Ok _ =>
                    match json_of token_response with
                    | Raise e => (Raise e, a)
                    | Ok token_json =>
                        match token_json with
                        | VDict tj =>
                            match getitem "access_token" tj with
                            | Raise e => (Raise e, a)
                            | Ok tok =>
                                let a1 :=
                                  mkauth (_config a) (config_file a) (state a)
                                         (Some tok) in
                                let expires_in := expires_in_of tj in
                                match _update_config_tokens tj request_timestamp
                                        expires_in a1 with
                                | (Raise e, a2) => (Raise e, a2)
                                | (Ok _, a2) => (Ok tt, _save_config_to_file a2)
                                end
                            end
                        | _ => (Raise (subscript_error token_json), a)
                        end
                    end
                end
            end
        end
    end.


End Refresh.

Section RetryAfter.

(** [email.utils.parsedate_to_datetime]; [None] when it raises (ValueError,
    or TypeError in older interpreters). *)
Variable parsedate_to_datetime : string -> option datetime.

(** [_calculate_wait_time]; [utcnow] is the reading [datetime.utcnow()].
    Subtracting the naive reading from an aware date raises TypeError, which
    the handler turns into the default like a parse error. *)
Definition _calculate_wait_time (utcnow : Q) (retry_after : option string)
  : pyfloat :=
  match retry_after with
  | None => Fin DEFAULT_WAIT_TIME
  | Some s =>
      if String.eqb s "" then Fin DEFAULT_WAIT_TIME
      else
        match float_of_str s with
        | Some f => f
        | None =>
            match parsedate_to_datetime s with
            | None => Fin DEFAULT_WAIT_TIME
            | Some retry_datetime =>
                match naive_delta retry_datetime utcnow with
                | None => Fin DEFAULT_WAIT_TIME
                | Some wait_seconds =>
                    Fin (max_q DEFAULT_WAIT_TIME wait_seconds)
                end
            end
        end
  end.

End RetryAfter.

(** The situation of a refresh that the provider answers with HTTP 200 and
    its not-expired error description: the refresh token is configured, the
    form can be built, and this is the response the token request returns. *)
Definition reports_not_expired (token_request : dict -> res response)
    (a : authenticator) : Prop :=
  truthy (get "refresh_token" (_config a)) = true /\
  exists payload resp body,
    oauth_request_body a = Ok payload /\
    token_request payload = Ok resp /\
    status_code resp = 200 /\
    json resp = JsonValue (VDict body) /\
    get "error_description" body = VStr not_expired_signal.

End Auth.

(** ** client.py: the rate-limited executor *)
Module Client.
Import Py.

Definition RATE_LIMIT_REQUESTS_PER_SECOND : Z := 3.
Definition MIN_REQUEST_INTERVAL : Q := 1 # 2.
Definition DEFAULT_RETRY_AFTER : Z := 60.
Definition MAX_RETRY_TIME : Z := 300.
Definition BACKOFF_FACTOR : Z := 2.
Definition MAX_RETRY_TRIES : Z := 5.

(** The exception classes the retry decorator of [_request] retries on. *)
Definition retried (e : exn) : bool :=
  String.eqb (exc_type e) "RetriableAPIError"
  || String.eqb (exc_type e) "ReadTimeout".

(** The process: its clock, the class-level rate-limit state, and the start
    time of every HTTP request issued so far, latest first. *)
Record process : Type := mkprocess {
  clock : Q;
  _last_request_time : Q;
  _min_request_interval : Q;
  started : list Q
}.

(** The state at class definition, at clock reading [t]. *)
Definition initial (t : Q) : process :=
  mkprocess t (0 # 1) MIN_REQUEST_INTERVAL [].

(** [d] seconds pass. *)
Definition advance (d : Q) (p : process) : process :=
  mkprocess (Qplus (clock p) d) (_last_request_time p)
            (_min_request_interval p) (started p).

(** What [requests.request] does with one call. *)
Inductive delivery : Type :=
| Returned (r : response)
| Failed (e : exn).

(** What the environment does around one call of [_request]: how long the
    caller took to get there, how much longer than asked the gate's sleep
    lasts, whether building the headers raises (a failed token refresh) and
    how long it takes, the fate and the duration of the HTTP call, the time
    until the clock is read again, and the oversleep of the 429 wait. *)
Record attempt : Type := mkattempt {
  idle : Q;
  oversleep : Q;
  headers_error : option exn;
  preparing : Q;
  delivered : delivery;
  in_flight : Q;
  lag : Q;
  oversleep_429 : Q
}.

(** [_rate_limit] *)
Definition _rate_limit (oversleep : Q) (p : process) : process :=
  let current_time := clock p in
  let time_since_last_request := Qminus current_time (_last_request_time p) in
  if Qlt_bool time_since_last_request (_min_request_interval p) then
    let sleep_time :=
      Qminus (_min_request_interval p) time_since_last_request in
    advance (Qplus sleep_time oversleep) p
  else p.

Section Executor.

Variable parsedate_to_datetime : string -> option datetime.

(** [validate_response] of the base sink, which is not part of this
    repository: what it raises for a response, if anything. *)
Variable base_validate_response : response -> res unit.

(** [_parse_retry_after]; [utcnow] is the reading [datetime.utcnow()]. *)
Definition _parse_retry_after (utcnow : Q) (retry_after : option string) : Z :=
  match retry_after with
  | None => DEFAULT_RETRY_AFTER
  | Some s =>
      if String.eqb s "" then DEFAULT_RETRY_AFTER
      else
        match int_of_str s with
        | Some n => n
        | None =>
            match parsedate_to_datetime s with
            | None => DEFAULT_RETRY_AFTER
            | Some retry_datetime =>
                match naive_delta retry_datetime utcnow with
                | None => DEFAULT_RETRY_AFTER
                | Some delta =>
                    trunc (max_q (inject_Z DEFAULT_RETRY_AFTER) delta)
                end
            end
        end
  end.

(** [_handle_429_response]: always raises, after sleeping when the wait is
    one [time.sleep] accepts, and with the error of [time.sleep] when it is
    not. *)
Definition _handle_429_response (over : Q) (r : response) (p : process)
  : exn * process :=
  let retry_after := header "Retry-After" (headers r) in
  let wait_time := _parse_retry_after (clock p) retry_after in
  match sleep_refuses_int wait_time with
  | Some e => (e, p)
  | None =>
      (mkexn "RetriableAPIError"
             ("Rate limit exceeded. Retry after " ++ string_of_Z wait_time ++ "s")
             (Some r),
       advance (Qplus (inject_Z wait_time) over) p)
  end.

(** [validate_response] *)
Definition validate_response (over : Q) (r : response) (p : process)
  : res unit * process :=
  if status_code r =? 429 then
    let '(e, p') := _handle_429_response over r p in (Raise e, p')
  else (base_validate_response r, p).

(** One call of the body of [_request]. *)
Definition _request (a : attempt) (p : process) : res response * process :=
  let p := _rate_limit (oversleep a) (advance (idle a) p) in
  let p := advance (preparing a) p in
  match headers_error a with
  | Some e => (Raise e, p)
  | None =>
      let p :=
        mkprocess (clock p) (_last_request_time p) (_min_request_interval p)
                  (clock p :: started p) in
      let p := advance (in_flight a) p in
      match delivered a with
      | Failed e => (Raise e, p)
      | Returned response =>
          let p := advance (lag a) p in
          let p :=
            mkprocess (clock p) (clock p) (_min_request_interval p)
                      (started p) in
          match validate_response (oversleep_429 a) response p with
          | (Raise e, p) => (Raise e, p)
          | (Ok _, p) => (Ok response, p)
          end
      end
  end.

(** Consecutive calls, whoever makes them (the retry decorator or the next
    submission): each outcome goes to its caller, the process state stays. *)
Fixpoint requests (l : list attempt) (p : process) : process :=
  match l with
  | [] => p
  | a :: rest => requests rest (snd (_request a p))
  end.

End Executor.

(** No duration the environment contributes is negative: the clock does not
    run backwards and a sleep lasts at least as long as asked. *)
Definition causal (a : attempt) : Prop :=
  Qle 0 (idle a) /\ Qle 0 (oversleep a) /\ Qle 0 (preparing a) /\
  Qle 0 (in_flight a) /\ Qle 0 (lag a) /\ Qle 0 (oversleep_429 a).

(** The HTTP call of the attempt, if one is made, returns a response. *)
Definition answered (a : attempt) : Prop :=
  match delivered a with
  | Returned _ => True
  | Failed _ => False
  end.

(** Start times, latest first, each at least [m] after the one before. *)
Fixpoint spaced (m : Q) (starts : list Q) : Prop :=
  match starts with
  | later :: rest =>
      match rest with
      | earlier :: _ => Qle (Qplus earlier m) later
      | [] => True
      end /\ spaced m rest
  | [] => True
  end.

(** What the gate relies on between two calls: the last-request time is not
    in the future, no request started after it, and the requests started so
    far are spaced by the minimum interval. *)
Definition settled (p : process) : Prop :=
  Qle (_last_request_time p) (clock p) /\
  (forall s, In s (started p) -> Qle s (_last_request_time p)) /\
  spaced (_min_request_interval p) (started p).

End Client.

(** ** sinks.py: the order submission workflow *)
Module Sinks.
Import Py.

Definition endpoint : string := "/Order.json".

(** [dt] with UTC attached when it is naive. *)
Definition with_utc (dt : datetime) : datetime :=
  match tzinfo dt with
  | None => replace_tzinfo utc dt
  | Some _ => dt
  end.

(** The string ends with a numeric UTC offset, [+HH:MM] or [-HH:MM]. *)
Definition ends_with_offset (s : string) : bool :=
  match rev (chars s) with
  | m2 :: m1 :: c :: h2 :: h1 :: sg :: _ =>
      (Ascii.eqb sg "+" || Ascii.eqb sg "-")
      && is_digit h1 && is_digit h2 && Ascii.eqb c ":"
      && is_digit m1 && is_digit m2
  | _ => false
  end.

Section Mapping.

(** [datetime.fromisoformat]; [None] when it raises. *)
Variable fromisoformat : string -> option datetime.

(** [json.loads]; [None] when it raises JSONDecodeError. *)
Variable json_loads : string -> option value.

(** [_format_date] *)
Definition _format_date (date_value : value) : value :=
  match date_value with
  | VNone => VNone
  | VStr s =>
      if contains_char "Z" s then VStr (replace_char "Z" "+00:00" s)
      else if contains_char "+" s || (2 <? count_char "-" s) then VStr s
      else
        match fromisoformat s with
        | Some dt => VStr (isoformat (with_utc dt))
        | None => VStr s
        end
  | VDatetime dt => VStr (isoformat (with_utc dt))
  | other => VStr (str other)
  end.

(** [_parse_line_items] *)
Definition _parse_line_items (line_items_field : value) : value :=
  if negb (truthy line_items_field) then VList []
  else
    match line_items_field with
    | VStr s =>
        match json_loads s with
        | Some v => v
        | None => VList []
        end
    | VList l => VList l
    | _ => VList []
    end.

(** [if v is not None: payload[k] = str(v)] *)
Definition set_str_unless_none (k : string) (v : value) (payload : dict) : dict :=
  match v with
  | VNone => payload
  | _ => set k (VStr (str v)) payload
  end.

(** [value = record.get(field); if value: payload[field] = value] *)
Definition copy_if_truthy (record : dict) (payload : dict) (field : string) : dict :=
  let value := get field record in
  if truthy value then set field value payload else payload.

(** [value = record.get(field); if value is not None: payload[field] = value] *)
Definition copy_unless_none (record : dict) (payload : dict) (field : string) : dict :=
  match get field record with
  | VNone => payload
  | value => set field value payload
  end.

(** [preprocess_record]; [config] is the connector configuration. *)
Definition preprocess_record (config : dict) (record : dict) : res dict :=
  let line_items := _parse_line_items (get "line_items" record) in
  let payload : dict := [] in
  let refNum :=
    por (get "BuyOrder.ID" record)
        (por (get "id" record)
             (por (get "externalid" record) (get "refNum" record))) in
  let payload := set_str_unless_none "refNum" refNum payload in
  let orderedDate :=
    por (_format_date (get "OrderDate" record))
        (por (_format_date (get "transaction_date" record))
             (_format_date (get "orderedDate" record))) in
  let payload := set_str_unless_none "orderedDate" orderedDate payload in
  let arrivalDate :=
    por (_format_date (get "expectedDeliveryDate" record))
        (por (_format_date (get "created_at" record))
             (_format_date (get "arrivalDate" record))) in
  let payload := set_str_unless_none "arrivalDate" arrivalDate payload in
  let vendorID :=
    por (get "SupplierRemoteId" record)
        (por (get "supplier_remoteId" record) (get "vendorID" record)) in
  let payload := set_str_unless_none "vendorID" vendorID payload in
  let shop_id := por (get "shopID" record) (get "buyorders_shop_id" config) in
  if negb (truthy shop_id) then
    Raise (exc "ValueError"
             "shopID is required but not found in record or config (buyorders_shop_id)")
  else
    let payload := set "shopID" (VStr (str shop_id)) payload in
    let payload :=
      fold_left (copy_if_truthy record)
                ["shipInstructions"; "stockInstructions"] payload in
    let payload :=
      fold_left (copy_unless_none record)
                ["shipCost"; "otherCost"; "discount"] payload in
    Ok (set "_line_items" line_items payload).

End Mapping.

(** One call of [request_api]. *)
Record request : Type := mkrequest {
  http_method : string;
  request_endpoint : string;
  request_data : dict
}.

(** What the workflow writes to the log about orders and lines. *)
Inductive event : Type :=
| NoOrderId (response_data : value)
| OrderCreated (order_id : value)
| LineCreated (idx : nat) (order_line_id : value)
| LineWithoutId (idx : nat) (line_response_data : value)
| LineError (idx : nat) (line_error : exn) (line_item : value) (payload : dict)
| LinesComplete (order_id : value) (lines_success lines_failed : nat)
| LinesFailedWarning (order_id : value) (lines_failed : nat)
| UpsertError (e : exn).

(** The calls made through the executor so far, oldest first, and the log. *)
Record world : Type := mkworld {
  sent : list request;
  log : list event
}.

Definition logging (ev : event) (w : world) : world :=
  mkworld (sent w) (log w ++ [ev]).

(** The payload of one order line, for a line item that is a dict: the
    dict display, then the optional fields. *)
Definition line_payload (order_id : value) (item : dict) : dict :=
  let order_line_payload :=
    [("orderID", VStr (str order_id));
     ("quantity", VStr (str (get "quantity" item)));
     ("itemID",
      VStr (str (por (get "productId" item) (get "product_remoteId" item))))] in
  let field_mappings :=
    [("price", por (get "OptiplySupplierProductPrice" item) (get "price" item));
     ("originalPrice", get "originalPrice" item);
     ("numReceived", get "numReceived" item);
     ("vendorCost", get "vendorCost" item)] in
  fold_left (fun p fv => set_str_unless_none (fst fv) (snd fv) p)
            field_mappings order_line_payload.

(** Building the payload of any line item: [line_item.get] exists on dicts
    only. *)
Definition order_line_payload (order_id : value) (line_item : value) : res dict :=
  match line_item with
  | VDict item => Ok (line_payload order_id item)
  | _ =>
      Raise (exc "AttributeError"
               ("'" ++ type_name line_item ++ "' object has no attribute 'get'"))
  end.

(** The items a [for] loop over [v] visits, after [len(v)] was taken. *)
Definition iterate (v : value) : res (list value) :=
  match v with
  | VList l => Ok l
  | VDict d => Ok (map (fun kv => VStr (fst kv)) d)
  | VStr s => Ok (map (fun c => VStr (String c "")) (chars s))
  | _ =>
      Raise (exc "TypeError"
               ("object of type '" ++ type_name v ++ "' has no len()"))
  end.

(** Reading the answer to a line request: the id of the created line and
    the decoded body. *)
Definition line_answer (r : res response) : res (value * value) :=
  line_response <- r ;;
  line_response_data <- json_of line_response ;;
  order_line <- vget_default "OrderLine" (VDict []) line_response_data ;;
  order_line_id <- vget "orderLineID" order_line ;;
  Ok (order_line_id, line_response_data).

(** Looking for the order id under the known shapes of the body. *)
Definition find_order_id (response_data : value) : res value :=
  order_data <- vget_default "Order" (VDict []) response_data ;;
  order_id <- vget "orderID" order_data ;;
  if truthy order_id then Ok order_id
  else
    a <- vget "orderID" response_data ;;
    b <- vget "id" response_data ;;
    Ok (por a b).

(** [response.json()] in the [try] whose handler falls back to [{}]. *)
Definition body_or_empty (r : response) : value :=
  match json r with
  | JsonValue v => v
  | JsonError _ => VDict []
  end.

Definition line_request (payload : dict) : request :=
  mkrequest "POST" "/OrderLine.json" payload.

Definition order_request (record : dict) : request :=
  mkrequest "POST" endpoint record.

(** The line requests of an order, for line items that are dicts. *)
Definition line_requests (order_id : value) (items : list dict) : list request :=
  map (fun item => line_request (line_payload order_id item)) items.

Definition unbound_payload : exn :=
  exc "UnboundLocalError"
      "cannot access local variable 'order_line_payload' where it is not associated with a value".

Section Submission.

(** [request_api]: what the executor answers to a call, given the calls
    made before it. *)
Variable request_api : list request -> request -> res response.

Definition call_api (req : request) (w : world) : res response * world :=
  (request_api (sent w) req, mkworld (sent w ++ [req]) (log w)).

(** The [try] block of one iteration of the line loop.  [bound] is the
    local [order_line_payload] as the previous iterations left it. *)
Definition submit_line (order_id : value) (idx : nat) (line_item : value)
    (bound : option dict) (w : world) : res unit * option dict * world :=
  match order_line_payload order_id line_item with
  | Raise e => (Raise e, bound, w)
  | Ok payload =>
      let '(r, w) := call_api (line_request payload) w in
      match line_answer r with
      | Raise e => (Raise e, Some payload, w)
      | Ok (order_line_id, line_response_data) =>
          (Ok tt, Some payload,
           logging (if truthy order_line_id
                    then LineCreated (S idx) order_line_id
                    else LineWithoutId (S idx) line_response_data) w)
      end
  end.

(** The line loop with its [except] handler, which reads
    [order_line_payload] when it logs. *)
Fixpoint submit_lines (order_id : value) (line_items : list value) (idx : nat)
    (bound : option dict) (lines_success lines_failed : nat) (w : world)
  : res (nat * nat) * world :=
  match line_items with
  | [] => (Ok (lines_success, lines_failed), w)
  | line_item :: rest =>
      match submit_line order_id idx line_item bound w with
      | (Ok _, bound, w) =>
          submit_lines order_id rest (S idx) bound (S lines_success)
                       lines_failed w
      | (Raise line_error, bound, w) =>
          match bound with
          | None => (Raise unbound_payload, w)
          | Some payload =>
              submit_lines order_id rest (S idx) bound lines_success
                (S lines_failed)
                (logging (LineError (S idx) line_error line_item payload) w)
          end
      end
  end.

Definition outcome : Type := option string * bool * dict.

(** The outer [try] block of [upsert_record]. *)
Definition submit_order (record : dict) (line_items : value) (w : world)
  : res outcome * world :=
  let '(r, w) := call_api (order_request record) w in
  match r with
  | Raise e => (Raise e, w)
  | Ok response =>
      let response_data := body_or_empty response in
      match find_order_id response_data with
      | Raise e => (Raise e, w)
      | Ok order_id =>
          if negb (truthy order_id) then
            (Ok (None, false,
                 [("error", VStr "No orderID in API response");
                  ("api_response", response_data)]),
             logging (NoOrderId response_data) w)
          else
            let w := logging (OrderCreated order_id) w in
            if truthy line_items then
              match iterate line_items with
              | Raise e => (Raise e, w)
              | Ok items =>
                  match submit_lines order_id items O None O O w with
                  | (Raise e, w) => (Raise e, w)
                  | (Ok (lines_success, lines_failed), w) =>
                      let w :=
                        logging (LinesComplete order_id lines_success lines_failed) w in
                      let w :=
                        if (0 <? lines_failed)%nat
                        then logging (LinesFailedWarning order_id lines_failed) w
                        else w in
                      (Ok (Some (str order_id), true, []), w)
                  end
              end
            else (Ok (Some (str order_id), true, []), w)
      end
  end.

(** The diagnostics the outer [except] handler builds. *)
Definition error_updates (e : exn) : dict :=
  let state_updates : dict :=
    match exc_response e with
    | Some r =>
        match json r with
        | JsonValue error_data => [("api_error_response", error_data)]
        | JsonError _ => [("api_error_response", VStr (take 1000 (text r)))]
        end
    | None => []
    end in
  set "error_type" (VStr (exc_type e))
      (set "error" (VStr (exc_msg e)) state_updates).

(** [upsert_record] *)
Definition upsert_record (record : dict) (w : world) : outcome * world :=
  match record with
  | [] => ((None, false, []), w)
  | _ =>
      let '(line_items, record) := pop "_line_items" (VList []) record in
      match submit_order record line_items w with
      | (Ok out, w) => (out, w)
      | (Raise e, w) => ((None, false, error_updates e), logging (UpsertError e) w)
      end
  end.

(** How many of the line requests, made in this order after the calls in
    [history], get no usable answer. *)
Fixpoint failed_lines (history : list request) (reqs : list request) : nat :=
  match reqs with
  | [] => O
  | req :: rest =>
      (match line_answer (request_api history req) with
       | Raise _ => 1
       | Ok _ => 0
       end + failed_lines (history ++ [req]) rest)%nat
  end.

(** Modelled from the spec: the dispatch layer, which is outside the
    repository, runs the two steps in sequence for each record:
    [preprocess_record], then [upsert_record] on the payload; an exception
    of the first step ends the record. *)
Definition process_record (fromisoformat : string -> option datetime)
    (json_loads : string -> option value) (config record : dict) (w : world)
  : res outcome * world :=
  match preprocess_record fromisoformat json_loads config record with
  | Raise e => (Raise e, w)
  | Ok payload => let '(out, w) := upsert_record payload w in (Ok out, w)
  end.

End Submission.

End Sinks.

(** ** The library parsers on their canonical formats

    The functions above take [parsedate_to_datetime], [fromisoformat] and
    [json_loads] as variables.  The definitions here give the first two on
    the formats of RFC 7231 dates and of [isoformat] output, to evaluate
    the code on concrete inputs; a string outside these formats is rejected. *)
Module Formats.
Import Py.

Fixpoint split_on (c : ascii) (cur : list ascii) (l : list ascii)
  : list (list ascii) :=
  match l with
  | [] => [rev cur]
  | a :: r =>
      if Ascii.eqb a c then rev cur :: split_on c [] r
      else split_on c (a :: cur) r
  end.

(** A number written on exactly [n] digits. *)
Definition fixed_num (n : nat) (l : list ascii) : option Z :=
  if (Nat.eqb (List.length l) n) && forallb is_digit l then
    match digit_run 0 O l with
    | Some (v, _, []) => Some v
    | _ => None
    end
  else None.

Definition month_names : list string :=
  ["jan"; "feb"; "mar"; "apr"; "may"; "jun";
   "jul"; "aug"; "sep"; "oct"; "nov"; "dec"].

Fixpoint index_of (s : string) (l : list string) (i : Z) : option Z :=
  match l with
  | [] => None
  | x :: r => if String.eqb x s then Some i else index_of s r (i + 1)
  end.

Definition is_leap (y : Z) : bool :=
  ((y mod 4 =? 0) && negb (y mod 100 =? 0)) || (y mod 400 =? 0).

Definition days_in_month (y m : Z) : Z :=
  if m =? 2 then (if is_leap y then 29 else 28)
  else if (m =? 4) || (m =? 6) || (m =? 9) || (m =? 11) then 30
  else 31.

(** The constructor of [datetime] checks its fields. *)
Definition make_datetime (y mo d h mi s us : Z) (tz : option Z)
  : option datetime :=
  if (1 <=? y) && (y <=? 9999) && (1 <=? mo) && (mo <=? 12)
     && (1 <=? d) && (d <=? days_in_month y mo)
     && (0 <=? h) && (h <? 24) && (0 <=? mi) && (mi <? 60)
     && (0 <=? s) && (s <? 60) && (0 <=? us) && (us <? 1000000)
  then Some (mkdatetime y mo d h mi s us tz)
  else None.

(** The zone of an RFC 5322 date: [Some None] for the zone -0000, which
    gives a naive datetime. *)
Definition zone_of (l : list ascii) : option (option Z) :=
  let w := str_of (map lower l) in
  if String.eqb w "gmt" || String.eqb w "ut" || String.eqb w "utc"
  then Some (Some 0)
  else
    match l with
    | sg :: digits =>
        if Ascii.eqb sg "+" || Ascii.eqb sg "-" then
          match fixed_num 4 digits with
          | Some n =>
              let off := (n / 100) * 3600 + (n mod 100) * 60 in
              if Ascii.eqb sg "-" then
                if n =? 0 then Some None else Some (Some (- off))
              else Some (Some off)
          | None => None
          end
        else None
    | [] => None
    end.

Definition option_bind {A B} (o : option A) (k : A -> option B) : option B :=
  match o with
  | Some a => k a
  | None => None
  end.

(** [parsedate_to_datetime] on a date such as
    [Wed, 21 Oct 2026 07:28:00 GMT]. *)
Definition imf_fixdate (s : string) : option datetime :=
  match split_on " " [] (chars s) with
  | [_; dd; mon; yyyy; hms; zone] =>
      match split_on ":" [] hms with
      | [hh; mi; ss] =>
          option_bind (fixed_num 2 dd) (fun d =>
          option_bind (index_of (str_of (map lower mon)) month_names 1) (fun mo =>
          option_bind (fixed_num 4 yyyy) (fun y =>
          option_bind (fixed_num 2 hh) (fun h =>
          option_bind (fixed_num 2 mi) (fun m =>
          option_bind (fixed_num 2 ss) (fun sec =>
          option_bind (zone_of zone) (fun tz =>
          make_datetime y mo d h m sec 0 tz)))))))
      | _ => None
      end
  | _ => None
  end.

(** [YYYY-MM-DD] *)
Definition iso_date (l : list ascii) : option (Z * Z * Z) :=
  match split_on "-" [] l with
  | [yyyy; mm; dd] =>
      option_bind (fixed_num 4 yyyy) (fun y =>
      option_bind (fixed_num 2 mm) (fun m =>
      option_bind (fixed_num 2 dd) (fun d => Some (y, m, d))))
  | _ => None
  end.

(** [HH[:MM[:SS]]] *)
Definition iso_time (l : list ascii) : option (Z * Z * Z) :=
  match split_on ":" [] l with
  | [hh] => option_bind (fixed_num 2 hh) (fun h => Some (h, 0, 0))
  | [hh; mm] =>
      option_bind (fixed_num 2 hh) (fun h =>
      option_bind (fixed_num 2 mm) (fun m => Some (h, m, 0)))
  | [hh; mm; ss] =>
      option_bind (fixed_num 2 hh) (fun h =>
      option_bind (fixed_num 2 mm) (fun m =>
      option_bind (fixed_num 2 ss) (fun s => Some (h, m, s))))
  | _ => None
  end.

(** [datetime.fromisoformat] on [YYYY-MM-DD], alone or followed by one
    separator character and a time without fraction and offset. *)
Definition fromisoformat_plain (s : string) : option datetime :=
  let l := chars s in
  option_bind (iso_date (firstn 10 l)) (fun '(y, m, d) =>
    match skipn 10 l with
    | [] => make_datetime y m d 0 0 0 0 None
    | _ :: t =>
        option_bind (iso_time t) (fun '(h, mi, sec) =>
          make_datetime y m d h mi sec 0 None)
    end).

Definition civil_from_days (z : Z) : Z * Z * Z :=
  let z := z + 719468 in
  let era := z / 146097 in
  let doe := z - era * 146097 in
  let yoe := (doe - doe / 1460 + doe / 36524 - doe / 146096) / 365 in
  let y := yoe + era * 400 in
  let doy := doe - (365 * yoe + yoe / 4 - yoe / 100) in
  let mp := (5 * doy + 2) / 153 in
  let d := doy - (153 * mp + 2) / 5 + 1 in
  let m := if mp <? 10 then mp + 3 else mp - 9 in
  (if m <=? 2 then y + 1 else y, m, d).

(** [datetime.fromtimestamp] in a process whose local zone is UTC. *)
Definition fromtimestamp_utc (t : Z) : res datetime :=
  let '(y, m, d) := civil_from_days (t / 86400) in
  let s := t mod 86400 in
  match make_datetime y m d (s / 3600) ((s mod 3600) / 60) (s mod 60) 0 None with
  | Some dt => Ok dt
  | None => Raise (exc "ValueError" "year is out of range")
  end.

(** A [json.loads] for inputs that carry no serialized line items. *)
Definition json_loads_none (s : string) : option value := None.

End Formats.

(** ** Sample data *)
Module Samples.
Import Py.

Definition token_url : string :=
  "https://cloud.lightspeedapp.com/auth/oauth/token".

(** Credentials with a token about to expire. *)
Definition stale : Auth.authenticator :=
  Auth.mkauth
    [("access_token", VStr "old-token");
     ("refresh_token", VStr "refresh-1");
     ("client_id", VStr "client");
     ("client_secret", VStr "secret");
     ("expires_in", VInt 1764924000)]
    None [] None.

Definition token_response (status : Z) (body : dict) : response :=
  mkresponse status "OK" token_url [] "" (JsonValue (VDict body)).

(** The provider's answer to a refresh that comes too early. *)
Definition not_expired : response :=
  token_response 200 [("error_description", VStr Auth.not_expired_signal)].

(** A granted refresh that rotates neither the refresh token nor states an
    expiry. *)
Definition granted : response :=
  token_response 200 [("access_token", VStr "new-token")].

Definition api_url : string :=
  "https://api.lightspeedapp.com/API/V3/Account/1/OrderLine.json".

Definition ok_response (body : value) : response :=
  mkresponse 200 "OK" api_url [] "" (JsonValue body).

(** A call that is answered after a tenth of a second. *)
Definition served : Client.attempt :=
  Client.mkattempt (0 # 1) (0 # 1) None (0 # 1)
    (Client.Returned (ok_response (VDict []))) (1 # 10) (0 # 1) (0 # 1).

(** A call whose connection is reset after a hundredth of a second. *)
Definition reset : Client.attempt :=
  Client.mkattempt (0 # 1) (0 # 1) None (0 # 1)
    (Client.Failed (exc "ConnectionError" "Connection reset by peer"))
    (1 # 100) (0 # 1) (0 # 1).

(** A base [validate_response] that accepts the response. *)
Definition accept (r : response) : res unit := Ok tt.

(** An order record as the tap delivers it, with two line items. *)
Definition order_record : dict :=
  [("id", VInt 7);
   ("OrderDate", VStr "2025-12-05T08:55:00Z");
   ("SupplierRemoteId", VStr "12");
   ("shopID", VInt 1);
   ("line_items",
    VList [VDict [("productId", VStr "501"); ("quantity", VInt 3)];
           VDict [("productId", VStr "502"); ("quantity", VInt 1);
                  ("price", VFloat (5 # 2) "2.5")]])].

(** The same order without a shop. *)
Definition order_without_shop : dict :=
  [("id", VInt 7); ("OrderDate", VStr "2025-12-05T08:55:00Z")].

Definition created_order : response :=
  ok_response (VDict [("Order", VDict [("orderID", VStr "42")])]).

Definition created_line : response :=
  ok_response (VDict [("OrderLine", VDict [("orderLineID", VStr "900")])]).

(** An executor that creates every order and every line, except that the
    line for item [item_id] raises. *)
Definition api_rejecting (item_id : string)
    (history : list Sinks.request) (req : Sinks.request) : res response :=
  if String.eqb (Sinks.request_endpoint req) Sinks.endpoint then Ok created_order
  else if eq_str (get "itemID" (Sinks.request_data req)) item_id then
    Raise (exc "ConnectionError" "Connection reset by peer")
  else Ok created_line.

Definition line (item_id : string) (quantity : Z) : value :=
  VDict [("productId", VStr item_id); ("quantity", VInt quantity)].

(** A mapped order with three lines. *)
Definition three_lines : dict :=
  [("refNum", VStr "7"); ("shopID", VStr "1");
   ("_line_items", VList [line "501" 3; line "502" 1; line "503" 2])].

(** A mapped order with one line. *)
Definition one_line : dict :=
  [("refNum", VStr "8"); ("shopID", VStr "1");
   ("_line_items", VList [line "502" 1])].

(** A mapped order whose only line item names neither product nor
    quantity. *)
Definition blank_line : dict :=
  [("refNum", VStr "9"); ("shopID", VStr "1");
   ("_line_items", VList [VDict [("note", VStr "to be completed")]])].

Definition fresh : Sinks.world := Sinks.mkworld [] [].

(** The provider answering 503 with a JSON error body. *)
Definition unavailable : response :=
  mkresponse 503 "Service Unavailable" api_url [] ""
    (JsonValue (VDict [("message", VStr "try later")])).

(** What the executor raises once its retries on that answer are used up. *)
Definition gave_up : exn :=
  mkexn "RetriableAPIError" "503 Server Error" (Some unavailable).

(** An executor that gives up on every call. *)
Definition api_down (history : list Sinks.request) (req : Sinks.request)
  : res response := Raise gave_up.

(** A granted refresh whose expiry is JSON null. *)
Definition granted_null_expiry : response :=
  token_response 200 [("access_token", VStr "new-token"); ("expires_in", VNone)].

(** A refresh rejected for a revoked refresh token. *)
Definition invalid_grant : response :=
  mkresponse 400 "Bad Request" token_url [] ""
    (JsonValue (VDict [("error", VStr "invalid_grant")])).


(** A 429 answer of the token endpoint without a Retry-After header. *)
Definition throttled : response :=
  mkresponse 429 "Too Many Requests" token_url [] "" (JsonError "Expecting value").

(** A 429 answer of the API that asks for a negative wait. *)
Definition throttled_negative : response :=
  mkresponse 429 "Too Many Requests" api_url [("Retry-After", "-5")] ""
    (JsonError "Expecting value").

(** A 429 answer of the API that asks for two seconds. *)
Definition throttled_two : response :=
  mkresponse 429 "Too Many Requests" api_url [("retry-after", "2")] ""
    (JsonError "Expecting value").

(** A 429 answer of the API that asks for more than three thousand
    years. *)
Definition throttled_forever : response :=
  mkresponse 429 "Too Many Requests" api_url
    [("Retry-After", "100000000000")] "" (JsonError "Expecting value").

(** A 429 answer of the token endpoint that names the last second of the
    calendar, without a zone. *)
Definition throttled_far_date : response :=
  mkresponse 429 "Too Many Requests" token_url
    [("Retry-After", "Fri, 31 Dec 9999 23:59:59 -0000")] ""
    (JsonError "Expecting value").

(** A float printer for the values the samples use. *)
Definition float_str_sample (x : pyfloat) : string :=
  match x with
  | Fin _ => "60.0"
  | Inf _ => "inf"
  | NaN => "nan"
  end.

(** A call during which building the headers fails. *)
Definition unauthorized : Client.attempt :=
  Client.mkattempt (0 # 1) (0 # 1)
    (Some (exc "RuntimeError" "Failed OAuth login")) (1 # 10)
    (Client.Returned (ok_response (VDict []))) (1 # 10) (0 # 1) (0 # 1).

(** An order with free shipping, an empty shipping note and fields the
    mapping does not know. *)
Definition order_with_extras : dict :=
  [("refNum", VStr "");
   ("shopID", VInt 3);
   ("shipCost", VInt 0);
   ("shipInstructions", VStr "");
   ("stockInstructions", VStr "top shelf");
   ("internal_note", VStr "do not forward")].

(** A mapped order whose second line item is not an object. *)
Definition mixed_lines : dict :=
  [("refNum", VStr "10"); ("shopID", VStr "1");
   ("_line_items", VList [line "501" 3; VStr "502"; line "503" 2])].

(** A mapped order whose first line item is not an object. *)
Definition text_first : dict :=
  [("refNum", VStr "11"); ("shopID", VStr "1");
   ("_line_items", VList [VStr "501"; line "502" 1])].

(** A mapped order whose line items decoded to a number. *)
Definition number_lines : dict :=
  [("refNum", VStr "12"); ("shopID", VStr "1"); ("_line_items", VInt 5)].


End Samples.

(** ** client.py: the URLs of the requests *)
Module Urls.
Import Py.

Definition DEFAULT_BASE_URL : string := "https://api.lightspeedapp.com".

Fixpoint drop_leading (c : ascii) (l : list ascii) : list ascii :=
  match l with
  | a :: r => if Ascii.eqb a c then drop_leading c r else l
  | [] => []
  end.

(** [s.rstrip(c)] for a one-character [c] *)
Definition rstrip_char (c : ascii) (s : string) : string :=
  str_of (rev (drop_leading c (rev (chars s)))).

(** [s.startswith(c)] and [s.endswith(c)] for a one-character [c] *)
Definition startswith_char (c : ascii) (s : string) : bool :=
  match s with
  | String a _ => Ascii.eqb a c
  | EmptyString => false
  end.

Definition endswith_char (c : ascii) (s : string) : bool :=
  match rev (chars s) with
  | a :: _ => Ascii.eqb a c
  | [] => false
  end.

(** [base_url]; [config] is the connector configuration. *)
Definition base_url (config : dict) : res string :=
  match por (get "full_url" config) (VStr DEFAULT_BASE_URL) with
  | VStr s => Ok (rstrip_char "/" s)
  | v =>
      Raise (exc "AttributeError"
               ("'" ++ type_name v ++ "' object has no attribute 'rstrip'"))
  end.

(** [url] *)
Definition url (config : dict) : res string :=
  base <- base_url config ;;
  account_ids <- getitem "account_ids" config ;;
  Ok (base ++ "/API/V3/Account/" ++ str account_ids).

(** [_build_request_url] *)
Definition _build_request_url (config : dict) (endpoint : string) : res string :=
  if startswith_char "/" endpoint then
    u <- url config ;; Ok (u ++ endpoint)
  else
    u <- url config ;; Ok (u ++ "/" ++ endpoint).

End Urls.

(** ** auth.py: one attempt of the token request *)
Module TokenRequest.
Import Py.

(** [time.sleep(x)] for a float: the time asked for, or the error for a
    length that is refused.  The product with the nanoseconds of a second
    is exact here, where the interpreter rounds it to a double: a length
    within one rounding step of the bound may fall on the other side, and
    at the bound itself the conversion is left undefined by C. *)
Definition sleep (x : pyfloat) : res Q :=
  match x with
  | Fin q =>
      let ns := nanoseconds q in
      if (ns <? PyTime_MIN) || (PyTime_MAX <? ns) then Raise sleep_overflow
      else if ns <? 0 then Raise sleep_negative
      else Ok q
  | NaN => Raise (exc "ValueError" "Invalid value NaN (not a number)")
  | Inf _ => Raise sleep_overflow
  end.

Section Attempt.

Variable parsedate_to_datetime : string -> option datetime.

(** [str(x)] of a float, which the interpreter prints. *)
Variable float_str : pyfloat -> string.

(** The body of [_make_token_request], once: the response to hand on or the
    exception raised, and the time slept.  [utcnow] is the reading
    [datetime.utcnow()]; [token_response] is what [requests.post] returned. *)
Definition _make_token_request (utcnow : Q) (token_response : response)
  : res response * Q :=
  if status_code token_response =? 429 then
    let retry_after := header "Retry-After" (headers token_response) in
    let wait_time :=
      Auth._calculate_wait_time parsedate_to_datetime utcnow retry_after in
    match sleep wait_time with
    | Raise e => (Raise e, (0 # 1)%Q)
    | Ok slept =>
        (Raise (exc "RateLimitError"
                  ("Rate limit exceeded. Retry after " ++ float_str wait_time
                   ++ "s")),
         slept)
    end
  else (Ok token_response, (0 # 1)%Q).

End Attempt.

(** The exception class the retry decorator of [_make_token_request]
    retries on. *)
Definition retried (e : exn) : bool := String.eqb (exc_type e) "RateLimitError".

End TokenRequest.

(** ** Further notions used to state properties of the code *)
Module Notions.
Import Py.

(** The keys of the config a token refresh writes. *)
Definition credential_key (k : string) : Prop :=
  k = "access_token" \/ k = "refresh_token" \/ k = "expires_in".

(** A token response that grants the refresh, for the authenticator [a]:
    the refresh token is configured, the form can be built, the token
    request returns a 2xx response that is not the not-expired answer, and
    its body is an object [tj] with the access token [tok]. *)
Definition grants (token_request : dict -> res response)
    (a : Auth.authenticator) (resp : response) (tj : dict) (tok : value) : Prop :=
  truthy (get "refresh_token" (Auth._config a)) = true /\
  (exists payload,
     Auth.oauth_request_body a = Ok payload /\
     token_request payload = Ok resp) /\
  200 <= status_code resp < 300 /\
  json resp = JsonValue (VDict tj) /\
  (status_code resp = 200 ->
   eq_str (get "error_description" tj) Auth.not_expired_signal = false) /\
  lookup "access_token" tj = Some tok.

(** A token response that rejects the refresh: the same situation with a
    4xx or 5xx status. *)
Definition rejects (token_request : dict -> res response)
    (a : Auth.authenticator) (resp : response) : Prop :=
  truthy (get "refresh_token" (Auth._config a)) = true /\
  (exists payload,
     Auth.oauth_request_body a = Ok payload /\
     token_request payload = Ok resp) /\
  400 <= status_code resp < 600.

(** The keys [preprocess_record] can put into a payload. *)
Definition mapped_keys : list string :=
  ["refNum"; "orderedDate"; "arrivalDate"; "vendorID"; "shopID";
   "shipInstructions"; "stockInstructions";
   "shipCost"; "otherCost"; "discount"; "_line_items"].

(** The line items that are dicts, in order. *)
Fixpoint dict_items (items : list value) : list dict :=
  match items with
  | VDict d :: rest => d :: dict_items rest
  | _ :: rest => dict_items rest
  | [] => []
  end.

(** The line items that are not dicts, in order. *)
Fixpoint stray_items (items : list value) : list value :=
  match items with
  | VDict _ :: rest => stray_items rest
  | v :: rest => v :: stray_items rest
  | [] => []
  end.

(** A line request for the order [order_id]. *)
Definition line_of (order_id : value) (r : Sinks.request) : Prop :=
  Sinks.http_method r = "POST" /\
  Sinks.request_endpoint r = "/OrderLine.json" /\
  get "orderID" (Sinks.request_data r) = VStr (str order_id).

End Notions.

(** ** Facts about the prelude *)
Module Facts.
Import Py.

Lemma lookup_set_same (k : string) (v : value) (d : dict) :
  lookup k (set k v d) = Some v.
Proof.
  induction d as [|[k' v'] r IH]; simpl.
  - now rewrite String.eqb_refl.
  - destruct (String.eqb k' k) eqn:E; simpl.
    + now rewrite String.eqb_refl.
    + now rewrite E.
Qed.

Lemma lookup_set_other (k k' : string) (v : value) (d : dict) :
  k' <> k -> lookup k (set k' v d) = lookup k d.
Proof.
  intros Hne. induction d as [|[k0 v0] r IH]; simpl.
  - destruct (String.eqb k' k) eqn:E; [|reflexivity].
    apply String.eqb_eq in E. contradiction.
  - destruct (String.eqb k0 k') eqn:E0; simpl.
    + apply String.eqb_eq in E0. subst k0.
      destruct (String.eqb k' k) eqn:E; [|reflexivity].
      apply String.eqb_eq in E. contradiction.
    + now rewrite IH.
Qed.

Lemma get_set_same (k : string) (v : value) (d : dict) :
  get k (set k v d) = v.
Proof. unfold get. now rewrite lookup_set_same. Qed.

Lemma get_set_other (k k' : string) (v : value) (d : dict) :
  k' <> k -> get k (set k' v d) = get k d.
Proof. intros H. unfold get. now rewrite lookup_set_other. Qed.

Lemma lookup_remove_other (k k' : string) (d : dict) :
  k' <> k -> lookup k (remove k' d) = lookup k d.
Proof.
  intros Hne. induction d as [|[k0 v0] r IH]; simpl; [reflexivity|].
  destruct (String.eqb k0 k') eqn:E0; simpl.
  - apply String.eqb_eq in E0. subst k0.
    destruct (String.eqb k' k) eqn:E; [|reflexivity].
    apply String.eqb_eq in E. contradiction.
  - now rewrite IH.
Qed.

Lemma truthy_por (a b : value) :
  truthy (por a b) = truthy a || truthy b.
Proof. unfold por. now destruct (truthy a) eqn:E; rewrite ?E. Qed.

Lemma Qlt_bool_true (x y : Q) : Qlt_bool x y = true <-> Qlt x y.
Proof.
  unfold Qlt_bool. rewrite negb_true_iff.
  split; intros H.
  - apply Qnot_le_lt. intros Hle. apply Qle_bool_iff in Hle. congruence.
  - destruct (Qle_bool y x) eqn:E; [|reflexivity].
    apply Qle_bool_iff in E. exfalso. exact (Qlt_not_le _ _ H E).
Qed.

Lemma Qlt_bool_false (x y : Q) : Qlt_bool x y = false <-> Qle y x.
Proof.
  unfold Qlt_bool. rewrite negb_false_iff. apply Qle_bool_iff.
Qed.

(** The int lengths [time.sleep] accepts. *)
Lemma sleep_accepts_int (n : Z) :
  sleep_refuses_int n = None <-> 0 <= n <= 9223372036.
Proof.
  unfold sleep_refuses_int.
  change (Z.quot PyTime_MIN SEC_TO_NS) with (-9223372036).
  change (Z.quot PyTime_MAX SEC_TO_NS) with 9223372036.
  destruct (n <? -9223372036) eqn:E1; cbn [orb].
  - apply Z.ltb_lt in E1. split; [discriminate|lia].
  - apply Z.ltb_ge in E1. destruct (9223372036 <? n) eqn:E2.
    + apply Z.ltb_lt in E2. split; [discriminate|lia].
    + apply Z.ltb_ge in E2. destruct (n <? 0) eqn:E3.
      * apply Z.ltb_lt in E3. split; [discriminate|lia].
      * apply Z.ltb_ge in E3. split; [lia|reflexivity].
Qed.

End Facts.

(** ** The token lifecycle: validity and refresh *)
Module AuthProofs.
Import Py Auth Facts.

(** C4.  The token is valid exactly when the configured access token is
    present (a non-empty value), the expiry is present and, read as an
    integer, lies at least 120 seconds after [now], the clock reading
    rounded to whole seconds the way the code takes it; the bound is
    inclusive: 119 seconds ahead is invalid, 120 seconds ahead is valid. *)
Theorem token_valid_iff (timestamp : Q) (a : authenticator) :
  (is_token_valid timestamp a = Ok true <->
   truthy (get "access_token" (_config a)) = true /\
   get "expires_in" (_config a) <> VNone /\
   exists expires_at,
     int_of (get "expires_in" (_config a)) = Ok expires_at /\
     120 <= expires_at - round timestamp)
  /\ (forall c tok file st attr,
        is_token_valid timestamp
          (mkauth [("access_token", VStr (String c tok));
                   ("expires_in", VInt (round timestamp + 119))] file st attr)
        = Ok false)
  /\ (forall c tok file st attr,
        is_token_valid timestamp
          (mkauth [("access_token", VStr (String c tok));
                   ("expires_in", VInt (round timestamp + 120))] file st attr)
        = Ok true).
Proof.
  split; [|split].
  - unfold is_token_valid, TOKEN_BUFFER_SECONDS.
    destruct (truthy (get "access_token" (_config a))) eqn:Htok; simpl.
    + destruct (get "expires_in" (_config a)) eqn:Hexp;
        try (split;
             [ intros H; split; [reflexivity|split; [discriminate|]];
               unfold bind in H;
               match type of H with
               | match ?m with _ => _ end = _ =>
                   destruct m as [e|e] eqn:Hint; [|discriminate H]
               end;
               exists e; split; [reflexivity|];
               injection H as H; apply Z.leb_le in H; exact H
             | intros (_ & _ & e & Hint & Hle);
               rewrite Hint; simpl; f_equal; apply Z.leb_le; exact Hle ]).
      split; [discriminate|]. intros (_ & H & _). now contradiction H.
    + split; [discriminate|]. intros (H & _). discriminate H.
  - intros c tok file st attr. unfold is_token_valid, TOKEN_BUFFER_SECONDS.
    simpl. f_equal. apply Z.leb_gt. lia.
  - intros c tok file st attr. unfold is_token_valid, TOKEN_BUFFER_SECONDS.
    simpl. f_equal. apply Z.leb_le. lia.
Qed.

Section Refresh.

Variable fromtimestamp : Z -> res datetime.

Lemma refresh_noop (t : Q) (token_request : dict -> res response)
    (a : authenticator) :
  reports_not_expired token_request a ->
  update_access_token fromtimestamp t token_request a = (Ok tt, a).
Proof.
  intros (Hrt & payload & resp & body & Hbody & Hreq & Hst & Hjson & Hdesc).
  unfold update_access_token.
  rewrite Hrt, Hbody, Hreq, Hst. simpl.
  unfold json_of. rewrite Hjson. simpl.
  fold (get "error_description" body). rewrite Hdesc. reflexivity.
Qed.

(** C5.  When the token request returns HTTP 200 with the error description
    "Rate limit exceeded: access_token not expired", the refresh returns
    normally and leaves the authenticator as it was: the credentials in the
    config, the credential file, the diagnostic state.  A second refresh
    right after it, answered the same way, again changes nothing. *)
Theorem refresh_not_expired_noop (t1 t2 : Q)
    (first second : dict -> res response) (a : authenticator) :
  reports_not_expired first a ->
  reports_not_expired second a ->
  update_access_token fromtimestamp t1 first a = (Ok tt, a) /\
  update_access_token fromtimestamp t2 second
    (snd (update_access_token fromtimestamp t1 first a)) = (Ok tt, a).
Proof.
  intros H1 H2. rewrite (refresh_noop t1 first a H1). simpl.
  split; [reflexivity|]. exact (refresh_noop t2 second a H2).
Qed.

End Refresh.

(** Witness of C5 on the sample credentials. *)
Lemma refresh_not_expired_noop_witness :
  update_access_token Formats.fromtimestamp_utc (1764924100 # 1)
    (fun _ => Ok Samples.not_expired) Samples.stale = (Ok tt, Samples.stale) /\
  update_access_token Formats.fromtimestamp_utc (1764924101 # 1)
    (fun _ => Ok Samples.not_expired)
    (snd (update_access_token Formats.fromtimestamp_utc (1764924100 # 1)
            (fun _ => Ok Samples.not_expired) Samples.stale))
  = (Ok tt, Samples.stale).
Proof.
  apply (refresh_not_expired_noop Formats.fromtimestamp_utc);
    (split; [reflexivity|]);
    eexists; exists Samples.not_expired; eexists;
    repeat split; reflexivity.
Defined.

Lemma raise_for_status_2xx (r : response) :
  200 <= status_code r < 300 -> raise_for_status r = Ok tt.
Proof.
  intros H. unfold raise_for_status.
  replace (400 <=? status_code r) with false by (symmetry; apply Z.leb_gt; lia).
  replace (500 <=? status_code r) with false by (symmetry; apply Z.leb_gt; lia).
  reflexivity.
Qed.

(** C6.  What a refresh stores when the token response has a 2xx status, is
    not the not-expired answer of C5 and carries an access token.  The
    config in memory always ends up with the response's access token and
    with the response's refresh token, or the previous one when the response
    has none.  When [expires_in] is absent or reads as a number and the
    expiry is a date the interpreter can print, the claim holds: the expiry
    is the whole-second start time of the refresh plus [expires_in] (3600
    when absent), the refresh returns and the credential file holds exactly
    this config.  On every other successful response the refresh raises
    with the new tokens in memory and the credential file as it was: with
    the old expiry when [expires_in] does not read as a number, with the new
    one when the expiry is a date out of range.  For the sample response
    whose [expires_in] is JSON null the refresh raises TypeError, the config
    holds the new access token with the old expiry, and no credential file
    has been written. *)
Theorem refresh_success_stores_credentials :
  (forall (fromtimestamp : Z -> res datetime) (t : Q)
          (token_request : dict -> res response) (a : authenticator)
          (resp : response) (tj : dict) (tok : value),
      Notions.grants token_request a resp tj tok ->
      exists r a',
        update_access_token fromtimestamp t token_request a = (r, a') /\
        get "access_token" (_config a') = tok /\
        get "refresh_token" (_config a') =
          match lookup "refresh_token" tj with
          | Some rt => rt
          | None => get "refresh_token" (_config a)
          end /\
        match int_of (expires_in_of tj) with
        | Ok secs =>
            get "expires_in" (_config a') = VInt (round t + secs) /\
            (lookup "expires_in" tj = None -> secs = 3600) /\
            match fromtimestamp (round t + secs) with
            | Ok _ => r = Ok tt /\ config_file a' = Some (_config a')
            | Raise e => r = Raise e /\ config_file a' = config_file a
            end
        | Raise e =>
            r = Raise e /\
            get "expires_in" (_config a') = get "expires_in" (_config a) /\
            config_file a' = config_file a
        end)
  /\ (let outcome :=
        update_access_token Formats.fromtimestamp_utc (1764924100 # 1)%Q
          (fun _ => Ok Samples.granted_null_expiry) Samples.stale in
      status_code Samples.granted_null_expiry = 200 /\
      vget "access_token" (body_of Samples.granted_null_expiry)
      = Ok (VStr "new-token") /\
      vget "expires_in" (body_of Samples.granted_null_expiry) = Ok VNone /\
      (exists e, fst outcome = Raise e /\ exc_type e = "TypeError") /\
      get "access_token" (_config (snd outcome)) = VStr "new-token" /\
      get "expires_in" (_config (snd outcome))
      = get "expires_in" (_config Samples.stale) /\
      config_file (snd outcome) = None).
Proof.
  split.
  - intros fromtimestamp t token_request a resp tj tok
      (Hrt & (payload & Hbody & Hreq) & Hst & Hjson & Hsig & Htok).
    unfold update_access_token.
    rewrite Hrt, Hbody, Hreq. cbn [negb].
    assert (Hsignal :
      (if status_code resp =? 200
       then body <- json_of resp ;; d0 <- vget "error_description" body ;;
            Ok (eq_str d0 not_expired_signal)
       else Ok false) = Ok false).
    { destruct (status_code resp =? 200) eqn:E; [|reflexivity].
      apply Z.eqb_eq in E. unfold json_of. rewrite Hjson. simpl.
      fold (get "error_description" tj). now rewrite (Hsig E). }
    rewrite Hsignal, (raise_for_status_2xx resp Hst).
    unfold json_of. rewrite Hjson.
    unfold getitem at 1. rewrite Htok.
    unfold _update_config_tokens, getitem. rewrite Htok.
    assert (Hdefault : forall secs,
              int_of (expires_in_of tj) = Ok secs ->
              lookup "expires_in" tj = None -> secs = 3600).
    { intros secs Hsecs Habs. unfold expires_in_of in Hsecs.
      rewrite Habs in Hsecs. simpl in Hsecs. now injection Hsecs as <-. }
    destruct (int_of (expires_in_of tj)) as [secs|e] eqn:Hsecs.
    + specialize (Hdefault secs eq_refl).
      destruct (fromtimestamp (round t + secs)) as [d|e] eqn:Hts;
        destruct (lookup "refresh_token" tj) as [rt|] eqn:Hrefresh;
        cbv zeta; do 2 eexists; (split; [reflexivity|]);
        unfold _save_config_to_file, with_config;
        cbn [_config config_file state access_token];
        repeat split; trivial;
        repeat rewrite get_set_other by discriminate;
        try apply get_set_same; reflexivity.
    + destruct (lookup "refresh_token" tj) as [rt|] eqn:Hrefresh;
        cbv zeta; do 2 eexists; (split; [reflexivity|]);
        unfold with_config; cbn [_config config_file state access_token];
        repeat split; trivial;
        repeat rewrite get_set_other by discriminate;
        try apply get_set_same; reflexivity.
  - cbv zeta. repeat split. eexists. split; reflexivity.
Qed.

(** Witness of C6: the granted refresh on the sample credentials, which
    states no expiry and rotates no refresh token. *)
Lemma refresh_success_stores_credentials_witness :
  exists a',
    update_access_token Formats.fromtimestamp_utc (1764924100 # 1)%Q
      (fun _ => Ok Samples.granted) Samples.stale = (Ok tt, a') /\
    get "access_token" (_config a') = VStr "new-token" /\
    get "expires_in" (_config a') = VInt (1764924100 + 3600) /\
    get "refresh_token" (_config a') = VStr "refresh-1" /\
    config_file a' = Some (_config a').
Proof.
  destruct (proj1 refresh_success_stores_credentials
              Formats.fromtimestamp_utc (1764924100 # 1)%Q
              (fun _ => Ok Samples.granted) Samples.stale Samples.granted
              [("access_token", VStr "new-token")] (VStr "new-token"))
    as (r & a' & Hrun & Hacc & Hrt & Hrest).
  - unfold Notions.grants. split; [reflexivity|]. split.
    + eexists. split; reflexivity.
    + split; [simpl; lia|]. repeat split.
  - vm_compute in Hrest. destruct Hrest as (Hexp & _ & Hret & Hfile).
    exists a'. rewrite Hrun, Hret. repeat split; assumption.
Defined.

End AuthProofs.

(** ** The executor: Retry-After and the rate gate *)
Module ClientProofs.
Import Py Client Facts.

Lemma digit_run_starts_with_digit (body : list ascii) (v : Z) (k : nat) :
  digit_run 0 O body = Some (v, S k, []) ->
  exists c r, body = c :: r /\ is_digit c = true.
Proof.
  destruct body as [|c r]; simpl; [discriminate|].
  unfold digit_of. destruct (is_digit c) eqn:E; [|discriminate].
  intros _. now exists c, r.
Qed.

Lemma digit_not_word (c : ascii) (r : list ascii) :
  is_digit c = true ->
  let word := str_of (map lower (c :: r)) in
  String.eqb word "inf" || String.eqb word "infinity" = false
  /\ String.eqb word "nan" = false.
Proof.
  destruct c as [[] [] [] [] [] [] [] []]; intros H;
    try discriminate H; split; reflexivity.
Qed.

(** [float()] reads an integer literal as that integer. *)
Lemma float_of_int_literal (s : string) (n : Z) :
  int_of_str s = Some n -> float_of_str s = Some (Fin (inject_Z n)).
Proof.
  unfold int_of_str, float_of_str.
  destruct (split_sign (strip (chars s))) as [neg body].
  destruct (digit_run 0 O body) as [[[v [|k]] [|x rest]]|] eqn:Hrun;
    try discriminate.
  intros [= <-].
  destruct (digit_run_starts_with_digit body v k Hrun) as (c & r & -> & Hc).
  destruct (digit_not_word c r Hc) as [Hinf Hnan].
  cbv zeta in Hinf, Hnan. rewrite Hinf, Hnan.
  cbn [Nat.add exponent_of]. unfold decimal_value. simpl Z.of_nat.
  change (0 - 0) with 0. cbn [Z.leb Z.compare Z.pow].
  rewrite Z.mul_1_r. now destruct neg.
Qed.

Lemma trunc_max_default (delta : Q) :
  trunc (max_q (inject_Z DEFAULT_RETRY_AFTER) delta)
  = if Qlt_bool (60 # 1)%Q delta then Qfloor delta else 60.
Proof.
  unfold max_q, DEFAULT_RETRY_AFTER. change (inject_Z 60) with (60 # 1)%Q.
  destruct (Qlt_bool (60 # 1)%Q delta) eqn:E; [|reflexivity].
  apply Qlt_bool_true in E. unfold trunc.
  replace (Qle_bool 0 delta) with true; [reflexivity|].
  symmetry. apply Qle_bool_iff. lra.
Qed.

Section RetryAfter.

Variable parsedate_to_datetime : string -> option datetime.

(** C3.  The wait computed from a Retry-After header by the executor
    ([_parse_retry_after]) and by the token manager
    ([_calculate_wait_time]), for every header.  An absent or empty header
    gives 60 seconds; a header that reads as an integer gives that integer;
    a header that reads neither as a number nor as a date gives 60 seconds.
    A header that parses as a date gives a wait read from the date only
    when the parsed date is naive, and then the larger of 60 seconds and
    (date - now), cut to whole seconds by the executor.  A date that
    carries a zone gives 60 seconds however far ahead it lies: the clock
    reading subtracted from it is naive, the subtraction raises TypeError
    and the handler answers the default.  Every date that ends in GMT
    carries a zone: for the date of the specification's example, read 28
    minutes before it, both functions answer 60 seconds, not 1680.  (The
    token manager reads numbers with [float()], so the date cases apply to
    it when the header is no decimal literal either.) *)
Theorem retry_after_wait (utcnow : Q) :
  (_parse_retry_after parsedate_to_datetime utcnow None = 60 /\
   _parse_retry_after parsedate_to_datetime utcnow (Some "") = 60 /\
   Auth._calculate_wait_time parsedate_to_datetime utcnow None = Fin (60 # 1)%Q /\
   Auth._calculate_wait_time parsedate_to_datetime utcnow (Some "")
   = Fin (60 # 1)%Q)
  /\ (forall s n,
        int_of_str s = Some n ->
        _parse_retry_after parsedate_to_datetime utcnow (Some s) = n /\
        Auth._calculate_wait_time parsedate_to_datetime utcnow (Some s)
        = Fin (inject_Z n))
  /\ (forall s d off,
        int_of_str s = None ->
        parsedate_to_datetime s = Some d ->
        tzinfo d = Some off ->
        _parse_retry_after parsedate_to_datetime utcnow (Some s) = 60 /\
        (float_of_str s = None ->
         Auth._calculate_wait_time parsedate_to_datetime utcnow (Some s)
         = Fin (60 # 1)%Q))
  /\ (forall s d,
        s <> "" ->
        int_of_str s = None ->
        parsedate_to_datetime s = Some d ->
        tzinfo d = None ->
        let delta := Qminus (wall_seconds d) utcnow in
        _parse_retry_after parsedate_to_datetime utcnow (Some s)
        = (if Qlt_bool (60 # 1)%Q delta then Qfloor delta else 60) /\
        (float_of_str s = None ->
         Auth._calculate_wait_time parsedate_to_datetime utcnow (Some s)
         = Fin (if Qlt_bool (60 # 1)%Q delta then delta else (60 # 1)%Q)))
  /\ (forall s,
        int_of_str s = None ->
        parsedate_to_datetime s = None ->
        _parse_retry_after parsedate_to_datetime utcnow (Some s) = 60 /\
        (float_of_str s = None ->
         Auth._calculate_wait_time parsedate_to_datetime utcnow (Some s)
         = Fin (60 # 1)%Q))
  /\ (let header := "Wed, 21 Oct 2026 07:28:00 GMT" in
      let now := (1792566000 # 1)%Q in
      int_of_str header = None /\
      float_of_str header = None /\
      (exists d,
         Formats.imf_fixdate header = Some d /\
         tzinfo d = utc /\
         Qeq (Qminus (wall_seconds d) now) (1680 # 1)%Q) /\
      _parse_retry_after Formats.imf_fixdate now (Some header) = 60 /\
      Auth._calculate_wait_time Formats.imf_fixdate now (Some header)
      = Fin (60 # 1)%Q).
Proof.
  assert (Hnonempty : forall s, s <> "" -> String.eqb s "" = false).
  { intros s Hne. destruct (String.eqb s "") eqn:E; [|reflexivity].
    apply String.eqb_eq in E. contradiction. }
  split; [repeat split|split; [|split; [|split; [|split]]]].
  - intros s n Hint.
    assert (Hs : String.eqb s "" = false).
    { apply Hnonempty. intros ->. discriminate Hint. }
    unfold _parse_retry_after, Auth._calculate_wait_time.
    now rewrite Hs, Hint, (float_of_int_literal s n Hint).
  - intros s d off Hint Hparse Hzone.
    unfold _parse_retry_after, Auth._calculate_wait_time, naive_delta.
    rewrite Hint, Hparse, Hzone. split.
    + now destruct (String.eqb s "").
    + intros Hfloat. rewrite Hfloat. now destruct (String.eqb s "").
  - intros s d Hne Hint Hparse Hzone delta.
    unfold _parse_retry_after, Auth._calculate_wait_time, naive_delta.
    rewrite (Hnonempty s Hne), Hint, Hparse, Hzone. fold delta. split.
    + apply trunc_max_default.
    + intros Hfloat. now rewrite Hfloat.
  - intros s Hint Hparse.
    unfold _parse_retry_after, Auth._calculate_wait_time.
    rewrite Hint, Hparse. split.
    + now destruct (String.eqb s "").
    + intros Hfloat. rewrite Hfloat. now destruct (String.eqb s "").
  - cbv zeta. split; [reflexivity|]. split; [reflexivity|]. split.
    + eexists. split; [reflexivity|]. split; [reflexivity|].
      vm_compute. reflexivity.
    + split; reflexivity.
Qed.

End RetryAfter.

(** Witness of C3 with the parser of RFC 7231 dates: a number, a date that
    ends in GMT read a week before it, and a text that is no date. *)
Lemma retry_after_wait_witness :
  let now := (1791962880 # 1)%Q in
  let date := "Wed, 21 Oct 2026 07:28:00 GMT" in
  (_parse_retry_after Formats.imf_fixdate now (Some "120") = 120 /\
   Auth._calculate_wait_time Formats.imf_fixdate now (Some "120")
   = Fin (120 # 1)%Q)
  /\ (_parse_retry_after Formats.imf_fixdate now (Some date) = 60 /\
      Auth._calculate_wait_time Formats.imf_fixdate now (Some date)
      = Fin (60 # 1)%Q)
  /\ _parse_retry_after Formats.imf_fixdate now (Some "not-a-date") = 60.
Proof.
  cbv zeta.
  destruct (retry_after_wait Formats.imf_fixdate (1791962880 # 1)%Q)
    as (_ & Hint & Haware & _ & Hbad & _).
  split; [|split].
  - apply (Hint "120" 120). reflexivity.
  - destruct (Haware "Wed, 21 Oct 2026 07:28:00 GMT"
                (mkdatetime 2026 10 21 7 28 0 0 utc) 0
                eq_refl eq_refl eq_refl) as [Hexec Htoken].
    split; [exact Hexec|]. apply Htoken. reflexivity.
  - apply (Hbad "not-a-date"); reflexivity.
Defined.

Section Gate.

Variable parsedate_to_datetime : string -> option datetime.
Variable base_validate_response : response -> res unit.

Abbreviation validate :=
  (validate_response parsedate_to_datetime base_validate_response).
Abbreviation request :=
  (_request parsedate_to_datetime base_validate_response).
Abbreviation run :=
  (requests parsedate_to_datetime base_validate_response).

(** After the gate the clock is at least the minimum interval past the
    last-request time; nothing else changes. *)
Lemma rate_limit_waits (over : Q) (p : process) :
  Qle 0 over ->
  let p' := _rate_limit over p in
  Qle (clock p) (clock p') /\
  Qle (Qplus (_last_request_time p) (_min_request_interval p)) (clock p') /\
  _last_request_time p' = _last_request_time p /\
  _min_request_interval p' = _min_request_interval p /\
  started p' = started p.
Proof.
  intros Hover. unfold _rate_limit.
  destruct (Qlt_bool (Qminus (clock p) (_last_request_time p))
                     (_min_request_interval p)) eqn:E; simpl.
  - apply Qlt_bool_true in E. repeat split; lra.
  - apply Qlt_bool_false in E. repeat split; lra.
Qed.

(** Validation only lets time pass. *)
Lemma validate_frame (over : Q) (r : response) (p : process) :
  Qle 0 over ->
  let p' := snd (validate over r p) in
  Qle (clock p) (clock p') /\
  _last_request_time p' = _last_request_time p /\
  _min_request_interval p' = _min_request_interval p /\
  started p' = started p.
Proof.
  intros Hover. unfold validate_response, _handle_429_response.
  destruct (status_code r =? 429); simpl.
  - destruct (sleep_refuses_int
                (_parse_retry_after parsedate_to_datetime (clock p)
                   (header "Retry-After" (headers r)))) eqn:E; simpl.
    + repeat split; lra.
    + apply sleep_accepts_int in E. destruct E as [E _].
      rewrite Zle_Qle in E. repeat split; try reflexivity.
      change (inject_Z 0) with 0%Q in E. lra.
  - repeat split; lra.
Qed.

Lemma validate_keeps (over : Q) (r : response) (p : process) :
  let p' := snd (validate over r p) in
  _last_request_time p' = _last_request_time p /\
  started p' = started p.
Proof.
  unfold validate_response, _handle_429_response.
  destruct (status_code r =? 429); simpl; [|now split].
  destruct (sleep_refuses_int _); simpl; now split.
Qed.

Lemma rate_limit_keeps (over : Q) (p : process) :
  started (_rate_limit over p) = started p.
Proof. unfold _rate_limit. now destruct (Qlt_bool _ _). Qed.

(** The last-request time is read once the call has returned, whatever the
    status of the response: it is the start of the request plus the time in
    flight and the time to the clock reading. *)
Lemma stamp_after_return (a : attempt) (p : process) (r : response) :
  headers_error a = None ->
  delivered a = Returned r ->
  let p' := snd (request a p) in
  exists start,
    started p' = start :: started p /\
    _last_request_time p' = Qplus (Qplus start (in_flight a)) (lag a).
Proof.
  intros Hh Hd. unfold _request. rewrite Hh, Hd. cbv zeta.
  match goal with
  | |- context [validate ?o ?r ?q] =>
      pose proof (validate_keeps o r q) as Hv; cbv zeta in Hv;
      destruct Hv as [Hv1 Hv2];
      destruct (validate o r q) as [[u|e] p2]
  end; simpl in *; rewrite Hv1, Hv2, rate_limit_keeps; simpl;
    eexists; split; reflexivity.
Qed.

Lemma request_settled (a : attempt) (p : process) :
  causal a -> answered a -> settled p ->
  settled (snd (request a p)) /\
  _min_request_interval (snd (request a p)) = _min_request_interval p.
Proof.
  intros (Hi & Ho & Hp & Hf & Hl & H4) Hans (Hlast & Hstarts & Hsp).
  unfold _request.
  pose proof (rate_limit_waits (oversleep a) (advance (idle a) p) Ho) as Hg.
  cbv zeta in Hg. simpl in Hg.
  destruct Hg as (Hg1 & Hg2 & Hg3 & Hg4 & Hg5).
  set (g := _rate_limit (oversleep a) (advance (idle a) p)) in *.
  destruct (headers_error a) as [e|].
  - unfold settled; simpl. rewrite Hg3, Hg4, Hg5. repeat split; trivial. lra.
  - unfold answered in Hans. destruct (delivered a) as [r|e]; [|contradiction].
    match goal with
    | |- context [validate ?o ?r ?q] =>
        pose proof (validate_frame o r q H4) as Hv; cbv zeta in Hv;
        destruct (validate o r q) as [[u|e] p2];
        destruct Hv as (Hv1 & Hv2 & Hv3 & Hv4)
    end; unfold settled; simpl in *; rewrite Hg5 in Hv4;
      rewrite Hv2, Hv3, Hv4, Hg4;
      (split; [|reflexivity]); (split; [lra|]);
      (split;
       [ intros s [<-|Hin]; [lra|]; specialize (Hstarts s Hin); lra
       | split; [|exact Hsp];
         destruct (started p) as [|earlier rest]; [exact I|];
         specialize (Hstarts earlier (or_introl eq_refl)); lra ]).
Qed.

Lemma requests_settled (l : list attempt) (p : process) :
  Forall causal l -> Forall answered l -> settled p ->
  settled (run l p) /\
  _min_request_interval (run l p) = _min_request_interval p.
Proof.
  revert p. induction l as [|a l IH]; intros p Hc Ha Hs; simpl.
  - now split.
  - inversion Hc as [|? ? Hc1 Hc2]; subst. inversion Ha as [|? ? Ha1 Ha2]; subst.
    destruct (request_settled a p Hc1 Ha1 Hs) as [Hs' Hm].
    destruct (IH _ Hc2 Ha2 Hs') as [Hs'' Hm'].
    split; [exact Hs''|]. now rewrite Hm'.
Qed.

(** The rate gate, for calls that are all answered: whatever the statuses
    of the responses and however the calls follow each other, each request
    starts at least half a second after the one before. *)
Lemma rate_gate_spacing (l : list attempt) (t : Q) :
  Qle 0 t -> Forall causal l -> Forall answered l ->
  spaced MIN_REQUEST_INTERVAL (started (run l (initial t))).
Proof.
  intros Ht Hc Ha.
  assert (Hs : settled (initial t)).
  { unfold settled, initial; simpl. repeat split; trivial. intros s []. }
  destruct (requests_settled l (initial t) Hc Ha Hs) as [(_ & _ & Hsp) Hm].
  now rewrite Hm in Hsp.
Qed.

End Gate.

(** C2 on four calls in a row, the second and third of which raise a
    connection error a hundredth of a second after they started.  A call
    that raises leaves the last-request time where the call before it put
    it, so the gate lets the third and the fourth call pass at once: they
    start a hundredth of a second after their predecessors, the starts are
    not half a second apart, and four requests start within 0.62 seconds. *)
Theorem rate_gate_after_failed_call :
  let calls :=
    [Samples.served; Samples.reset; Samples.reset; Samples.served] in
  let p :=
    requests Formats.imf_fixdate Samples.accept calls (initial (1000 # 1)%Q) in
  Forall causal calls /\
  (exists fourth third second first,
     started p = [fourth; third; second; first] /\
     Qeq (Qminus second first) (6 # 10)%Q /\
     Qeq (Qminus third second) (1 # 100)%Q /\
     Qeq (Qminus fourth third) (1 # 100)%Q) /\
  ~ spaced MIN_REQUEST_INTERVAL (started p).
Proof.
  cbv zeta. split; [|split].
  - repeat constructor; unfold Qle; simpl; lia.
  - do 4 eexists. split; [reflexivity|]. repeat split; vm_compute; reflexivity.
  - intros H. vm_compute in H. destruct H as [H _]. apply H. reflexivity.
Qed.

End ClientProofs.

(** ** The workflow: mapping *)
Module MappingProofs.
Import Py Sinks Facts.

Lemma append_assoc (a b c : string) : (a ++ b) ++ c = a ++ b ++ c.
Proof. induction a as [|x a IH]; simpl; [reflexivity|now rewrite IH]. Qed.

(** A naive datetime is printed as UTC: its own rendering followed by the
    offset +00:00. *)
Lemma isoformat_naive_as_utc (dt : datetime) :
  tzinfo dt = None -> isoformat (with_utc dt) = isoformat dt ++ "+00:00".
Proof.
  intros H. unfold with_utc. rewrite H.
  unfold isoformat, isoformat_sep. rewrite H. simpl tzinfo.
  cbn [replace_tzinfo year month day hour minute second microsecond tzinfo].
  change (format_offset 0) with "+00:00".
  repeat rewrite append_assoc. reflexivity.
Qed.

Lemma get_set_str_unless_none (k k' : string) (v : value) (p : dict) :
  k' <> k -> get k (set_str_unless_none k' v p) = get k p.
Proof.
  intros H. unfold set_str_unless_none.
  destruct v; try reflexivity; now apply get_set_other.
Qed.

Lemma get_copy_if_truthy (record : dict) (k k' : string) (p : dict) :
  k' <> k -> get k (copy_if_truthy record p k') = get k p.
Proof.
  intros H. unfold copy_if_truthy.
  destruct (truthy (get k' record)); [now apply get_set_other|reflexivity].
Qed.

Lemma get_copy_unless_none (record : dict) (k k' : string) (p : dict) :
  k' <> k -> get k (copy_unless_none record p k') = get k p.
Proof.
  intros H. unfold copy_unless_none.
  destruct (get k' record); try reflexivity; now apply get_set_other.
Qed.

Section Mapping.

Variable fromisoformat : string -> option datetime.
Variable json_loads : string -> option value.

Abbreviation format_date := (_format_date fromisoformat).
Abbreviation preprocess := (preprocess_record fromisoformat json_loads).

(** C7.  A record without a usable shop id, under a configuration without a
    usable default, makes [preprocess_record] raise ValueError, which is
    not among the errors the executor retries; the record ends there, and
    the calls made through the executor are those made before. *)
Theorem missing_shop_id_is_fatal
    (request_api : list request -> request -> res response)
    (config record : dict) (w : world) :
  truthy (get "shopID" record) = false ->
  truthy (get "buyorders_shop_id" config) = false ->
  exists e,
    preprocess config record = Raise e /\
    exc_type e = "ValueError" /\
    Client.retried e = false /\
    process_record request_api fromisoformat json_loads config record w
    = (Raise e, w) /\
    sent (snd (process_record request_api fromisoformat json_loads
                 config record w)) = sent w.
Proof.
  intros Hrec Hcfg.
  assert (Hshop : truthy (por (get "shopID" record)
                              (get "buyorders_shop_id" config)) = false).
  { rewrite truthy_por, Hrec, Hcfg. reflexivity. }
  eexists. unfold process_record, preprocess_record. rewrite Hshop. simpl.
  repeat split.
Qed.

(** The mapped date survives the rest of the mapping. *)
Lemma ordered_date_kept (config record : dict) (date : string) :
  _format_date fromisoformat (get "OrderDate" record) = VStr date ->
  date <> "" ->
  truthy (por (get "shopID" record) (get "buyorders_shop_id" config)) = true ->
  exists payload,
    preprocess config record = Ok payload /\
    get "orderedDate" payload = VStr date.
Proof.
  intros Hdate Hne Hshop. unfold preprocess_record. cbv zeta.
  rewrite Hdate, Hshop.
  assert (Hpor : forall x, por (VStr date) x = VStr date).
  { intros x. unfold por. simpl.
    destruct (String.eqb date "") eqn:E; [|reflexivity].
    apply String.eqb_eq in E. contradiction. }
  rewrite Hpor. simpl negb. cbv iota.
  eexists. split; [reflexivity|].
  rewrite get_set_other by discriminate. simpl fold_left.
  repeat rewrite get_copy_unless_none by discriminate.
  repeat rewrite get_copy_if_truthy by discriminate.
  rewrite get_set_other by discriminate.
  rewrite get_set_str_unless_none by discriminate.
  rewrite get_set_str_unless_none by discriminate.
  unfold set_str_unless_none at 1. simpl str. apply get_set_same.
Qed.

(** C8, amended.  What the mapping makes of a date value.  A string that
    contains "Z" has each "Z" replaced by "+00:00"; a string without "Z"
    that contains "+" or more than two "-" is kept as it is; any other
    string is parsed as an ISO date: a naive result is printed with the
    offset +00:00, an aware one with its own offset, and a string that does
    not parse is kept as it is, without offset.  A datetime object is
    printed the same way.  A record whose OrderDate is
    "2025-12-05T08:55:00Z" and whose shop id resolves is mapped to a payload
    whose orderedDate is "2025-12-05T08:55:00+00:00". *)
Theorem format_date_normalizes :
  (forall s,
      contains_char "Z" s = true ->
      format_date (VStr s) = VStr (replace_char "Z" "+00:00" s))
  /\ (forall s,
        contains_char "Z" s = false ->
        contains_char "+" s || (2 <? count_char "-" s) = true ->
        format_date (VStr s) = VStr s)
  /\ (forall s dt,
        contains_char "Z" s = false ->
        contains_char "+" s || (2 <? count_char "-" s) = false ->
        fromisoformat s = Some dt ->
        format_date (VStr s)
        = VStr match tzinfo dt with
               | None => isoformat dt ++ "+00:00"
               | Some _ => isoformat dt
               end)
  /\ (forall s,
        contains_char "Z" s = false ->
        contains_char "+" s || (2 <? count_char "-" s) = false ->
        fromisoformat s = None ->
        format_date (VStr s) = VStr s)
  /\ (forall dt,
        format_date (VDatetime dt)
        = VStr match tzinfo dt with
               | None => isoformat dt ++ "+00:00"
               | Some _ => isoformat dt
               end)
  /\ (forall config record,
        get "OrderDate" record = VStr "2025-12-05T08:55:00Z" ->
        truthy (por (get "shopID" record) (get "buyorders_shop_id" config))
        = true ->
        exists payload,
          preprocess config record = Ok payload /\
          get "orderedDate" payload = VStr "2025-12-05T08:55:00+00:00").
Proof.
  assert (Hiso : forall dt,
             isoformat (with_utc dt)
             = match tzinfo dt with
               | None => isoformat dt ++ "+00:00"
               | Some _ => isoformat dt
               end).
  { intros dt. destruct (tzinfo dt) eqn:E.
    - unfold with_utc. now rewrite E.
    - now apply isoformat_naive_as_utc. }
  repeat split.
  - intros s HZ. unfold _format_date. now rewrite HZ.
  - intros s HZ Hoff. unfold _format_date. now rewrite HZ, Hoff.
  - intros s dt HZ Hoff Hparse. unfold _format_date.
    now rewrite HZ, Hoff, Hparse, Hiso.
  - intros s HZ Hoff Hparse. unfold _format_date.
    now rewrite HZ, Hoff, Hparse.
  - intros dt. unfold _format_date. now rewrite Hiso.
  - intros config record Hdate Hshop.
    apply ordered_date_kept; [now rewrite Hdate|discriminate|exact Hshop].
Qed.

End Mapping.

(** Witness of C8: the sample order, and a naive date. *)
Lemma format_date_normalizes_witness :
  _format_date Formats.fromisoformat_plain (VStr "2025-12-05T08:55:00Z")
  = VStr "2025-12-05T08:55:00+00:00" /\
  _format_date Formats.fromisoformat_plain (VStr "2025-12-05T08:55:00-05:00")
  = VStr "2025-12-05T08:55:00-05:00" /\
  _format_date Formats.fromisoformat_plain (VStr "2025-12-05 08:55")
  = VStr "2025-12-05T08:55:00+00:00" /\
  _format_date Formats.fromisoformat_plain (VStr "next week") = VStr "next week" /\
  exists payload,
    preprocess_record Formats.fromisoformat_plain Formats.json_loads_none
      [] Samples.order_record = Ok payload /\
    get "orderedDate" payload = VStr "2025-12-05T08:55:00+00:00".
Proof.
  destruct (format_date_normalizes Formats.fromisoformat_plain
              Formats.json_loads_none) as (HZ & Hoff & Hiso & Hbad & _ & He2e).
  split; [|split; [|split; [|split]]].
  - apply (HZ "2025-12-05T08:55:00Z"). reflexivity.
  - apply (Hoff "2025-12-05T08:55:00-05:00"); reflexivity.
  - apply (Hiso "2025-12-05 08:55" (mkdatetime 2025 12 5 8 55 0 0 None));
      reflexivity.
  - apply (Hbad "next week"); reflexivity.
  - apply (He2e [] Samples.order_record); reflexivity.
Defined.

(** C8 as stated fails on a date written day first: it carries no zone, it
    is not ISO, and it reaches the payload as it came, without offset. *)
Lemma format_date_counterexample :
  let given := "05/12/2025 08:55" in
  _format_date Formats.fromisoformat_plain (VStr given) = VStr given /\
  ends_with_offset given = false /\
  exists payload,
    preprocess_record Formats.fromisoformat_plain Formats.json_loads_none
      [("buyorders_shop_id", VInt 1)] [("OrderDate", VStr given)]
    = Ok payload /\
    get "orderedDate" payload = VStr given.
Proof.
  cbv zeta. split; [reflexivity|]. split; [reflexivity|].
  eexists. split; reflexivity.
Qed.

(** Witness of C7: the sample order without a shop, no default configured. *)
Lemma missing_shop_id_is_fatal_witness :
  exists e,
    preprocess_record Formats.fromisoformat_plain Formats.json_loads_none
      [] Samples.order_without_shop = Raise e /\
    exc_type e = "ValueError" /\
    Client.retried e = false /\
    process_record (fun _ _ => Ok (Samples.ok_response (VDict [])))
      Formats.fromisoformat_plain Formats.json_loads_none
      [] Samples.order_without_shop (mkworld [] [])
    = (Raise e, mkworld [] []) /\
    sent (snd (process_record (fun _ _ => Ok (Samples.ok_response (VDict [])))
                 Formats.fromisoformat_plain Formats.json_loads_none
                 [] Samples.order_without_shop (mkworld [] []))) = [].
Proof.
  apply (missing_shop_id_is_fatal Formats.fromisoformat_plain
           Formats.json_loads_none _ [] Samples.order_without_shop
           (mkworld [] [])); reflexivity.
Defined.

End MappingProofs.

(** ** The workflow: submission *)
Module SubmissionProofs.
Import Py Sinks Facts.

Section Submission.

Variable request_api : list request -> request -> res response.

Abbreviation lines := (submit_lines request_api).
Abbreviation upsert := (upsert_record request_api).
Abbreviation failed := (failed_lines request_api).

(** The line loop over line items that are dicts: every line is requested,
    in order, whatever happened to the lines before it; the loop ends
    normally and its two counters account for every line. *)
Lemma submit_lines_all (order_id : value) (items : list dict) :
  forall (idx : nat) (bound : option dict) (s f : nat) (w : world),
  exists s' w',
    lines order_id (map VDict items) idx bound s f w
    = (Ok (s', f + failed (sent w) (line_requests order_id items))%nat, w') /\
    (s' + failed (sent w) (line_requests order_id items)
     = s + List.length items)%nat /\
    sent w' = (sent w ++ line_requests order_id items)%list.
Proof.
  induction items as [|item items IH]; intros idx bound s f w.
  - exists s, w. simpl. rewrite Nat.add_0_r, app_nil_r. now repeat split.
  - cbn [map submit_lines line_requests failed_lines].
    unfold submit_line. cbn [order_line_payload]. unfold call_api.
    cbn [sent log].
    set (req := line_request (line_payload order_id item)).
    destruct (line_answer (request_api (sent w) req)) as [[id data]|e].
    + match goal with
      | |- context [lines _ _ _ ?b ?s1 ?f1 ?w1] =>
          destruct (IH (S idx) b s1 f1 w1) as (s' & w' & Hrun & Hcount & Hsent)
      end.
      cbn [sent logging] in *.
      exists s', w'. rewrite Hrun. repeat split.
      * unfold line_requests in *. simpl List.length. lia.
      * rewrite Hsent, <- app_assoc. reflexivity.
    + match goal with
      | |- context [lines _ _ _ ?b ?s1 ?f1 ?w1] =>
          destruct (IH (S idx) b s1 f1 w1) as (s' & w' & Hrun & Hcount & Hsent)
      end.
      cbn [sent logging] in *.
      exists s', w'. rewrite Hrun. repeat split.
      * unfold line_requests in *. f_equal. f_equal. f_equal. lia.
      * unfold line_requests in *. simpl List.length. lia.
      * rewrite Hsent, <- app_assoc. reflexivity.
Qed.

(** The outer [try] block for an order that is created and whose line
    items are dicts: it ends normally, after a request for every line. *)
Lemma submit_order_created (order_record : dict) (items : list dict)
    (w : world) (resp : response) (order_id : value) :
  request_api (sent w) (order_request order_record) = Ok resp ->
  find_order_id (body_or_empty resp) = Ok order_id ->
  truthy order_id = true ->
  let history := (sent w ++ [order_request order_record])%list in
  let failures := failed history (line_requests order_id items) in
  exists w',
    submit_order request_api order_record (VList (map VDict items)) w
    = (Ok (Some (str order_id), true, []), w') /\
    sent w' = (history ++ line_requests order_id items)%list /\
    (failures <= List.length items)%nat /\
    (items <> [] ->
     In (LinesComplete order_id (List.length items - failures) failures)
        (log w')).
Proof.
  intros Hreq Hid Htrue history failures.
  unfold submit_order, call_api. rewrite Hreq, Hid, Htrue. cbn [negb].
  destruct items as [|item items].
  - cbn [map truthy]. eexists. split; [reflexivity|].
    cbn [sent logging line_requests map]. rewrite app_nil_r.
    repeat split; [apply Nat.le_0_l|]. intros H. now contradiction H.
  - set (all := item :: items) in *.
    replace (truthy (VList (map VDict all))) with true by reflexivity.
    cbn [iterate].
    match goal with
    | |- context [lines _ _ ?i ?b ?s1 ?f1 ?w1] =>
        destruct (submit_lines_all order_id all i b s1 f1 w1)
          as (s' & w' & Hrun & Hcount & Hsent)
    end.
    rewrite Hrun. cbn [sent logging] in Hcount, Hsent |- *.
    fold history in Hcount, Hsent |- *. fold failures in Hcount |- *.
    cbn [Nat.add] in *.
    assert (Hs' : s' = (List.length all - failures)%nat) by lia.
    subst s'.
    eexists. split; [reflexivity|]. split; [|split; [lia|]].
    + destruct (0 <? failures)%nat; cbn [sent logging]; exact Hsent.
    + intros _.
      destruct (0 <? failures)%nat; cbn [log logging];
        repeat rewrite in_app_iff; simpl; tauto.
Qed.

(** C1, amended.  For an order record whose line items are objects, once
    the order request is answered with a response that carries an order id:
    every line is requested, in order, whether or not the lines before it
    failed; [upsert_record] returns the order id with success=true, and the
    diagnostics it returns are empty; the numbers of succeeded and failed
    lines go to the log, in the summary written after the last line. *)
Theorem line_failures_keep_order_success (record order_record : dict)
    (items : list dict) (w : world) (resp : response) (order_id : value) :
  record <> [] ->
  pop "_line_items" (VList []) record = (VList (map VDict items), order_record) ->
  request_api (sent w) (order_request order_record) = Ok resp ->
  find_order_id (body_or_empty resp) = Ok order_id ->
  truthy order_id = true ->
  let history := (sent w ++ [order_request order_record])%list in
  let failures := failed history (line_requests order_id items) in
  exists w',
    upsert record w = ((Some (str order_id), true, []), w') /\
    sent w' = (history ++ line_requests order_id items)%list /\
    (failures <= List.length items)%nat /\
    (items <> [] ->
     In (LinesComplete order_id (List.length items - failures) failures)
        (log w')).
Proof.
  intros Hne Hpop Hreq Hid Htrue history failures.
  destruct (submit_order_created order_record items w resp order_id
              Hreq Hid Htrue) as (w' & Hrun & Hsent & Hle & Hlog).
  exists w'.
  destruct record as [|kv rest]; [contradiction|].
  unfold upsert_record. rewrite Hpop, Hrun.
  split; [reflexivity|].
  split; [exact Hsent|].
  split; [exact Hle|exact Hlog].
Qed.

(** What the handler of [upsert_record] puts into the diagnostics. *)
Lemma error_updates_content (e : exn) :
  get "error" (error_updates e) = VStr (exc_msg e) /\
  get "error_type" (error_updates e) = VStr (exc_type e) /\
  lookup "api_error_response" (error_updates e)
  = match exc_response e with
    | Some r =>
        Some match json r with
             | JsonValue error_data => error_data
             | JsonError _ => VStr (take 1000 (text r))
             end
    | None => None
    end.
Proof.
  unfold error_updates. split; [|split].
  - rewrite get_set_other by discriminate. apply get_set_same.
  - apply get_set_same.
  - rewrite lookup_set_other by discriminate.
    rewrite lookup_set_other by discriminate.
    destruct (exc_response e) as [r|]; [|reflexivity].
    now destruct (json r).
Qed.

(** [upsert_record] returns one of two shapes. *)
Lemma upsert_shape (record : dict) (w : world) :
  let '(id, ok, diag) := fst (upsert record w) in
  (ok = true /\ id <> None /\ diag = []) \/ (ok = false /\ id = None).
Proof.
  unfold upsert_record. destruct record as [|kv rest]; [simpl; now right|].
  destruct (pop "_line_items" (VList []) (kv :: rest)) as [line_items order].
  unfold submit_order, call_api.
  destruct (request_api (sent w) (order_request order)) as [resp|e];
    [|simpl; now right].
  destruct (find_order_id (body_or_empty resp)) as [order_id|e];
    [|simpl; now right].
  destruct (truthy order_id); cbn [negb]; [|simpl; now right].
  destruct (truthy line_items); [|simpl; left; repeat split; discriminate].
  destruct (iterate line_items) as [items|e]; [|simpl; now right].
  destruct (lines order_id items 0 None 0 0 _) as [[[s f]|e] w'];
    [|simpl; now right].
  simpl. left. repeat split; discriminate.
Qed.

(** C10, amended.  [upsert_record] always returns a result.  An empty record
    gives (None, false, {}) and no call.  An exception raised by the order
    request, and any other exception that leaves the outer [try] block, is
    turned into (None, false, diagnostics), where the diagnostics hold the
    message under "error", the class name under "error_type" and, when the
    exception carries a response, its decoded body (or the first 1000
    characters of its text) under "api_error_response".  An exception raised
    while a line of a created order is submitted does not leave the line
    loop: the result is the order id with success=true. *)
Theorem upsert_record_failures (record : dict) (w : world) :
  (let '(id, ok, diag) := fst (upsert record w) in
   (ok = true /\ id <> None /\ diag = []) \/ (ok = false /\ id = None))
  /\ (record = [] -> upsert record w = ((None, false, []), w))
  /\ (forall line_items order_record e,
        record <> [] ->
        pop "_line_items" (VList []) record = (line_items, order_record) ->
        request_api (sent w) (order_request order_record) = Raise e ->
        fst (upsert record w) = (None, false, error_updates e) /\
        sent (snd (upsert record w))
        = (sent w ++ [order_request order_record])%list)
  /\ (forall line_items order_record e w',
        record <> [] ->
        pop "_line_items" (VList []) record = (line_items, order_record) ->
        submit_order request_api order_record line_items w = (Raise e, w') ->
        fst (upsert record w) = (None, false, error_updates e))
  /\ (forall e,
        get "error" (error_updates e) = VStr (exc_msg e) /\
        get "error_type" (error_updates e) = VStr (exc_type e) /\
        lookup "api_error_response" (error_updates e)
        = match exc_response e with
          | Some r =>
              Some match json r with
                   | JsonValue error_data => error_data
                   | JsonError _ => VStr (take 1000 (text r))
                   end
          | None => None
          end)
  /\ (forall order_record items resp order_id,
        record <> [] ->
        pop "_line_items" (VList []) record
        = (VList (map VDict items), order_record) ->
        request_api (sent w) (order_request order_record) = Ok resp ->
        find_order_id (body_or_empty resp) = Ok order_id ->
        truthy order_id = true ->
        fst (upsert record w) = (Some (str order_id), true, [])).
Proof.
  split; [apply upsert_shape|]. split; [now intros ->|].
  split; [|split; [|split; [exact error_updates_content|]]].
  - intros line_items order_record e Hne Hpop Hreq.
    destruct record as [|kv rest]; [contradiction|].
    unfold upsert_record. rewrite Hpop.
    unfold submit_order, call_api. rewrite Hreq. now split.
  - intros line_items order_record e w' Hne Hpop Hrun.
    destruct record as [|kv rest]; [contradiction|].
    unfold upsert_record. now rewrite Hpop, Hrun.
  - intros order_record items resp order_id Hne Hpop Hreq Hid Htrue.
    destruct (submit_order_created order_record items w resp order_id
                Hreq Hid Htrue) as (w' & Hrun & _).
    destruct record as [|kv rest]; [contradiction|].
    unfold upsert_record. now rewrite Hpop, Hrun.
Qed.

End Submission.

(** Witness of C1: three lines, the second of which raises. *)
Lemma line_failures_keep_order_success_witness :
  exists w',
    upsert_record (Samples.api_rejecting "502") Samples.three_lines Samples.fresh
    = ((Some "42", true, []), w') /\
    List.length (sent w') = 4%nat /\
    In (LinesComplete (VStr "42") 2 1) (log w').
Proof.
  destruct (line_failures_keep_order_success (Samples.api_rejecting "502")
              Samples.three_lines
              [("refNum", VStr "7"); ("shopID", VStr "1")]
              [[("productId", VStr "501"); ("quantity", VInt 3)];
               [("productId", VStr "502"); ("quantity", VInt 1)];
               [("productId", VStr "503"); ("quantity", VInt 2)]]
              Samples.fresh Samples.created_order (VStr "42"))
    as (w' & Hout & Hsent & _ & Hlog);
    try reflexivity; try discriminate.
  exists w'. split; [exact Hout|]. split.
  - rewrite Hsent. reflexivity.
  - apply Hlog. discriminate.
Defined.

(** C1 as stated fails on its own example: with three lines of which the
    second fails, the diagnostics returned with the order id are empty;
    the two counts are in the log only. *)
Lemma line_counts_counterexample :
  let '(out, w') :=
    upsert_record (Samples.api_rejecting "502") Samples.three_lines
      Samples.fresh in
  out = (Some "42", true, []) /\
  In (LinesComplete (VStr "42") 2 1) (log w').
Proof. vm_compute. split; [reflexivity|]. tauto. Qed.

(** Witness of C10: the sample order, the executor giving up on the order
    request. *)
Lemma upsert_record_failures_witness :
  fst (upsert_record Samples.api_down Samples.three_lines Samples.fresh)
  = (None, false,
     [("api_error_response", VDict [("message", VStr "try later")]);
      ("error", VStr "503 Server Error");
      ("error_type", VStr "RetriableAPIError")]) /\
  List.length
    (sent (snd (upsert_record Samples.api_down Samples.three_lines
                  Samples.fresh))) = 1%nat.
Proof.
  destruct (upsert_record_failures Samples.api_down Samples.three_lines
              Samples.fresh) as (_ & _ & Horder & _).
  destruct (Horder (VList [Samples.line "501" 3; Samples.line "502" 1;
                           Samples.line "503" 2])
                   [("refNum", VStr "7"); ("shopID", VStr "1")]
                   Samples.gave_up) as [Hout Hsent];
    try reflexivity; try discriminate.
  split.
  - exact Hout.
  - rewrite Hsent. reflexivity.
Defined.

(** C10 as stated fails on an exception raised while a line is submitted:
    the exception is caught, and the result is the created order's id with
    success=true, not the failure result. *)
Lemma line_exception_counterexample :
  let req :=
    line_request (line_payload (VStr "42")
                    [("productId", VStr "502"); ("quantity", VInt 1)]) in
  (exists e history, Samples.api_rejecting "502" history req = Raise e) /\
  fst (upsert_record (Samples.api_rejecting "502") Samples.one_line
         Samples.fresh) = (Some "42", true, []) /\
  In req (sent (snd (upsert_record (Samples.api_rejecting "502")
                       Samples.one_line Samples.fresh))).
Proof.
  cbv zeta. split; [|split].
  - eexists. exists []. reflexivity.
  - reflexivity.
  - vm_compute. tauto.
Qed.

(** C9 on the line fields quantity and itemID.  Every line payload carries
    both, as the text of whatever the line item holds for them, which for a
    line item that names neither is the text "None": such a line is neither
    refused before the call nor sent without the two fields.  On the sample
    order with a blank line the request goes out with "None" for both and
    the record is reported as a success. *)
Theorem absent_line_fields_are_sent :
  (forall order_id item,
      get "quantity" (line_payload order_id item)
      = VStr (str (get "quantity" item)) /\
      get "itemID" (line_payload order_id item)
      = VStr (str (por (get "productId" item) (get "product_remoteId" item))))
  /\ (forall order_id,
        line_payload order_id []
        = [("orderID", VStr (str order_id));
           ("quantity", VStr "None");
           ("itemID", VStr "None")])
  /\ sent (snd (upsert_record (Samples.api_rejecting "502")
                  Samples.blank_line Samples.fresh))
     = [order_request [("refNum", VStr "9"); ("shopID", VStr "1")];
        line_request [("orderID", VStr "42");
                      ("quantity", VStr "None");
                      ("itemID", VStr "None")]]
  /\ fst (upsert_record (Samples.api_rejecting "502") Samples.blank_line
            Samples.fresh) = (Some "42", true, []).
Proof.
  split; [|repeat split].
  intros order_id item. unfold line_payload. cbn [fold_left fst snd].
  assert (Hskip : forall k k' v p, k' <> k ->
            get k (set_str_unless_none k' v p) = get k p).
  { intros k k' v p Hne. unfold set_str_unless_none.
    destruct v; try reflexivity; now apply get_set_other. }
  split; repeat rewrite Hskip by discriminate; reflexivity.
Qed.

(** The fields of a line payload that the code treats as optional are left
    out when the line item lacks them. *)
Lemma optional_line_fields_omitted (order_id : value) (item : dict) (k : string) :
  In k ["originalPrice"; "numReceived"; "vendorCost"] ->
  lookup k item = None ->
  lookup k (line_payload order_id item) = None.
Proof.
  intros Hin Habs. unfold line_payload. cbn [fold_left fst snd].
  assert (Hget : get k item = VNone) by (unfold get; now rewrite Habs).
  assert (Hskip : forall k' v p, k' <> k ->
            lookup k (set_str_unless_none k' v p) = lookup k p).
  { intros k' v p Hne. unfold set_str_unless_none.
    destruct v; try reflexivity; now apply lookup_set_other. }
  simpl in Hin.
  destruct Hin as [<-|[<-|[<-|[]]]]; rewrite Hget;
    repeat (first [ rewrite Hskip by discriminate
                  | unfold set_str_unless_none at 1; cbv iota ]);
    reflexivity.
Qed.

End SubmissionProofs.

(** ** More on the token lifecycle *)
Module AuthExtras.
Import Py Auth Facts Notions.

Section Refresh.

Variable fromtimestamp : Z -> res datetime.

Abbreviation refresh := (update_access_token fromtimestamp).

(** [_update_config_tokens] touches the three credential keys of the config
    and nothing else of the authenticator. *)
Lemma update_config_tokens_frame (tj : dict) (t : Q) (v : value)
    (a : authenticator) :
  let a' := snd (_update_config_tokens fromtimestamp tj t v a) in
  config_file a' = config_file a /\
  state a' = state a /\
  access_token a' = access_token a /\
  forall k, ~ credential_key k -> lookup k (_config a') = lookup k (_config a).
Proof.
  unfold _update_config_tokens, credential_key.
  destruct (getitem "access_token" tj) as [tok|e]; [|now repeat split].
  destruct (lookup "refresh_token" tj) as [rt|];
    destruct (int_of v) as [secs|e]; simpl;
    try destruct (fromtimestamp _); simpl;
    repeat split; intros k Hk;
    repeat rewrite lookup_set_other
      by (intros Heq; apply Hk; rewrite <- Heq; tauto);
    reflexivity.
Qed.

(** Every path through [update_access_token] up to the point where the
    tokens of a granted refresh are written. *)
Ltac refresh_paths t tr a :=
  unfold update_access_token;
  destruct (truthy (get "refresh_token" (_config a))); cbn [negb];
  [|simpl; auto];
  destruct (oauth_request_body a) as [payload|?]; [|simpl; auto];
  destruct (tr payload) as [resp|?]; [|simpl; auto];
  match goal with
  | |- context [if ?c then ?x else Ok false] =>
      destruct (if c then x else Ok false) as [[|]|?]
  end; [simpl; auto| |simpl; auto];
  destruct (raise_for_status resp) as [?|?]; [|simpl; auto];
  destruct (json_of resp) as [[| | | | | | |tj]|?]; try (simpl; auto; fail);
  destruct (getitem "access_token" tj) as [tok|?]; [|simpl; auto].

(** X1.  The credential file is written only by a refresh that succeeds,
    and then it holds the config as the refresh left it: when
    [update_access_token] raises, the file is what it was; when it returns,
    either nothing at all changed or the file equals the config. *)
Theorem refresh_writes_file_on_success_only (t : Q)
    (token_request : dict -> res response) (a : authenticator) :
  let '(r, a') := refresh t token_request a in
  match r with
  | Raise _ => config_file a' = config_file a
  | Ok _ => a' = a \/ config_file a' = Some (_config a')
  end.
Proof.
  refresh_paths t token_request a.
  match goal with
  | |- context [_update_config_tokens fromtimestamp ?j ?q ?v ?b] =>
      pose proof (update_config_tokens_frame j q v b) as F; cbv zeta in F;
      destruct (_update_config_tokens fromtimestamp j q v b) as [[u|e] a2]
  end; simpl in *.
  - now right.
  - tauto.
Qed.

(** X2.  A refresh, whatever its outcome, leaves every key of the config
    other than access_token, refresh_token and expires_in as it was: the
    client id, the client secret and the account settings survive. *)
Theorem refresh_keeps_other_keys (t : Q)
    (token_request : dict -> res response) (a : authenticator) (k : string) :
  ~ credential_key k ->
  lookup k (_config (snd (refresh t token_request a))) = lookup k (_config a).
Proof.
  intros Hk. revert k Hk.
  refresh_paths t token_request a.
  match goal with
  | |- context [_update_config_tokens fromtimestamp ?j ?q ?v ?b] =>
      pose proof (update_config_tokens_frame j q v b) as F; cbv zeta in F;
      destruct (_update_config_tokens fromtimestamp j q v b) as [[u|e] a2]
  end; simpl in *; intros k Hk; now apply F.
Qed.

(** The state a granted refresh leaves. *)
Lemma refresh_granted (t : Q) (token_request : dict -> res response)
    (a : authenticator) (resp : response) (tj : dict) (tok : value)
    (secs : Z) (d : datetime) :
  grants token_request a resp tj tok ->
  int_of (expires_in_of tj) = Ok secs ->
  fromtimestamp (round t + secs) = Ok d ->
  exists a',
    refresh t token_request a = (Ok tt, a') /\
    get "access_token" (_config a') = tok /\
    get "expires_in" (_config a') = VInt (round t + secs).
Proof.
  intros (Hrt & (payload & Hbody & Hreq) & Hst & Hjson & Hsig & Htok) Hsecs Hts.
  unfold update_access_token.
  rewrite Hrt, Hbody, Hreq. simpl.
  assert (Hsignal :
    (if status_code resp =? 200
     then body <- json_of resp ;; d0 <- vget "error_description" body ;;
          Ok (eq_str d0 not_expired_signal)
     else Ok false) = Ok false).
  { destruct (status_code resp =? 200) eqn:E; [|reflexivity].
    apply Z.eqb_eq in E. unfold json_of. rewrite Hjson. simpl.
    fold (get "error_description" tj). now rewrite (Hsig E). }
  rewrite Hsignal.
  assert (Hok : raise_for_status resp = Ok tt).
  { unfold raise_for_status.
    replace (400 <=? status_code resp) with false
      by (symmetry; apply Z.leb_gt; lia).
    replace (500 <=? status_code resp) with false
      by (symmetry; apply Z.leb_gt; lia).
    reflexivity. }
  rewrite Hok. unfold json_of. rewrite Hjson.
  unfold getitem at 1. rewrite Htok.
  unfold _update_config_tokens, getitem. rewrite Htok. simpl.
  destruct (lookup "refresh_token" tj) as [rt|]; simpl;
    rewrite Hsecs, Hts; eexists; (split; [reflexivity|]); simpl; split;
    try apply get_set_same;
    repeat rewrite get_set_other by discriminate; apply get_set_same.
Qed.

(** X3.  After a granted refresh whose token is non-empty, the token counts
    as valid at a later clock reading exactly as long as that reading, in
    whole seconds, is at least 120 seconds before the start of the refresh
    plus the granted lifetime. *)
Theorem refreshed_token_validity (t t' : Q)
    (token_request : dict -> res response) (a : authenticator)
    (resp : response) (tj : dict) (tok : value) (secs : Z) (d : datetime) :
  grants token_request a resp tj tok ->
  int_of (expires_in_of tj) = Ok secs ->
  fromtimestamp (round t + secs) = Ok d ->
  truthy tok = true ->
  is_token_valid t' (snd (refresh t token_request a))
  = Ok (round t' + 120 <=? round t + secs).
Proof.
  intros Hg Hsecs Hts Htok.
  destruct (refresh_granted t token_request a resp tj tok secs d Hg Hsecs Hts)
    as (a' & Hrun & Hacc & Hexp).
  rewrite Hrun. cbn [snd]. unfold is_token_valid.
  rewrite Hacc, Htok, Hexp. simpl. f_equal. unfold TOKEN_BUFFER_SECONDS.
  destruct (round t' + 120 <=? round t + secs) eqn:E.
  - apply Z.leb_le in E. apply Z.leb_le. lia.
  - apply Z.leb_gt in E. apply Z.leb_gt. lia.
Qed.


(** X5.  A rejected refresh (a 4xx or 5xx token response) raises
    RuntimeError and leaves config, credential file and token attribute as
    they were; the parsed error body, or for a body that is not JSON a
    stand-in holding the first 200 characters of its text, is recorded in
    the diagnostic state under "auth_error_response". *)
Theorem refresh_rejected (t : Q) (token_request : dict -> res response)
    (a : authenticator) (resp : response) :
  rejects token_request a resp ->
  exists e a',
    refresh t token_request a = (Raise e, a') /\
    exc_type e = "RuntimeError" /\
    _config a' = _config a /\
    config_file a' = config_file a /\
    access_token a' = access_token a /\
    get "auth_error_response" (state a')
    = match json resp with
      | JsonValue v => v
      | JsonError _ =>
          VDict [("error", VStr "Could not parse error response");
                 ("text", VStr (take 200 (text resp)))]
      end.
Proof.
  intros (Hrt & (payload & Hbody & Hreq) & Hst).
  unfold update_access_token. rewrite Hrt, Hbody, Hreq. simpl.
  replace (status_code resp =? 200) with false
    by (symmetry; apply Z.eqb_neq; lia).
  unfold raise_for_status.
  destruct ((400 <=? status_code resp) && (status_code resp <? 500)) eqn:E4.
  - do 2 eexists. split; [reflexivity|]. simpl. repeat split.
    apply get_set_same.
  - assert (E5 : (500 <=? status_code resp) && (status_code resp <? 600) = true).
    { apply andb_false_iff in E4. apply andb_true_iff.
      rewrite Z.leb_le, Z.ltb_lt.
      destruct E4 as [E|E]; [apply Z.leb_gt in E|apply Z.ltb_ge in E]; lia. }
    rewrite E5. do 2 eexists. split; [reflexivity|]. simpl. repeat split.
    apply get_set_same.
Qed.

(** X6.  A granted refresh whose [expires_in] cannot be read as a number
    (JSON null, for one) raises; the new access token is then in the config
    in memory, the expiry in the config is the old one, and the credential
    file is not written. *)
Theorem refresh_with_unreadable_expiry (t : Q)
    (token_request : dict -> res response) (a : authenticator)
    (resp : response) (tj : dict) (tok : value) (e : exn) :
  grants token_request a resp tj tok ->
  int_of (expires_in_of tj) = Raise e ->
  exists a',
    refresh t token_request a = (Raise e, a') /\
    get "access_token" (_config a') = tok /\
    get "expires_in" (_config a') = get "expires_in" (_config a) /\
    config_file a' = config_file a.
Proof.
  intros (Hrt & (payload & Hbody & Hreq) & Hst & Hjson & Hsig & Htok) Hsecs.
  unfold update_access_token.
  rewrite Hrt, Hbody, Hreq. simpl.
  assert (Hsignal :
    (if status_code resp =? 200
     then body <- json_of resp ;; d0 <- vget "error_description" body ;;
          Ok (eq_str d0 not_expired_signal)
     else Ok false) = Ok false).
  { destruct (status_code resp =? 200) eqn:E; [|reflexivity].
    apply Z.eqb_eq in E. unfold json_of. rewrite Hjson. simpl.
    fold (get "error_description" tj). now rewrite (Hsig E). }
  rewrite Hsignal.
  assert (Hok : raise_for_status resp = Ok tt).
  { unfold raise_for_status.
    replace (400 <=? status_code resp) with false
      by (symmetry; apply Z.leb_gt; lia).
    replace (500 <=? status_code resp) with false
      by (symmetry; apply Z.leb_gt; lia).
    reflexivity. }
  rewrite Hok. unfold json_of. rewrite Hjson.
  unfold getitem at 1. rewrite Htok.
  unfold _update_config_tokens, getitem. rewrite Htok. simpl.
  destruct (lookup "refresh_token" tj) as [rt|]; simpl;
    rewrite Hsecs; eexists; (split; [reflexivity|]); simpl; repeat split;
    repeat rewrite get_set_other by discriminate;
    try apply get_set_same; reflexivity.
Qed.

End Refresh.

(** Witness of X2: the client secret across a granted refresh. *)
Lemma refresh_keeps_other_keys_witness :
  lookup "client_secret"
    (_config (snd (update_access_token Formats.fromtimestamp_utc
                     (1764924100 # 1)%Q (fun _ => Ok Samples.granted)
                     Samples.stale)))
  = lookup "client_secret" (_config Samples.stale).
Proof.
  apply (refresh_keeps_other_keys Formats.fromtimestamp_utc).
  unfold credential_key. intros [H|[H|H]]; discriminate H.
Defined.

Lemma sample_grant :
  grants (fun _ => Ok Samples.granted) Samples.stale Samples.granted
         [("access_token", VStr "new-token")] (VStr "new-token").
Proof.
  unfold grants. split; [reflexivity|]. split.
  - eexists. split; reflexivity.
  - split; [simpl; lia|]. repeat split.
Defined.

Lemma sample_null_grant :
  grants (fun _ => Ok Samples.granted_null_expiry) Samples.stale
         Samples.granted_null_expiry
         [("access_token", VStr "new-token"); ("expires_in", VNone)]
         (VStr "new-token").
Proof.
  unfold grants. split; [reflexivity|]. split.
  - eexists. split; reflexivity.
  - split; [simpl; lia|]. repeat split.
Defined.

(** Witness of X3: an hour's token, 100 seconds before the buffer starts. *)
Lemma refreshed_token_validity_witness :
  is_token_valid (1764927480 # 1)%Q
    (snd (update_access_token Formats.fromtimestamp_utc (1764924100 # 1)%Q
            (fun _ => Ok Samples.granted) Samples.stale))
  = Ok (round (1764927480 # 1)%Q + 120 <=? round (1764924100 # 1)%Q + 3600).
Proof.
  eapply (refreshed_token_validity Formats.fromtimestamp_utc
            (1764924100 # 1)%Q (1764927480 # 1)%Q _ Samples.stale
            Samples.granted _ (VStr "new-token") 3600);
    [exact sample_grant|reflexivity|reflexivity|reflexivity].
Defined.


(** Witness of X5: the provider refusing a revoked refresh token. *)
Lemma refresh_rejected_witness :
  exists e a',
    update_access_token Formats.fromtimestamp_utc (1764924100 # 1)%Q
      (fun _ => Ok Samples.invalid_grant) Samples.stale = (Raise e, a') /\
    exc_type e = "RuntimeError" /\
    _config a' = _config Samples.stale /\
    config_file a' = config_file Samples.stale /\
    access_token a' = access_token Samples.stale /\
    get "auth_error_response" (state a')
    = VDict [("error", VStr "invalid_grant")].
Proof.
  apply (refresh_rejected Formats.fromtimestamp_utc (1764924100 # 1)%Q
           (fun _ => Ok Samples.invalid_grant) Samples.stale
           Samples.invalid_grant).
  unfold rejects. split; [reflexivity|]. split.
  - eexists. split; reflexivity.
  - simpl. lia.
Defined.

(** Witness of X6: a granted refresh with a null expiry. *)
Lemma refresh_with_unreadable_expiry_witness :
  exists e a',
    update_access_token Formats.fromtimestamp_utc (1764924100 # 1)%Q
      (fun _ => Ok Samples.granted_null_expiry) Samples.stale = (Raise e, a') /\
    exc_type e = "TypeError" /\
    get "access_token" (_config a') = VStr "new-token" /\
    get "expires_in" (_config a') = VInt 1764924000 /\
    config_file a' = None.
Proof.
  destruct (refresh_with_unreadable_expiry Formats.fromtimestamp_utc
              (1764924100 # 1)%Q (fun _ => Ok Samples.granted_null_expiry)
              Samples.stale Samples.granted_null_expiry _ _ _
              sample_null_grant eq_refl)
    as (a' & Hrun & Hacc & Hexp & Hfile).
  eexists. exists a'. split; [exact Hrun|]. split; [reflexivity|].
  split; [exact Hacc|]. split; [exact Hexp|exact Hfile].
Defined.

End AuthExtras.

(** ** More on the executor *)
Module ClientExtras.
Import Py Client Facts.

Section Waits.

Variable parsedate_to_datetime : string -> option datetime.

Abbreviation wait := (_parse_retry_after parsedate_to_datetime).
Abbreviation auth_wait := (Auth._calculate_wait_time parsedate_to_datetime).

Lemma executor_wait_bound (utcnow : Q) (retry_after : option string) :
  match retry_after with
  | Some s => int_of_str s = None
  | None => True
  end -> 60 <= wait utcnow retry_after.
Proof.
  unfold _parse_retry_after, DEFAULT_RETRY_AFTER.
  destruct retry_after as [s|]; [|lia]. intros Hint. rewrite Hint.
  destruct (String.eqb s ""); [lia|].
  destruct (parsedate_to_datetime s) as [d|]; [|lia].
  destruct (naive_delta d utcnow) as [delta|]; [|lia].
  change (inject_Z 60) with (inject_Z DEFAULT_RETRY_AFTER).
  rewrite ClientProofs.trunc_max_default.
  destruct (Qlt_bool (60 # 1)%Q delta) eqn:E; [|lia].
  apply Qlt_bool_true in E.
  rewrite <- (Qfloor_Z 60). apply Qfloor_resp_le.
  change (inject_Z 60) with (60 # 1)%Q. lra.
Qed.

Lemma token_wait_bound (utcnow : Q) (retry_after : option string) :
  match retry_after with
  | Some s => float_of_str s = None
  | None => True
  end ->
  exists q, auth_wait utcnow retry_after = Fin q /\ Qle (60 # 1)%Q q.
Proof.
  unfold Auth._calculate_wait_time, Auth.DEFAULT_WAIT_TIME.
  destruct retry_after as [s|];
    [|intros _; eexists; split; [reflexivity|lra]].
  intros Hfloat. rewrite Hfloat.
  destruct (String.eqb s ""); [eexists; split; [reflexivity|lra]|].
  destruct (parsedate_to_datetime s) as [d|];
    [|eexists; split; [reflexivity|lra]].
  destruct (naive_delta d utcnow) as [delta|];
    [|eexists; split; [reflexivity|lra]].
  eexists. split; [reflexivity|]. unfold max_q.
  destruct (Qlt_bool (60 # 1)%Q delta) eqn:E; [|lra].
  apply Qlt_bool_true in E. lra.
Qed.

(** X7.  Unless the Retry-After header is a number, the wait is at least
    the default of 60 seconds: for the executor whenever the header is
    absent or is no integer literal, for the token manager whenever it is
    absent or is no decimal literal.  A date in the past or less than a
    minute ahead never shortens the wait. *)
Theorem wait_at_least_default (utcnow : Q) (retry_after : option string) :
  (match retry_after with
   | Some s => int_of_str s = None
   | None => True
   end -> 60 <= wait utcnow retry_after)
  /\ (match retry_after with
      | Some s => float_of_str s = None
      | None => True
      end ->
      exists q, auth_wait utcnow retry_after = Fin q /\ Qle (60 # 1)%Q q).
Proof.
  split.
  - apply executor_wait_bound.
  - apply token_wait_bound.
Qed.

End Waits.

(** Witness of X7: a date in the past. *)
Lemma wait_at_least_default_witness :
  60 <= _parse_retry_after Formats.imf_fixdate (1792570000 # 1)%Q
          (Some "Wed, 21 Oct 2026 07:28:00 -0000") /\
  exists q,
    Auth._calculate_wait_time Formats.imf_fixdate (1792570000 # 1)%Q
      (Some "Wed, 21 Oct 2026 07:28:00 -0000") = Fin q /\ Qle (60 # 1)%Q q.
Proof.
  destruct (wait_at_least_default Formats.imf_fixdate (1792570000 # 1)%Q
              (Some "Wed, 21 Oct 2026 07:28:00 -0000")) as [Hc Ha].
  split; [apply Hc|apply Ha]; reflexivity.
Defined.

Section Executor.

Variable parsedate_to_datetime : string -> option datetime.
Variable base_validate_response : response -> res unit.

Abbreviation validate :=
  (validate_response parsedate_to_datetime base_validate_response).
Abbreviation request :=
  (_request parsedate_to_datetime base_validate_response).
Abbreviation run :=
  (requests parsedate_to_datetime base_validate_response).

(** X8.  The rate gate, for calls that are all answered.  Take a state in
    which the last-request time is not in the future, no request has
    started after the last-request time, and the starts so far are spaced
    by the minimum interval; the state at class definition is one.  Any
    number of consecutive calls that each get a response (of any status,
    retried or not) leads to such a state again, with every two consecutive
    starts at least the minimum interval apart, and never changes the
    interval. *)
Theorem gate_spaces_answered_calls (l : list attempt) (p : process) :
  settled p -> Forall causal l -> Forall answered l ->
  settled (run l p) /\
  spaced (_min_request_interval p) (started (run l p)) /\
  _min_request_interval (run l p) = _min_request_interval p /\
  (forall t, Qle 0 t -> settled (initial t)).
Proof.
  intros Hs Hc Ha.
  destruct (ClientProofs.requests_settled parsedate_to_datetime
              base_validate_response l p Hc Ha Hs) as [Hset Hm].
  split; [exact Hset|]. split; [|split; [exact Hm|]].
  - destruct Hset as (_ & _ & Hsp). now rewrite Hm in Hsp.
  - intros t Ht. unfold settled, initial.
    cbn [_last_request_time clock started _min_request_interval spaced].
    repeat split; [exact Ht|]. intros s [].
Qed.

(** X9.  A 429 response never passes validation, and the base validation is
    not consulted for it.  When the wait read from Retry-After is a length
    [time.sleep] takes (0 to 9223372036 seconds), the exception raised
    after the sleep is the retryable one, carrying the response.  Otherwise
    [time.sleep] itself raises, no time passes and the error is one the
    retry decorator does not retry: ValueError for a negative wait, which
    only an integer header asks for, OverflowError for a wait beyond the
    range. *)
Theorem throttled_response_raises (over : Q) (r : response) (p : process) :
  status_code r = 429 ->
  let wait :=
    _parse_retry_after parsedate_to_datetime (clock p)
      (header "Retry-After" (headers r)) in
  exists e p',
    validate over r p = (Raise e, p') /\
    ((0 <= wait <= 9223372036 /\ retried e = true /\ exc_response e = Some r /\
      p' = advance (Qplus (inject_Z wait) over) p)
     \/ (-9223372036 <= wait < 0 /\
         e = sleep_negative /\ retried e = false /\ p' = p /\
         exists h, header "Retry-After" (headers r) = Some h /\
                   int_of_str h = Some wait)
     \/ ((wait < -9223372036 \/ 9223372036 < wait) /\
         e = sleep_overflow /\ retried e = false /\ p' = p)).
Proof.
  intros Hst wait. unfold validate_response, _handle_429_response.
  rewrite Hst. cbn [Z.eqb Pos.eqb]. fold wait.
  assert (Hneg : wait < 0 ->
                 exists h, header "Retry-After" (headers r) = Some h /\
                           int_of_str h = Some wait).
  { intros Hlt.
    destruct (header "Retry-After" (headers r)) as [h|] eqn:Hh.
    - exists h. split; [reflexivity|].
      destruct (int_of_str h) as [n|] eqn:Hint.
      + f_equal. unfold wait, _parse_retry_after. rewrite Hint.
        destruct (String.eqb h "") eqn:Eh; [|reflexivity].
        apply String.eqb_eq in Eh. subst h. discriminate Hint.
      + pose proof (executor_wait_bound parsedate_to_datetime
                      (clock p) (Some h) Hint) as Hge.
        fold wait in Hge. lia.
    - pose proof (executor_wait_bound parsedate_to_datetime
                    (clock p) None I) as Hge.
      fold wait in Hge. lia. }
  unfold sleep_refuses_int.
  change (Z.quot PyTime_MIN SEC_TO_NS) with (-9223372036).
  change (Z.quot PyTime_MAX SEC_TO_NS) with 9223372036.
  destruct (wait <? -9223372036) eqn:E1; cbn [orb].
  - apply Z.ltb_lt in E1. do 2 eexists. split; [reflexivity|].
    right. right. repeat split. now left.
  - apply Z.ltb_ge in E1. destruct (9223372036 <? wait) eqn:E2.
    + apply Z.ltb_lt in E2. do 2 eexists. split; [reflexivity|].
      right. right. repeat split. now right.
    + apply Z.ltb_ge in E2. destruct (wait <? 0) eqn:E3.
      * apply Z.ltb_lt in E3. do 2 eexists. split; [reflexivity|].
        right. left. repeat split; trivial. now apply Hneg.
      * apply Z.ltb_ge in E3. do 2 eexists. split; [reflexivity|].
        left. repeat split; trivial.
Qed.

(** X10.  A call that ends before a response arrives leaves the
    last-request time where it was.  When building the headers raises (a
    failed token refresh), no request is started at all; when the HTTP call
    itself raises, the request has started but is not stamped. *)
Theorem unanswered_call_leaves_stamp (a : attempt) (p : process) :
  (forall e,
      headers_error a = Some e ->
      fst (request a p) = Raise e /\
      started (snd (request a p)) = started p /\
      _last_request_time (snd (request a p)) = _last_request_time p)
  /\ (forall e,
        headers_error a = None ->
        delivered a = Failed e ->
        fst (request a p) = Raise e /\
        List.length (started (snd (request a p)))
        = S (List.length (started p)) /\
        _last_request_time (snd (request a p)) = _last_request_time p).
Proof.
  assert (Hlast : forall o q,
            _last_request_time (_rate_limit o q) = _last_request_time q).
  { intros o q. unfold _rate_limit. now destruct (Qlt_bool _ _). }
  split; intros e.
  - intros Hh. unfold _request. rewrite Hh. cbn [fst snd].
    split; [reflexivity|]. split.
    + cbn [advance started]. now rewrite ClientProofs.rate_limit_keeps.
    + cbn [advance _last_request_time]. now rewrite Hlast.
  - intros Hh Hd. unfold _request. rewrite Hh, Hd. cbn [fst snd].
    split; [reflexivity|]. split.
    + cbn [advance started List.length].
      now rewrite ClientProofs.rate_limit_keeps.
    + cbn [advance _last_request_time]. now rewrite Hlast.
Qed.

End Executor.

(** Witness of X8: two answered calls from the initial state. *)
Lemma gate_spaces_answered_calls_witness :
  spaced MIN_REQUEST_INTERVAL
    (started (requests Formats.imf_fixdate Samples.accept
                [Samples.served; Samples.served] (initial (1000 # 1)%Q))) /\
  _min_request_interval
    (requests Formats.imf_fixdate Samples.accept
       [Samples.served; Samples.served] (initial (1000 # 1)%Q))
  = MIN_REQUEST_INTERVAL.
Proof.
  destruct (gate_spaces_answered_calls Formats.imf_fixdate Samples.accept
              [Samples.served; Samples.served] (initial (1000 # 1)%Q))
    as (_ & Hsp & Hm & _).
  - unfold settled, initial; simpl. repeat split.
    + unfold Qle; simpl; lia.
    + intros s [].
  - repeat constructor; unfold Qle; simpl; lia.
  - repeat constructor.
  - split; [exact Hsp|exact Hm].
Defined.

(** Witness of X9: a wait of two seconds, a negative one, and one that
    does not fit the clock of the interpreter. *)
Lemma throttled_response_raises_witness :
  (exists e,
     validate_response Formats.imf_fixdate Samples.accept (0 # 1)%Q
       Samples.throttled_two (initial (1000 # 1)%Q)
     = (Raise e, advance (2 # 1)%Q (initial (1000 # 1)%Q)) /\
     retried e = true)
  /\ validate_response Formats.imf_fixdate Samples.accept (0 # 1)%Q
       Samples.throttled_negative (initial (1000 # 1)%Q)
     = (Raise sleep_negative, initial (1000 # 1)%Q)
  /\ validate_response Formats.imf_fixdate Samples.accept (0 # 1)%Q
       Samples.throttled_forever (initial (1000 # 1)%Q)
     = (Raise sleep_overflow, initial (1000 # 1)%Q).
Proof.
  split; [|split].
  - destruct (throttled_response_raises Formats.imf_fixdate Samples.accept
                (0 # 1)%Q Samples.throttled_two (initial (1000 # 1)%Q) eq_refl)
      as (e & p' & Hrun & [(_ & Hre & _ & Hp)|[(Hneg & _)|(Hout & _)]]).
    + exists e. split; [|exact Hre]. rewrite Hrun, Hp. reflexivity.
    + exfalso. vm_compute in Hneg. destruct Hneg as [_ Hneg]. discriminate Hneg.
    + exfalso. vm_compute in Hout. destruct Hout as [Hout|Hout]; discriminate Hout.
  - destruct (throttled_response_raises Formats.imf_fixdate Samples.accept
                (0 # 1)%Q Samples.throttled_negative (initial (1000 # 1)%Q)
                eq_refl)
      as (e & p' & Hrun & [(Hpos & _)|[(_ & He & _ & Hp & _)|(Hout & _)]]).
    + exfalso. vm_compute in Hpos. destruct Hpos as [Hpos _]. now apply Hpos.
    + rewrite Hrun, He, Hp. reflexivity.
    + exfalso. vm_compute in Hout. destruct Hout as [Hout|Hout]; discriminate Hout.
  - destruct (throttled_response_raises Formats.imf_fixdate Samples.accept
                (0 # 1)%Q Samples.throttled_forever (initial (1000 # 1)%Q)
                eq_refl)
      as (e & p' & Hrun & [(Hpos & _)|[(Hneg & _)|(_ & He & _ & Hp)]]).
    + exfalso. vm_compute in Hpos. destruct Hpos as [_ Hpos]. now apply Hpos.
    + exfalso. vm_compute in Hneg. destruct Hneg as [_ Hneg]. discriminate Hneg.
    + rewrite Hrun, He, Hp. reflexivity.
Defined.

(** Witness of X10: a call whose headers cannot be built, and a connection
    reset. *)
Lemma unanswered_call_leaves_stamp_witness :
  (started (snd (_request Formats.imf_fixdate Samples.accept
                   Samples.unauthorized (initial (1000 # 1)%Q))) = [] /\
   _last_request_time
     (snd (_request Formats.imf_fixdate Samples.accept Samples.unauthorized
             (initial (1000 # 1)%Q))) = (0 # 1)%Q)
  /\ _last_request_time
       (snd (_request Formats.imf_fixdate Samples.accept Samples.reset
               (initial (1000 # 1)%Q))) = (0 # 1)%Q.
Proof.
  destruct (unanswered_call_leaves_stamp Formats.imf_fixdate Samples.accept
              Samples.unauthorized (initial (1000 # 1)%Q)) as [Hh _].
  destruct (unanswered_call_leaves_stamp Formats.imf_fixdate Samples.accept
              Samples.reset (initial (1000 # 1)%Q)) as [_ Hf].
  split.
  - destruct (Hh _ eq_refl) as (_ & Hs & Hl). split; [exact Hs|exact Hl].
  - destruct (Hf _ eq_refl eq_refl) as (_ & _ & Hl). exact Hl.
Defined.

Section TokenAttempt.

Variable parsedate_to_datetime : string -> option datetime.
Variable float_str : pyfloat -> string.

Abbreviation attempt_token :=
  (TokenRequest._make_token_request parsedate_to_datetime float_str).

(** X11.  One attempt of the token request hands on every response except
    a 429, untouched and without sleeping, and never hands on a 429.  For a
    429 without a Retry-After header it sleeps 60 seconds and raises
    RateLimitError, the error its retry decorator retries on.  For a 429
    whose Retry-After is no decimal literal the wait is at least 60
    seconds; the attempt sleeps it and raises RateLimitError when its
    nanoseconds fit the clock of the interpreter, and otherwise (a date some
    three centuries ahead) raises the OverflowError of [time.sleep] at once,
    which is not retried. *)
Theorem token_attempt_throttled (utcnow : Q) (r : response) :
  (status_code r <> 429 -> attempt_token utcnow r = (Ok r, (0 # 1)%Q))
  /\ (forall r', fst (attempt_token utcnow r) = Ok r' ->
                 r' = r /\ status_code r <> 429)
  /\ (status_code r = 429 ->
      header "Retry-After" (headers r) = None ->
      exists e,
        attempt_token utcnow r = (Raise e, (60 # 1)%Q) /\
        exc_type e = "RateLimitError" /\ TokenRequest.retried e = true)
  /\ (status_code r = 429 ->
      match header "Retry-After" (headers r) with
      | Some s => float_of_str s = None
      | None => True
      end ->
      exists q,
        Auth._calculate_wait_time parsedate_to_datetime utcnow
          (header "Retry-After" (headers r)) = Fin q /\
        Qle (60 # 1)%Q q /\
        if nanoseconds q <=? PyTime_MAX then
          exists e,
            attempt_token utcnow r = (Raise e, q) /\
            exc_type e = "RateLimitError" /\ TokenRequest.retried e = true
        else
          attempt_token utcnow r = (Raise sleep_overflow, (0 # 1)%Q) /\
          TokenRequest.retried sleep_overflow = false).
Proof.
  unfold TokenRequest._make_token_request. split; [|split; [|split]].
  - intros Hst. apply Z.eqb_neq in Hst. now rewrite Hst.
  - intros r'. destruct (status_code r =? 429) eqn:E.
    + destruct (TokenRequest.sleep _); discriminate.
    + apply Z.eqb_neq in E. cbn [fst]. intros [= <-]. now split.
  - intros Hst Hhdr. rewrite Hst, Hhdr. cbn [Z.eqb Pos.eqb].
    eexists. split; [reflexivity|]. split; reflexivity.
  - intros Hst Hhdr. rewrite Hst. cbn [Z.eqb Pos.eqb].
    destruct (token_wait_bound parsedate_to_datetime utcnow
                (header "Retry-After" (headers r)) Hhdr) as (q & Hq & Hge).
    exists q. split; [exact Hq|]. split; [exact Hge|].
    rewrite Hq. unfold TokenRequest.sleep. cbv zeta.
    assert (Hns : 0 <= nanoseconds q).
    { unfold nanoseconds.
      assert (Hd : Qle 0 (Qmult q (inject_Z SEC_TO_NS))).
      { apply Qmult_le_0_compat; [lra|]. unfold Qle; simpl; lia. }
      replace (Qle_bool 0 (Qmult q (inject_Z SEC_TO_NS))) with true
        by (symmetry; now apply Qle_bool_iff).
      rewrite Zle_Qle. eapply Qle_trans; [exact Hd|apply Qle_ceiling]. }
    replace (nanoseconds q <? PyTime_MIN) with false
      by (symmetry; apply Z.ltb_ge; unfold PyTime_MIN; lia).
    replace (nanoseconds q <? 0) with false
      by (symmetry; apply Z.ltb_ge; exact Hns).
    cbn [orb].
    destruct (nanoseconds q <=? PyTime_MAX) eqn:E.
    + apply Z.leb_le in E.
      replace (PyTime_MAX <? nanoseconds q) with false
        by (symmetry; apply Z.ltb_ge; exact E).
      eexists. split; [reflexivity|]. split; reflexivity.
    + apply Z.leb_gt in E.
      replace (PyTime_MAX <? nanoseconds q) with true
        by (symmetry; apply Z.ltb_lt; exact E).
      split; reflexivity.
Qed.

End TokenAttempt.

(** Witness of X11: a 429 without Retry-After, and one whose date is the
    last second of the calendar. *)
Lemma token_attempt_throttled_witness :
  (exists e,
     TokenRequest._make_token_request Formats.imf_fixdate
       Samples.float_str_sample (1792570000 # 1)%Q Samples.throttled
     = (Raise e, (60 # 1)%Q) /\
     exc_type e = "RateLimitError" /\ TokenRequest.retried e = true)
  /\ TokenRequest._make_token_request Formats.imf_fixdate
       Samples.float_str_sample (1792570000 # 1)%Q Samples.throttled_far_date
     = (Raise sleep_overflow, (0 # 1)%Q).
Proof.
  split.
  - apply (proj1 (proj2 (proj2 (token_attempt_throttled Formats.imf_fixdate
                                  Samples.float_str_sample (1792570000 # 1)%Q
                                  Samples.throttled)))); reflexivity.
  - destruct (proj2 (proj2 (proj2 (token_attempt_throttled Formats.imf_fixdate
                                     Samples.float_str_sample
                                     (1792570000 # 1)%Q
                                     Samples.throttled_far_date)))
                eq_refl eq_refl) as (q & Hq & _ & Hrun).
    injection Hq as <-. vm_compute in Hrun.
    destruct Hrun as [Hrun _]. vm_compute. exact Hrun.
Defined.

Section UrlBuilding.

Import Urls.

Lemma chars_append (a b : string) : chars (a ++ b) = (chars a ++ chars b)%list.
Proof.
  unfold chars. induction a as [|x a IH]; simpl; [reflexivity|].
  now rewrite IH.
Qed.

Lemma drop_leading_head (c : ascii) (l : list ascii) :
  match drop_leading c l with
  | a :: _ => Ascii.eqb a c = false
  | [] => True
  end.
Proof.
  induction l as [|a l IH]; simpl; [exact I|].
  destruct (Ascii.eqb a c) eqn:E; [exact IH|exact E].
Qed.

(** X12.  Slashes do not matter where the URL parts meet: a trailing slash
    on a configured [full_url] gives the same base URL as without it, the
    base URL never ends with a slash, and an endpoint gives the same
    request URL with and without its leading slash. *)
Theorem url_slashes (config : dict) :
  (forall s,
      s <> "" ->
      base_url (set "full_url" (VStr (s ++ "/")) config)
      = base_url (set "full_url" (VStr s) config))
  /\ (forall b, base_url config = Ok b -> endswith_char "/" b = false)
  /\ (forall endpoint,
        startswith_char "/" endpoint = false ->
        _build_request_url config (String "/" endpoint)
        = _build_request_url config endpoint).
Proof.
  split; [|split].
  - intros s Hne. unfold base_url. rewrite !get_set_same.
    assert (H1 : por (VStr (s ++ "/")) (VStr DEFAULT_BASE_URL)
                 = VStr (s ++ "/")).
    { unfold por. destruct s; reflexivity. }
    assert (H2 : por (VStr s) (VStr DEFAULT_BASE_URL) = VStr s).
    { unfold por. destruct s; [contradiction|reflexivity]. }
    rewrite H1, H2. f_equal. unfold rstrip_char.
    rewrite chars_append, rev_app_distr. reflexivity.
  - intros b. unfold base_url.
    destruct (por (get "full_url" config) (VStr DEFAULT_BASE_URL));
      try discriminate.
    intros [= <-]. unfold endswith_char, rstrip_char, chars, str_of.
    rewrite list_ascii_of_string_of_list_ascii, rev_involutive.
    pose proof (drop_leading_head "/" (rev (list_ascii_of_string s))) as H.
    now destruct (drop_leading "/" (rev (list_ascii_of_string s))).
  - intros endpoint Hs. unfold _build_request_url. rewrite Hs.
    reflexivity.
Qed.

End UrlBuilding.

(** Witness of X12 on a configured URL. *)
Lemma url_slashes_witness :
  Urls.base_url [("full_url", VStr "https://eu.example.test/")]
  = Urls.base_url [("full_url", VStr "https://eu.example.test")] /\
  Urls._build_request_url [("account_ids", VStr "17")] "/Order.json"
  = Urls._build_request_url [("account_ids", VStr "17")] "Order.json".
Proof.
  destruct (url_slashes [("full_url", VStr "x")]) as (Hbase & _).
  destruct (url_slashes [("account_ids", VStr "17")]) as (_ & _ & Hend).
  split.
  - apply (Hbase "https://eu.example.test"). discriminate.
  - apply (Hend "Order.json"). reflexivity.
Defined.

End ClientExtras.

(** ** More on the mapping *)
Module MappingExtras.
Import Py Sinks Facts Notions.

Lemma contains_app (c : ascii) (a b : string) :
  contains_char c (a ++ b) = contains_char c a || contains_char c b.
Proof.
  induction a as [|x a IH]; simpl; [reflexivity|].
  now rewrite IH, orb_assoc.
Qed.

Lemma count_app (c : ascii) (a b : string) :
  count_char c (a ++ b) = count_char c a + count_char c b.
Proof. induction a as [|x a IH]; simpl; [reflexivity|]. rewrite IH. lia. Qed.

Lemma count_nonneg (c : ascii) (a : string) : 0 <= count_char c a.
Proof.
  induction a as [|x a IH]; simpl; [lia|].
  destruct (Ascii.eqb x c); lia.
Qed.

Lemma uint_no_Z (u : Decimal.uint) :
  contains_char "Z" (NilEmpty.string_of_uint u) = false.
Proof. induction u; simpl; trivial. Qed.

Lemma string_of_Z_no_Z (z : Z) : contains_char "Z" (string_of_Z z) = false.
Proof.
  unfold string_of_Z, NilZero.string_of_int, NilZero.string_of_uint.
  destruct (Z.to_int z) as [u|u]; destruct u; simpl; trivial;
    apply uint_no_Z.
Qed.

Lemma pad_no_Z (w : nat) (z : Z) : contains_char "Z" (pad w z) = false.
Proof.
  unfold pad. rewrite contains_app, string_of_Z_no_Z, orb_false_r.
  induction (w - String.length (string_of_Z z))%nat; simpl; trivial.
Qed.

Lemma format_offset_no_Z (off : Z) :
  contains_char "Z" (format_offset off) = false.
Proof.
  unfold format_offset.
  destruct (off <? 0); destruct (Z.abs off mod 60 =? 0);
    repeat (rewrite contains_app || rewrite pad_no_Z); reflexivity.
Qed.

Lemma isoformat_no_Z (d : datetime) : contains_char "Z" (isoformat d) = false.
Proof.
  unfold isoformat, isoformat_sep.
  destruct (microsecond d =? 0); destruct (tzinfo d);
    repeat (rewrite contains_app || rewrite pad_no_Z
            || rewrite format_offset_no_Z);
    reflexivity.
Qed.

(** The rendering of an aware datetime shows its offset: it contains "+",
    or a third "-" after the two of the date. *)
Lemma isoformat_aware_marked (d : datetime) (off : Z) :
  tzinfo d = Some off ->
  contains_char "+" (isoformat d) || (2 <? count_char "-" (isoformat d)) = true.
Proof.
  intros Htz. unfold isoformat, isoformat_sep. rewrite Htz.
  unfold format_offset. destruct (off <? 0).
  - apply orb_true_iff. right. apply Z.ltb_lt.
    repeat rewrite count_app.
    change (count_char "-" "-") with 1.
    change (count_char "-" "T") with 0.
    change (count_char "-" ":") with 0.
    repeat match goal with
           | |- context [count_char "-" ?x] =>
               lazymatch goal with
               | _ : 0 <= count_char "-" x |- _ => fail
               | _ => pose proof (count_nonneg "-" x)
               end
           end.
    lia.
  - apply orb_true_iff. left.
    repeat rewrite contains_app. cbn [contains_char Ascii.eqb].
    repeat rewrite orb_true_r. reflexivity.
Qed.

Lemma replace_Z_no_Z (s : string) :
  contains_char "Z" (replace_char "Z" "+00:00" s) = false.
Proof.
  induction s as [|a s IH]; simpl; [reflexivity|].
  destruct (Ascii.eqb a "Z") eqn:E; simpl; [exact IH|].
  now rewrite E.
Qed.

Lemma replace_Z_has_plus (s : string) :
  contains_char "Z" s = true ->
  contains_char "+" (replace_char "Z" "+00:00" s) = true.
Proof.
  induction s as [|a s IH]; simpl; [discriminate|].
  destruct (Ascii.eqb a "Z") eqn:E; simpl; [reflexivity|].
  intros H. rewrite (IH H). apply orb_true_r.
Qed.

Lemma with_utc_aware (dt : datetime) : exists off, tzinfo (with_utc dt) = Some off.
Proof.
  unfold with_utc. destruct (tzinfo dt) as [off|] eqn:E.
  - now exists off.
  - now exists 0.
Qed.

Lemma lookup_set_str_unless_none (k k' : string) (v : value) (p : dict) :
  k' <> k -> lookup k (set_str_unless_none k' v p) = lookup k p.
Proof.
  intros H. unfold set_str_unless_none.
  destruct v; try reflexivity; now apply lookup_set_other.
Qed.

Lemma lookup_copy_if_truthy (record : dict) (k k' : string) (p : dict) :
  k' <> k -> lookup k (copy_if_truthy record p k') = lookup k p.
Proof.
  intros H. unfold copy_if_truthy.
  destruct (truthy (get k' record)); [now apply lookup_set_other|reflexivity].
Qed.

Lemma lookup_copy_unless_none (record : dict) (k k' : string) (p : dict) :
  k' <> k -> lookup k (copy_unless_none record p k') = lookup k p.
Proof.
  intros H. unfold copy_unless_none.
  destruct (get k' record); try reflexivity; now apply lookup_set_other.
Qed.

Lemma lookup_copy_if_truthy_same (record : dict) (k : string) (p : dict) :
  lookup k (copy_if_truthy record p k)
  = if truthy (get k record) then Some (get k record) else lookup k p.
Proof.
  unfold copy_if_truthy.
  destruct (truthy (get k record)); [apply lookup_set_same|reflexivity].
Qed.

Lemma lookup_copy_unless_none_same (record : dict) (k : string) (p : dict) :
  lookup k (copy_unless_none record p k)
  = match get k record with
    | VNone => lookup k p
    | v => Some v
    end.
Proof.
  unfold copy_unless_none.
  destruct (get k record); try reflexivity; apply lookup_set_same.
Qed.

Lemma lookup_set_str_unless_none_same (k : string) (v : value) (p : dict) :
  lookup k (set_str_unless_none k v p)
  = match v with
    | VNone => lookup k p
    | _ => Some (VStr (str v))
    end.
Proof.
  unfold set_str_unless_none.
  destruct v; try reflexivity; apply lookup_set_same.
Qed.

(** Looking a key up through the steps of [preprocess_record] that do not
    write it. *)
Ltac skip_steps :=
  repeat first
    [ rewrite lookup_set_other by discriminate
    | rewrite lookup_copy_unless_none by discriminate
    | rewrite lookup_copy_if_truthy by discriminate
    | rewrite lookup_set_str_unless_none by discriminate ].

(** Opening a successful [preprocess_record]. *)
Ltac open_payload H :=
  unfold preprocess_record in H; cbv zeta in H;
  match type of H with
  | (if negb ?c then _ else _) = _ => destruct c; [|discriminate H]
  end;
  cbn [negb] in H; injection H as H; subst; cbn [fold_left].

Section Mapping.

Variable fromisoformat : string -> option datetime.
Variable json_loads : string -> option value.

Abbreviation format_date := (_format_date fromisoformat).
Abbreviation parse_line_items := (_parse_line_items json_loads).
Abbreviation preprocess := (preprocess_record fromisoformat json_loads).

Lemma format_date_marked (dt : datetime) :
  format_date (VStr (isoformat (with_utc dt))) = VStr (isoformat (with_utc dt)).
Proof.
  destruct (with_utc_aware dt) as [off Hoff].
  unfold _format_date.
  now rewrite isoformat_no_Z, (isoformat_aware_marked _ off Hoff).
Qed.

(** X13.  Normalising a date twice is the same as normalising it once, for
    every string and every datetime object: what [_format_date] returns for
    them it returns unchanged when given it again, whatever the ISO parser
    accepts. *)
Theorem format_date_idempotent :
  (forall s,
      _format_date fromisoformat (_format_date fromisoformat (VStr s))
      = _format_date fromisoformat (VStr s))
  /\ (forall dt,
        _format_date fromisoformat (_format_date fromisoformat (VDatetime dt))
        = _format_date fromisoformat (VDatetime dt))
  /\ _format_date fromisoformat (_format_date fromisoformat VNone)
     = _format_date fromisoformat VNone.
Proof.
  split; [|split; [|reflexivity]].
  - intros s. unfold _format_date at 2 3.
    destruct (contains_char "Z" s) eqn:HZ.
    + unfold _format_date.
      now rewrite replace_Z_no_Z, (replace_Z_has_plus s HZ).
    + destruct (contains_char "+" s || (2 <? count_char "-" s)) eqn:Hoff.
      * unfold _format_date. now rewrite HZ, Hoff.
      * destruct (fromisoformat s) as [dt|] eqn:Hparse.
        -- apply format_date_marked.
        -- unfold _format_date. now rewrite HZ, Hoff, Hparse.
  - intros dt. unfold _format_date at 2 3. apply format_date_marked.
Qed.

(** X14.  A payload holds nothing but the fields the mapping knows: the
    order fields it maps and the internal "_line_items".  No other field of
    the input record is carried over. *)
Theorem payload_has_mapped_keys_only (config record payload : dict)
    (k : string) :
  preprocess config record = Ok payload ->
  ~ In k mapped_keys ->
  lookup k payload = None.
Proof.
  intros H Hk. open_payload H.
  unfold mapped_keys in Hk. simpl in Hk.
  repeat first
    [ rewrite lookup_set_other by (intros E; apply Hk; rewrite E; tauto)
    | rewrite lookup_copy_unless_none by (intros E; apply Hk; rewrite E; tauto)
    | rewrite lookup_copy_if_truthy by (intros E; apply Hk; rewrite E; tauto)
    | rewrite lookup_set_str_unless_none
        by (intros E; apply Hk; rewrite E; tauto) ].
  reflexivity.
Qed.

(** X15.  How the optional order fields are carried over.  The three costs
    (shipCost, otherCost, discount) are copied whenever the record holds a
    value other than None for them, zero included; the two instruction
    texts are copied only when they are truthy, so an empty text is left
    out. *)
Theorem optional_order_fields (config record payload : dict) :
  preprocess config record = Ok payload ->
  (forall f, In f ["shipCost"; "otherCost"; "discount"] ->
             lookup f payload
             = match get f record with
               | VNone => None
               | v => Some v
               end)
  /\ (forall f, In f ["shipInstructions"; "stockInstructions"] ->
                lookup f payload
                = if truthy (get f record) then Some (get f record)
                  else None).
Proof.
  intros H. open_payload H. split; intros f Hf; simpl in Hf.
  - destruct Hf as [<-|[<-|[<-|[]]]]; skip_steps;
      rewrite lookup_copy_unless_none_same; skip_steps;
      now destruct (get _ record).
  - destruct Hf as [<-|[<-|[]]]; skip_steps;
      rewrite lookup_copy_if_truthy_same; skip_steps;
      now destruct (truthy (get _ record)).
Qed.

(** X16.  Where the shop and the reference number of a payload come from.
    The shop is the record's shopID when that is truthy and the configured
    default otherwise, as text.  The reference number is BuyOrder.ID when
    that is truthy; when BuyOrder.ID, id and externalid are all falsy it is
    the record's refNum, as text, whatever that holds (an empty text
    included), and it is left out only when refNum is None. *)
Theorem shop_and_reference (config record payload : dict) :
  preprocess config record = Ok payload ->
  lookup "shopID" payload
  = Some (VStr (str (por (get "shopID" record)
                         (get "buyorders_shop_id" config))))
  /\ (truthy (get "BuyOrder.ID" record) = true ->
      lookup "refNum" payload = Some (VStr (str (get "BuyOrder.ID" record))))
  /\ (truthy (get "BuyOrder.ID" record) = false ->
      truthy (get "id" record) = false ->
      truthy (get "externalid" record) = false ->
      lookup "refNum" payload
      = match get "refNum" record with
        | VNone => None
        | v => Some (VStr (str v))
        end).
Proof.
  intros H. open_payload H. split; [|split].
  - skip_steps. apply lookup_set_same.
  - intros Hb. skip_steps. rewrite lookup_set_str_unless_none_same.
    assert (Hpor : forall x, por (get "BuyOrder.ID" record) x
                             = get "BuyOrder.ID" record).
    { intros x. unfold por. now rewrite Hb. }
    rewrite Hpor.
    destruct (get "BuyOrder.ID" record) eqn:E; try reflexivity.
    simpl in Hb. discriminate Hb.
  - intros Hb Hi He. skip_steps. rewrite lookup_set_str_unless_none_same.
    unfold por. rewrite Hb, Hi, He.
    now destruct (get "refNum" record).
Qed.

(** X17.  What [_parse_line_items] makes of the line_items field.  A list
    is returned as it is.  Any other value that is not a string gives the
    empty list, and so do the empty string and a string that [json.loads]
    refuses.  A non-empty string that is JSON gives whatever it decodes to,
    list or not.  Parsing what was parsed from a field that is not a string
    changes nothing. *)
Theorem parse_line_items_shapes (field : value) :
  (forall l, field = VList l -> parse_line_items field = VList l)
  /\ ((forall s, field <> VStr s) -> (forall l, field <> VList l) ->
      parse_line_items field = VList [])
  /\ (truthy field = false -> parse_line_items field = VList [])
  /\ (forall s, field = VStr s -> json_loads s = None ->
                parse_line_items field = VList [])
  /\ (forall s v, field = VStr s -> s <> "" -> json_loads s = Some v ->
                  parse_line_items field = v)
  /\ ((forall s, field <> VStr s) ->
      parse_line_items (parse_line_items field) = parse_line_items field).
Proof.
  assert (Hlist : forall l, parse_line_items (VList l) = VList l).
  { intros l. unfold _parse_line_items. now destruct l. }
  assert (Hother : (forall s, field <> VStr s) -> (forall l, field <> VList l) ->
                   parse_line_items field = VList []).
  { intros Hs Hl. unfold _parse_line_items.
    destruct (truthy field); cbn [negb]; [|reflexivity].
    destruct field; try reflexivity.
    - now contradiction (Hs s).
    - now contradiction (Hl l). }
  split; [|split; [|split; [|split; [|split]]]].
  - intros l ->. apply Hlist.
  - exact Hother.
  - unfold _parse_line_items. intros ->. reflexivity.
  - unfold _parse_line_items. intros s -> Hj. rewrite Hj.
    now destruct (truthy (VStr s)).
  - unfold _parse_line_items. intros s v -> Hne Hj. rewrite Hj.
    replace (truthy (VStr s)) with true; [reflexivity|].
    simpl. destruct (String.eqb s "") eqn:E; [|reflexivity].
    apply String.eqb_eq in E. contradiction.
  - intros Hs. destruct field as [| | | | | |l|];
      try (rewrite Hother by (intros; discriminate); apply Hlist).
    + now contradiction (Hs s).
    + now rewrite !Hlist.
Qed.

End Mapping.

(** Witness of X14 and of the fields the sample order does not carry. *)
Lemma payload_has_mapped_keys_only_witness :
  exists payload,
    preprocess_record Formats.fromisoformat_plain Formats.json_loads_none
      [] Samples.order_with_extras = Ok payload /\
    lookup "internal_note" payload = None.
Proof.
  eexists. split; [reflexivity|].
  apply (payload_has_mapped_keys_only Formats.fromisoformat_plain
           Formats.json_loads_none [] Samples.order_with_extras _
           "internal_note" eq_refl).
  unfold mapped_keys. simpl. intuition discriminate.
Defined.

(** Witness of X15: a cost of zero is kept, an empty instruction is not. *)
Lemma optional_order_fields_witness :
  exists payload,
    preprocess_record Formats.fromisoformat_plain Formats.json_loads_none
      [] Samples.order_with_extras = Ok payload /\
    lookup "shipCost" payload = Some (VInt 0) /\
    lookup "shipInstructions" payload = None /\
    lookup "stockInstructions" payload = Some (VStr "top shelf").
Proof.
  eexists. split; [reflexivity|].
  destruct (optional_order_fields Formats.fromisoformat_plain
              Formats.json_loads_none [] Samples.order_with_extras _ eq_refl)
    as [Hcost Htext].
  split; [|split].
  - apply (Hcost "shipCost"). simpl. tauto.
  - apply (Htext "shipInstructions"). simpl. tauto.
  - apply (Htext "stockInstructions"). simpl. tauto.
Defined.

(** Witness of X16: the shop of the record, and an empty reference. *)
Lemma shop_and_reference_witness :
  exists payload,
    preprocess_record Formats.fromisoformat_plain Formats.json_loads_none
      [("buyorders_shop_id", VInt 9)] Samples.order_with_extras = Ok payload /\
    lookup "shopID" payload = Some (VStr "3") /\
    lookup "refNum" payload = Some (VStr "").
Proof.
  eexists. split; [reflexivity|].
  destruct (shop_and_reference Formats.fromisoformat_plain
              Formats.json_loads_none [("buyorders_shop_id", VInt 9)]
              Samples.order_with_extras _ eq_refl) as (Hshop & _ & Href).
  split; [exact Hshop|]. apply Href; reflexivity.
Defined.

(** Witness of X17: a list, a number, and a string the decoder refuses. *)
Lemma parse_line_items_shapes_witness :
  _parse_line_items Formats.json_loads_none (VList [VInt 1; VStr "b"])
  = VList [VInt 1; VStr "b"] /\
  _parse_line_items Formats.json_loads_none (VInt 5) = VList [] /\
  _parse_line_items Formats.json_loads_none (VStr "[1, 2") = VList [].
Proof.
  split; [|split].
  - apply (proj1 (parse_line_items_shapes Formats.json_loads_none
                    (VList [VInt 1; VStr "b"]))). reflexivity.
  - apply (proj1 (proj2 (parse_line_items_shapes Formats.json_loads_none
                           (VInt 5)))); intros; discriminate.
  - apply (proj1 (proj2 (proj2 (proj2 (parse_line_items_shapes
                                         Formats.json_loads_none
                                         (VStr "[1, 2")))))
             "[1, 2"); reflexivity.
Defined.

End MappingExtras.

(** ** More on the submission *)
Module SubmissionExtras.
Import Py Sinks Facts Notions.

Lemma line_payload_order_id (order_id : value) (item : dict) :
  get "orderID" (line_payload order_id item) = VStr (str order_id).
Proof.
  unfold line_payload. cbn [fold_left fst snd].
  repeat rewrite MappingProofs.get_set_str_unless_none by discriminate.
  reflexivity.
Qed.

Lemma line_requests_are_lines (order_id : value) (ds : list dict) :
  Forall (line_of order_id) (line_requests order_id ds).
Proof.
  induction ds as [|d ds IH]; constructor; [|exact IH].
  unfold line_of, line_request. cbn [http_method request_endpoint request_data].
  repeat split. apply line_payload_order_id.
Qed.

Section Submission.

Variable request_api : list request -> request -> res response.

Abbreviation lines := (submit_lines request_api).
Abbreviation upsert := (upsert_record request_api).
Abbreviation failed := (failed_lines request_api).

(** Once [order_line_payload] is bound, the line loop ends normally
    whatever the line items are: an item that is not a dict is counted as
    failed without a request, a dict is requested and counted as failed
    when its request gets no usable answer. *)
Lemma submit_lines_bound (order_id : value) (items : list value) :
  forall (idx : nat) (p0 : dict) (s f : nat) (w : world),
  exists s' f' w',
    lines order_id items idx (Some p0) s f w = (Ok (s', f'), w') /\
    (s' + f' = s + f + List.length items)%nat /\
    (f' = f + List.length (stray_items items)
          + failed (sent w) (line_requests order_id (dict_items items)))%nat /\
    sent w' = (sent w ++ line_requests order_id (dict_items items))%list.
Proof.
  induction items as [|item items IH]; intros idx p0 s f w.
  - exists s, f, w. simpl. rewrite !Nat.add_0_r, app_nil_r. now repeat split.
  - cbn [submit_lines]. unfold submit_line.
    destruct item;
      try (cbn [order_line_payload dict_items stray_items];
           match goal with
           | |- context [lines _ _ _ (Some ?b) ?s1 ?f1 ?w1] =>
               destruct (IH (S idx) b s1 f1 w1)
                 as (s' & f' & w' & Hrun & Hcount & Hfail & Hsent)
           end;
           cbn [sent logging] in *;
           exists s', f', w'; rewrite Hrun;
           repeat split; [cbn [List.length]; lia|cbn [List.length]; lia|exact Hsent]).
    cbn [order_line_payload dict_items stray_items line_requests map
         failed_lines].
    unfold call_api. cbn [sent log].
    set (req := line_request (line_payload order_id items0)).
    fold (line_requests order_id (dict_items items)).
    destruct (line_answer (request_api (sent w) req)) as [[id data]|e];
      match goal with
      | |- context [lines _ _ _ (Some ?b) ?s1 ?f1 ?w1] =>
          destruct (IH (S idx) b s1 f1 w1)
            as (s' & f' & w' & Hrun & Hcount & Hfail & Hsent)
      end;
      cbn [sent logging] in *;
      exists s', f', w'; rewrite Hrun;
      (repeat split; [cbn [List.length]; lia|lia|]);
      rewrite Hsent, <- app_assoc; reflexivity.
Qed.

(** Whatever the line items and the state of [order_line_payload], the
    requests the line loop makes are line requests for the order, for some
    of the dicts among the items. *)
Lemma submit_lines_requests (order_id : value) (items : list value) :
  forall (idx : nat) (bound : option dict) (s f : nat) (w : world),
  exists ds,
    sent (snd (lines order_id items idx bound s f w))
    = (sent w ++ line_requests order_id ds)%list /\
    (List.length ds <= List.length items)%nat.
Proof.
  induction items as [|item items IH]; intros idx bound s f w.
  - exists []. simpl. rewrite app_nil_r. split; [reflexivity|lia].
  - destruct bound as [p0|].
    + destruct (submit_lines_bound order_id (item :: items) idx p0 s f w)
        as (s' & f' & w' & Hrun & _ & _ & Hsent).
      exists (dict_items (item :: items)). rewrite Hrun. cbn [snd].
      split; [exact Hsent|].
      clear. induction (item :: items) as [|x l IHl]; simpl; [lia|].
      destruct x; simpl; lia.
    + cbn [submit_lines]. unfold submit_line.
      destruct item;
        try (cbn [order_line_payload snd]; exists [];
             cbn [line_requests map]; rewrite app_nil_r;
             split; [reflexivity|cbn [List.length]; lia]).
      cbn [order_line_payload]. unfold call_api. cbn [sent log].
      set (req := line_request (line_payload order_id items0)).
      destruct (line_answer (request_api (sent w) req)) as [[id data]|e];
        match goal with
        | |- context [lines _ _ _ ?b ?s1 ?f1 ?w1] =>
            destruct (IH (S idx) b s1 f1 w1) as (ds & Hsent & Hlen)
        end;
        cbn [sent logging] in *;
        exists (items0 :: ds); rewrite Hsent, <- app_assoc;
        (split; [reflexivity|cbn [List.length]; lia]).
Qed.

(** X18.  The calls [upsert_record] makes.  An empty record makes none.
    Any other record makes the order request first, with the record less
    its "_line_items" as body, and nothing else unless that request is
    answered with a response carrying an order id; every further call is a
    POST to /OrderLine.json whose orderID is that id. *)
Theorem upsert_request_discipline (record : dict) (w : world) :
  exists reqs,
    sent (snd (upsert record w)) = (sent w ++ reqs)%list /\
    (record = [] -> reqs = []) /\
    (record <> [] ->
     exists rest,
       let order := snd (pop "_line_items" (VList []) record) in
       reqs = order_request order :: rest /\
       (rest <> [] ->
        exists resp order_id,
          request_api (sent w) (order_request order) = Ok resp /\
          find_order_id (body_or_empty resp) = Ok order_id /\
          truthy order_id = true /\
          Forall (line_of order_id) rest)).
Proof.
  destruct record as [|kv rest0].
  - exists []. simpl. rewrite app_nil_r. repeat split. intros H. now contradiction H.
  - unfold upsert_record.
    destruct (pop "_line_items" (VList []) (kv :: rest0)) as [line_items order].
    cbn [snd]. unfold submit_order, call_api.
    assert (Hnone : forall P : Prop, (@nil request <> [] -> P))
      by (intros P H; now contradiction H).
    destruct (request_api (sent w) (order_request order)) as [resp|e] eqn:Hreq;
      [|eexists; split; [reflexivity|]; split; [discriminate|];
        intros _; exists []; split; [reflexivity|apply Hnone]].
    destruct (find_order_id (body_or_empty resp)) as [order_id|e] eqn:Hid;
      [|eexists; split; [reflexivity|]; split; [discriminate|];
        intros _; exists []; split; [reflexivity|apply Hnone]].
    destruct (truthy order_id) eqn:Htrue; cbn [negb];
      [|eexists; split; [reflexivity|]; split; [discriminate|];
        intros _; exists []; split; [reflexivity|apply Hnone]].
    destruct (truthy line_items);
      [|eexists; split; [reflexivity|]; split; [discriminate|];
        intros _; exists []; split; [reflexivity|apply Hnone]].
    destruct (iterate line_items) as [items|e];
      [|eexists; split; [reflexivity|]; split; [discriminate|];
        intros _; exists []; split; [reflexivity|apply Hnone]].
    match goal with
    | |- context [lines _ _ ?i ?b ?s1 ?f1 ?w1] =>
        destruct (submit_lines_requests order_id items i b s1 f1 w1)
          as (ds & Hsent & _);
        destruct (lines order_id items i b s1 f1 w1) as [[[s f]|e] w']
    end; cbn [snd sent logging] in Hsent;
      exists (order_request order :: line_requests order_id ds);
      (split;
       [ try destruct (0 <? f)%nat; cbn [snd sent logging];
         rewrite Hsent, <- app_assoc; reflexivity
       | split; [discriminate|] ]);
      intros _; exists (line_requests order_id ds);
      (split; [reflexivity|]); intros _; exists resp, order_id;
      repeat split; trivial; apply line_requests_are_lines.
Qed.


(** X20.  Line items that are truthy but cannot be iterated (a number or
    true, decoded from a string field) fail the record after the order was
    created: the order request is the only call, and the result is the
    failure result built from the TypeError. *)
Theorem uniterable_line_items_fail (record : dict) (w : world)
    (resp : response) (order_id : value) (e : exn) :
  record <> [] ->
  let order := snd (pop "_line_items" (VList []) record) in
  let line_items := fst (pop "_line_items" (VList []) record) in
  request_api (sent w) (order_request order) = Ok resp ->
  find_order_id (body_or_empty resp) = Ok order_id ->
  truthy order_id = true ->
  truthy line_items = true ->
  iterate line_items = Raise e ->
  fst (upsert record w) = (None, false, error_updates e) /\
  sent (snd (upsert record w)) = (sent w ++ [order_request order])%list.
Proof.
  intros Hne order line_items Hreq Hid Htrue Hli Hiter.
  destruct record as [|kv rest0]; [contradiction|].
  unfold upsert_record. subst order line_items.
  destruct (pop "_line_items" (VList []) (kv :: rest0)) as [line_items order].
  cbn [fst snd] in *. unfold submit_order, call_api.
  rewrite Hreq, Hid, Htrue, Hli, Hiter. now split.
Qed.

(** X21.  A first line item that is not an object fails the record after
    the order was created: the handler of the line loop reads
    [order_line_payload] before any iteration has bound it.  No line is
    requested, not even for the objects that follow, and the result is the
    failure result of an UnboundLocalError. *)
Theorem first_line_not_object_fails (record : dict) (w : world)
    (resp : response) (order_id : value) (first : value)
    (others : list value) (e : exn) :
  record <> [] ->
  let order := snd (pop "_line_items" (VList []) record) in
  fst (pop "_line_items" (VList []) record) = VList (first :: others) ->
  request_api (sent w) (order_request order) = Ok resp ->
  find_order_id (body_or_empty resp) = Ok order_id ->
  truthy order_id = true ->
  order_line_payload order_id first = Raise e ->
  fst (upsert record w) = (None, false, error_updates unbound_payload) /\
  sent (snd (upsert record w)) = (sent w ++ [order_request order])%list.
Proof.
  intros Hne order Hli Hreq Hid Htrue Hfirst.
  destruct record as [|kv rest0]; [contradiction|].
  unfold upsert_record. subst order.
  destruct (pop "_line_items" (VList []) (kv :: rest0)) as [line_items order].
  cbn [fst snd] in *. subst line_items. unfold submit_order, call_api.
  rewrite Hreq, Hid, Htrue. cbn [negb truthy iterate submit_lines].
  unfold submit_line. rewrite Hfirst. now split.
Qed.

(** X22.  When the first line item is an object, no later line item can
    fail the record, whatever it is: the result is the order id with
    success=true and the objects among the line items are requested in
    order.  The counts logged after the loop add up to the number of line
    items, and the failed ones are exactly the items that are not objects,
    for which nothing is requested, and the objects whose request gets no
    usable answer. *)
Theorem later_lines_cannot_fail (record : dict) (w : world)
    (resp : response) (order_id : value) (first : dict)
    (others : list value) :
  record <> [] ->
  let order := snd (pop "_line_items" (VList []) record) in
  let items := VDict first :: others in
  fst (pop "_line_items" (VList []) record) = VList items ->
  request_api (sent w) (order_request order) = Ok resp ->
  find_order_id (body_or_empty resp) = Ok order_id ->
  truthy order_id = true ->
  fst (upsert record w) = (Some (str order_id), true, []) /\
  sent (snd (upsert record w))
  = (sent w ++ order_request order
       :: line_requests order_id (dict_items items))%list /\
  exists s f,
    In (LinesComplete order_id s f) (log (snd (upsert record w))) /\
    (s + f = List.length items)%nat /\
    (f = List.length (stray_items items)
         + failed (sent w ++ [order_request order])
             (line_requests order_id (dict_items items)))%nat.
Proof.
  intros Hne order items Hli Hreq Hid Htrue.
  destruct record as [|kv rest0]; [contradiction|].
  unfold upsert_record. subst order.
  destruct (pop "_line_items" (VList []) (kv :: rest0)) as [line_items order].
  cbn [fst snd] in *. subst line_items. unfold submit_order, call_api.
  rewrite Hreq, Hid, Htrue. subst items.
  cbn [negb truthy iterate submit_lines].
  unfold submit_line. cbn [order_line_payload]. unfold call_api.
  cbn [sent log logging dict_items stray_items line_requests map failed_lines].
  set (req := line_request (line_payload order_id first)).
  fold (line_requests order_id (dict_items others)).
  destruct (line_answer (request_api _ req)) as [[id data]|e];
    match goal with
    | |- context [lines _ _ ?i (Some ?b) ?s1 ?f1 ?w1] =>
        destruct (submit_lines_bound order_id others i b s1 f1 w1)
          as (s' & f' & w' & Hrun & Hcount & Hfail & Hsent)
    end;
    rewrite Hrun; cbn [sent logging] in Hsent, Hfail;
    (split; [reflexivity|]);
    (split;
     [ destruct (0 <? f')%nat; cbn [snd sent logging];
       rewrite Hsent, <- !app_assoc; reflexivity
     | exists s', f'; split;
       [ destruct (0 <? f')%nat; cbn [snd log logging];
         repeat rewrite in_app_iff; simpl; tauto
       | split; [cbn [List.length]; lia|lia] ] ]).
Qed.

Lemma upsert_sends_order_first (record : dict) (w : world) :
  record <> [] ->
  exists rest,
    sent (snd (upsert record w))
    = (sent w ++ order_request (snd (pop "_line_items" (VList []) record))
         :: rest)%list.
Proof.
  intros Hne. destruct record as [|kv rest0]; [contradiction|].
  unfold upsert_record.
  destruct (pop "_line_items" (VList []) (kv :: rest0)) as [line_items order].
  cbn [snd]. unfold submit_order, call_api.
  destruct (request_api (sent w) (order_request order)) as [resp|e];
    [|now exists []].
  destruct (find_order_id (body_or_empty resp)) as [order_id|e];
    [|now exists []].
  destruct (truthy order_id); cbn [negb]; [|now exists []].
  destruct (truthy line_items); [|now exists []].
  destruct (iterate line_items) as [items|e]; [|now exists []].
  match goal with
  | |- context [lines _ _ ?i ?b ?s1 ?f1 ?w1] =>
      destruct (submit_lines_requests order_id items i b s1 f1 w1)
        as (ds & Hsent & _);
      destruct (lines order_id items i b s1 f1 w1) as [[[s f]|e] w']
  end; cbn [snd sent logging] in Hsent;
    exists (line_requests order_id ds);
    try destruct (0 <? f)%nat; cbn [snd sent logging];
    rewrite Hsent, <- app_assoc; reflexivity.
Qed.

End Submission.

Section Pipeline.

Variable request_api : list request -> request -> res response.
Variable fromisoformat : string -> option datetime.
Variable json_loads : string -> option value.

Lemma remove_set_absent (k : string) (v : value) (d : dict) :
  lookup k d = None -> remove k (set k v d) = d.
Proof.
  induction d as [|[k' v'] r IH]; simpl.
  - now rewrite String.eqb_refl.
  - destruct (String.eqb k' k) eqn:E; [discriminate|].
    intros H. simpl. rewrite E. now rewrite IH.
Qed.

(** X23.  From mapping to submission.  The payload of a mapped record
    carries the parsed line items under "_line_items" only until
    [upsert_record] takes them out: the body of the order request is the
    payload without that key, every other field as mapped, and the line
    items the loop works on are the ones parsed from the record. *)
Theorem line_items_key_stays_inside (config record payload : dict)
    (w : world) :
  preprocess_record fromisoformat json_loads config record = Ok payload ->
  let order := snd (pop "_line_items" (VList []) payload) in
  fst (pop "_line_items" (VList []) payload)
  = _parse_line_items json_loads (get "line_items" record) /\
  lookup "_line_items" order = None /\
  (forall k, k <> "_line_items" -> lookup k order = lookup k payload) /\
  exists rest,
    sent (snd (upsert_record request_api payload w))
    = (sent w ++ order_request order :: rest)%list.
Proof.
  intros H order.
  assert (Hne : payload <> []).
  { intros ->. unfold preprocess_record in H. cbv zeta in H.
    destruct (negb _); [discriminate|]. injection H as H.
    revert H. generalize (_parse_line_items json_loads (get "line_items" record)).
    intros v. match goal with
              | |- set _ _ ?p = [] -> _ => destruct p as [|[k0 v0] r]; simpl
              end; [discriminate|]. destruct (String.eqb k0 _); discriminate. }
  destruct (upsert_sends_order_first request_api payload w Hne) as [rest Hsent].
  fold order in Hsent.
  MappingExtras.open_payload H.
  match goal with
  | order := snd (pop _ _ (set _ ?li ?p)) |- _ =>
      assert (Habs : lookup "_line_items" p = None)
        by (MappingExtras.skip_steps; reflexivity);
      assert (Hpop : pop "_line_items" (VList []) (set "_line_items" li p)
                     = (li, p))
        by (unfold pop; now rewrite lookup_set_same, (remove_set_absent _ _ _ Habs))
  end.
  subst order. rewrite Hpop in *. cbn [fst snd] in *.
  split; [reflexivity|]. split; [exact Habs|]. split.
  - intros k Hk. symmetry. apply lookup_set_other. congruence.
  - exists rest. exact Hsent.
Qed.

End Pipeline.


(** Witness of X20: line items that decoded to the number 5. *)
Lemma uniterable_line_items_fail_witness :
  exists e,
    fst (upsert_record (Samples.api_rejecting "502") Samples.number_lines
           Samples.fresh) = (None, false, error_updates e) /\
    exc_type e = "TypeError" /\
    sent (snd (upsert_record (Samples.api_rejecting "502")
                 Samples.number_lines Samples.fresh))
    = [order_request [("refNum", VStr "12"); ("shopID", VStr "1")]].
Proof.
  eexists.
  destruct (uniterable_line_items_fail (Samples.api_rejecting "502")
              Samples.number_lines Samples.fresh Samples.created_order
              (VStr "42") _ ltac:(discriminate) eq_refl eq_refl eq_refl
              eq_refl eq_refl) as [Hout Hsent].
  split; [exact Hout|]. split; [reflexivity|exact Hsent].
Defined.

(** Witness of X21: a text before an object. *)
Lemma first_line_not_object_fails_witness :
  fst (upsert_record (Samples.api_rejecting "000") Samples.text_first
         Samples.fresh) = (None, false, error_updates unbound_payload) /\
  sent (snd (upsert_record (Samples.api_rejecting "000") Samples.text_first
               Samples.fresh))
  = [order_request [("refNum", VStr "11"); ("shopID", VStr "1")]].
Proof.
  eapply (first_line_not_object_fails (Samples.api_rejecting "000")
            Samples.text_first Samples.fresh Samples.created_order
            (VStr "42") (VStr "501") [Samples.line "502" 1]);
    try reflexivity; discriminate.
Defined.

(** Witness of X22: a text between two objects, each of which is
    created. *)
Lemma later_lines_cannot_fail_witness :
  fst (upsert_record (Samples.api_rejecting "000") Samples.mixed_lines
         Samples.fresh) = (Some "42", true, []) /\
  List.length
    (sent (snd (upsert_record (Samples.api_rejecting "000")
                  Samples.mixed_lines Samples.fresh))) = 3%nat /\
  exists s f,
    In (LinesComplete (VStr "42") s f)
       (log (snd (upsert_record (Samples.api_rejecting "000")
                    Samples.mixed_lines Samples.fresh))) /\
    (s + f = 3)%nat /\ f = 1%nat.
Proof.
  destruct (later_lines_cannot_fail (Samples.api_rejecting "000")
              Samples.mixed_lines Samples.fresh Samples.created_order
              (VStr "42")
              [("productId", VStr "501"); ("quantity", VInt 3)]
              [VStr "502"; Samples.line "503" 2]
              ltac:(discriminate) eq_refl eq_refl eq_refl eq_refl)
    as (Hout & Hsent & s & f & Hlog & Hsum & Hfail).
  split; [exact Hout|]. split; [now rewrite Hsent|].
  exists s, f. split; [exact Hlog|]. split; [exact Hsum|exact Hfail].
Defined.

(** Witness of X23: the sample order. *)
Lemma line_items_key_stays_inside_witness :
  exists payload,
    preprocess_record Formats.fromisoformat_plain Formats.json_loads_none
      [] Samples.order_record = Ok payload /\
    lookup "_line_items" (snd (pop "_line_items" (VList []) payload)) = None /\
    exists rest,
      sent (snd (upsert_record (Samples.api_rejecting "000") payload
                   Samples.fresh))
      = ([] ++ order_request (snd (pop "_line_items" (VList []) payload))
            :: rest)%list.
Proof.
  eexists. split; [reflexivity|].
  destruct (line_items_key_stays_inside (Samples.api_rejecting "000")
              Formats.fromisoformat_plain Formats.json_loads_none
              [] Samples.order_record _ Samples.fresh eq_refl)
    as (_ & Habs & _ & Hsent).
  split; [exact Habs|exact Hsent].
Defined.

End SubmissionExtras.
